(** * The MCP test-suite client: request/response correlation over SSE

    A shallow embedding of [client/mcp_client.py], [client/sse_client.py] and
    the message models of [models/mcp_messages.py].

    Conventions of the embedding:
    - Python [float] seconds (timeouts, clock readings, back-off delays) are
      rationals [Q];
    - [Optional[T]] is [option T]; a value typed [Any] is a [json] tree in
      which [JNull] stands for [None];
    - an [asyncio.Queue] is the list of its items, head first: [get] takes the
      head and [put] appends at the tail;
    - a [string] is a Python [str] whose characters lie below U+0100 and an
      [ascii] is one such character, its code point and not a byte of an
      encoding; text with characters beyond is outside the embedding;
    - everything the event loop, the network and the wall clock decide is an
      explicit input (a script) of the function that consumes it. *)

From Stdlib Require Import String Ascii List ZArith QArith Qminmax Bool Lia DecimalString.
Import ListNotations.
Local Open Scope string_scope.
Local Open Scope Z_scope.
Set Warnings "-register-all".

(* ------------------------------------------------------------------ *)
(** ** JSON values and the message models *)

Inductive json : Type :=
| JNull
| JBool (b : bool)
| JInt (n : Z)
| JFloat (text : string)            (* a non-integral number, by its Python repr *)
| JStr (s : string)
| JArr (items : list json)
| JObj (fields : list (string * json)).

(** Python truthiness, [bool(v)]. *)
Definition truthy (v : json) : bool :=
  match v with
  | JNull => false
  | JBool b => b
  | JInt n => negb (n =? 0)
  | JFloat text => negb (String.eqb text "0.0" || String.eqb text "-0.0")
  | JStr s => negb (String.eqb s "")
  | JArr items => match items with [] => false | _ => true end
  | JObj fields => match fields with [] => false | _ => true end
  end.

(** [d.get(key)] on a decoded JSON object; json.loads keeps the last of
    repeated keys, so the lookup scans from the right. *)
Fixpoint assoc_last (key : string) (fields : list (string * json)) : option json :=
  match fields with
  | [] => None
  | (k, v) :: rest =>
      match assoc_last key rest with
      | Some w => Some w
      | None => if String.eqb k key then Some v else None
      end
  end.

(** JSON-RPC ids: [int | str]. *)
Inductive request_id : Type :=
| IdInt (n : Z)
| IdStr (s : string).

Definition request_id_eqb (a b : request_id) : bool :=
  match a, b with
  | IdInt x, IdInt y => x =? y
  | IdStr x, IdStr y => String.eqb x y
  | _, _ => false
  end.

(** [a == b] on [Optional[int | str]]. *)
Definition opt_id_eqb (a b : option request_id) : bool :=
  match a, b with
  | None, None => true
  | Some x, Some y => request_id_eqb x y
  | _, _ => false
  end.

Module MCPError.
Record t : Type := mk { code : Z; message : string; data : json }.
End MCPError.

Module MCPResponse.
Record t : Type := mk {
  jsonrpc : string;
  result : json;
  error : option MCPError.t;
  id : option request_id
}.

Definition is_success (r : t) : bool :=
  match error r with None => true | Some _ => false end.

Definition is_error (r : t) : bool :=
  match error r with None => false | Some _ => true end.
End MCPResponse.

(* ------------------------------------------------------------------ *)
(** ** MCPClient._wait_for_sse_response *)

(** One iteration of the wait loop as the environment plays it: the reading
    [time.time() - start_time] taken at the top of the iteration, and the
    Responses the listener task deposits while [queue.get()] is pending.
    A script lists the iterations that start before the clock is exhausted;
    past its end the clock has run beyond the deadline. *)
Record wait_turn : Type := { elapsed : Q; arrivals : list MCPResponse.t }.

Inductive wait_outcome : Type :=
| Returned (r : MCPResponse.t)
| TimedOut.                        (* asyncio.TimeoutError *)

(** [request_id is None or response.id == request_id] *)
Definition matches (request_id : option request_id) (r : MCPResponse.t) : bool :=
  match request_id with
  | None => true
  | Some _ => opt_id_eqb (MCPResponse.id r) request_id
  end.

(** The loop, with the queue and the local [pending_responses] threaded
    through.  The result pairs the outcome with the queue left behind.

    - top of the loop: [remaining_timeout <= 0] raises at once (the raise
      stands outside the [try], nothing is re-queued);
    - [wait_for(queue.get(), remaining)] on a queue that stays empty raises
      inside the [try]: pending is re-queued, then the timeout is raised;
    - a matching Response: pending is re-queued, the Response returned;
    - any other Response is appended to pending. *)
Fixpoint _wait_for_sse_response (request_id : option request_id) (timeout : Q)
    (script : list wait_turn) (queue pending : list MCPResponse.t)
    : wait_outcome * list MCPResponse.t :=
  match script with
  | [] => (TimedOut, queue)
  | turn :: script' =>
      if Qle_bool (timeout - elapsed turn) 0 then (TimedOut, queue)
      else
        match (queue ++ arrivals turn)%list with
        | [] => (TimedOut, pending)
        | response :: queue' =>
            if matches request_id response
            then (Returned response, (queue' ++ pending)%list)
            else _wait_for_sse_response request_id timeout script' queue'
                   (pending ++ [response])%list
        end
  end.

(* ------------------------------------------------------------------ *)
(** ** Python text: [in], [startswith], [rstrip], [split], [str], [repr] *)

Fixpoint startswith (s prefix : string) : bool :=
  match prefix, s with
  | EmptyString, _ => true
  | String p prefix', String c s' => Ascii.eqb p c && startswith s' prefix'
  | String _ _, EmptyString => false
  end.

(** [needle in hay] *)
Fixpoint contains (needle hay : string) : bool :=
  startswith hay needle ||
  match hay with
  | EmptyString => false
  | String _ hay' => contains needle hay'
  end.

Definition slash : ascii := "/"%char.
Definition ampersand : ascii := "&"%char.
Definition apostrophe : ascii := "'"%char.
Definition double_quote : ascii := "034"%char.
Definition backslash : ascii := "\"%char.

(** [s.rstrip("/")] *)
Fixpoint rstrip_slash (s : string) : string :=
  match s with
  | EmptyString => EmptyString
  | String c s' =>
      match rstrip_slash s' with
      | EmptyString => if Ascii.eqb c slash then EmptyString else String c EmptyString
      | rest => String c rest
      end
  end.

(** [s.split("/")[-1]]: what follows the last slash, the whole of [s] when it
    has none. *)
Fixpoint last_segment (s : string) : string :=
  match s with
  | EmptyString => EmptyString
  | String c s' =>
      if contains "/" s' then last_segment s'
      else if Ascii.eqb c slash then s' else s
  end.

(** The longest prefix of [s] free of ampersands: what [[^&]+] consumes. *)
Fixpoint span_not_amp (s : string) : string :=
  match s with
  | EmptyString => EmptyString
  | String c s' => if Ascii.eqb c ampersand then EmptyString else String c (span_not_amp s')
  end.

Fixpoint drop (n : nat) (s : string) : string :=
  match n, s with
  | O, _ => s
  | S n', String _ s' => drop n' s'
  | S _, EmptyString => EmptyString
  end.

(** [re.search(r"sessionId=([^&]+)", s)], returning [group(1)]: the leftmost
    position at which the literal is followed by at least one character other
    than an ampersand. *)
Fixpoint search_sessionId (s : string) : option string :=
  let here :=
    if startswith s "sessionId=" then
      match span_not_amp (drop 10 s) with
      | EmptyString => None
      | g => Some g
      end
    else None in
  match here with
  | Some g => Some g
  | None =>
      match s with
      | EmptyString => None
      | String _ s' => search_sessionId s'
      end
  end.

(** [str(n)] for an [int]. *)
Definition str_int (n : Z) : string :=
  DecimalString.NilEmpty.string_of_int (Z.to_int n).

Fixpoint join (sep : string) (parts : list string) : string :=
  match parts with
  | [] => EmptyString
  | [p] => p
  | p :: rest => p ++ sep ++ join sep rest
  end.

Definition hex_digit (n : N) : ascii :=
  ascii_of_N (if (n <? 10)%N then 48 + n else 87 + n)%N.

(** [c.isprintable()]: below U+0100 all characters but the control
    characters (up to U+001F, and U+007F to U+009F), the no-break space
    U+00A0 and the soft hyphen U+00AD. *)
Definition printable (c : ascii) : bool :=
  let n := N_of_ascii c in
  (((32 <=? n) && (n <? 127)) || ((161 <=? n) && negb (n =? 173)))%N.

(** How [repr] writes one character inside the quote [q]: backslash and the
    quote behind a backslash, tab, line feed and carriage return by their
    letters, every other character that is not printable as a backslash, an
    x and its two hexadecimal digits, and a printable character as it is. *)
Definition repr_char (q c : ascii) : string :=
  let n := N_of_ascii c in
  if Ascii.eqb c backslash then String backslash (String backslash EmptyString)
  else if Ascii.eqb c q then String backslash (String q EmptyString)
  else if (n =? 9)%N then String backslash "t"
  else if (n =? 10)%N then String backslash "n"
  else if (n =? 13)%N then String backslash "r"
  else if negb (printable c)
       then String backslash
              (String "x" (String (hex_digit (n / 16)) (String (hex_digit (n mod 16)) EmptyString)))
  else String c EmptyString.

Fixpoint repr_chars (q : ascii) (s : string) : string :=
  match s with
  | EmptyString => EmptyString
  | String c s' => repr_char q c ++ repr_chars q s'
  end.

Fixpoint has_char (c : ascii) (s : string) : bool :=
  match s with
  | EmptyString => false
  | String d s' => Ascii.eqb c d || has_char c s'
  end.

(** [repr(s)] for a [str]: double quotes only when the text has an apostrophe
    and no double quote. *)
Definition repr_str (s : string) : string :=
  let q := if has_char apostrophe s && negb (has_char double_quote s)
           then double_quote else apostrophe in
  String q (repr_chars q s ++ String q EmptyString).

(** [repr(v)] for a decoded JSON value (a dict prints its items in order). *)
Fixpoint py_repr (v : json) : string :=
  match v with
  | JNull => "None"
  | JBool true => "True"
  | JBool false => "False"
  | JInt n => str_int n
  | JFloat text => text
  | JStr s => repr_str s
  | JArr items => "[" ++ join ", " (map py_repr items) ++ "]"
  | JObj fields =>
      "{" ++ join ", " (map (fun kv => repr_str (fst kv) ++ ": " ++ py_repr (snd kv)) fields) ++ "}"
  end.

(** [str(e)] for an [MCPError]: pydantic prints a model as its fields,
    [name=repr(value)], separated by one space. *)
Definition str_MCPError (e : MCPError.t) : string :=
  "code=" ++ str_int (MCPError.code e) ++
  " message=" ++ repr_str (MCPError.message e) ++
  " data=" ++ py_repr (MCPError.data e).

(* ------------------------------------------------------------------ *)
(** ** Configuration and the SSE models *)

Module MCPServerConfig.
Record t : Type := mk {
  base_url : string;
  sse_endpoint : string;
  message_endpoint : string;
  api_key : string;
  auth_method : string
}.

Definition sse_url (c : t) : string := base_url c ++ sse_endpoint c.
Definition message_url (c : t) : string := base_url c ++ message_endpoint c.
End MCPServerConfig.

Module SSEEvent.
Record t : Type := mk {
  event : option string;
  data : string;
  id : option string;
  retry : option Z
}.

Definition is_endpoint (e : t) : bool :=
  match event e with
  | Some k => String.eqb k "endpoint"
  | None => false
  end.
End SSEEvent.

Module ConnectionInfo.
Record t : Type := mk {
  connected_at : Q;
  session_id : option string;
  message_endpoint : option string;
  server_info : json;
  protocol_version : option string
}.
End ConnectionInfo.

(** What the [EventSource] of aiohttp_sse_client delivers: events stamped with
    the time they arrive (seconds after the stream opened), and what follows
    the last of them. *)
Module MessageEvent.
Record t : Type := mk {
  at_time : Q;
  type : string;
  data : string;
  last_event_id : string
}.
End MessageEvent.

(** An iteration over the event source never runs out. When the server ends
    the response, the source waits and connects again: the events of the new
    response are further items of the stream, a reconnection that fails makes
    the iteration raise, and one that brings nothing leaves the reader
    waiting as a silent stream does. *)
Inductive stream_end : Type :=
| Closed (at_time : Q)                (* the server ends the response; the
                                         source reconnects, and no event
                                         comes of it *)
| Broken (at_time : Q) (msg : string) (* the iteration raises *)
| Silent.                             (* open, and nothing more arrives *)

Record stream : Type := { items : list MessageEvent.t; ending : stream_end }.

(** The exceptions the client code raises, catches or lets through. Each
    carries the text [str(e)] gives. *)
Inductive exn : Type :=
| TimeoutError (msg : string)              (* asyncio.TimeoutError *)
| RuntimeError (msg : string)
| HTTPStatusError (status : Z) (msg : string)
| JSONDecodeError (msg : string)
| ValidationError (msg : string)           (* pydantic, or the TypeError of [**data] *)
| TransportError (msg : string).           (* any other error out of httpx/aiohttp *)

Definition str_exn (e : exn) : string :=
  match e with
  | TimeoutError msg | RuntimeError msg | HTTPStatusError _ msg
  | JSONDecodeError msg | ValidationError msg | TransportError msg => msg
  end.

(** [except asyncio.TimeoutError] *)
Definition is_timeout (e : exn) : bool :=
  match e with TimeoutError _ => true | _ => false end.

(** [x or 10.0] for an [Optional[float]] *)
Definition float_or (x : option Q) (default : Q) : Q :=
  match x with
  | Some t => if Qeq_bool t 0 then default else t
  | None => default
  end.

Module SSEClient.

Record t : Type := mk {
  config : MCPServerConfig.t;
  _session : bool;                       (* an aiohttp session is open *)
  _event_source : option stream;         (* what is left to read *)
  _is_connected : bool;
  _connection_info : option ConnectionInfo.t;
  _last_event_time : option Q
}.

(** [SSEClient(config)] *)
Definition init (c : MCPServerConfig.t) : t :=
  mk c false None false None None.

Definition is_connected (self : t) : bool := _is_connected self.

Definition session_id (self : t) : option string :=
  match _connection_info self with
  | Some ci => ConnectionInfo.session_id ci
  | None => None
  end.

(** The [message_endpoint] property. *)
Definition message_endpoint (self : t) : option string :=
  match _connection_info self with
  | Some ci =>
      match ConnectionInfo.message_endpoint ci with
      | Some endpoint =>
          if String.eqb endpoint "" then Some (MCPServerConfig.message_url (config self))
          else if startswith endpoint "/"
               then Some (MCPServerConfig.base_url (config self) ++ endpoint)
               else Some endpoint
      | None => Some (MCPServerConfig.message_url (config self))
      end
  | None => Some (MCPServerConfig.message_url (config self))
  end.

Definition _extract_session_id (endpoint : option string) : option string :=
  match endpoint with
  | None => None
  | Some e =>
      if String.eqb e "" then None
      else
        match (if contains "sessionId=" e then search_sessionId e else None) with
        | Some g => Some g
        | None =>
            if contains "/" e then Some (last_segment (rstrip_slash e)) else None
        end
  end.

Definition close (self : t) : t :=
  mk (config self) false None false None (_last_event_time self).

(** How the stream answers the GET of [EventSource.connect]. *)
Inductive open_result : Type :=
| Opened (s : stream)
| OpenTimedOut
| OpenFailed (msg : string).

Inductive endpoint_wait : Type :=
| GotEndpoint (e : SSEEvent.t) (rest : list MessageEvent.t)
| StreamEnded                         (* the [async for] runs out: no stream
                                         makes it *)
| DeadlineExpired                     (* [asyncio.timeout] fires *)
| IterationRaised (msg : string).

(** [async with asyncio.timeout(deadline): async for event in source: ...]
    up to the first endpoint event. Where nothing more arrives, the stream
    silent or the response ended, the deadline is what ends the wait. *)
Fixpoint wait_for_endpoint (deadline : Q) (events : list MessageEvent.t)
    (ending : stream_end) : endpoint_wait :=
  match events with
  | [] =>
      match ending with
      | Closed _ => DeadlineExpired
      | Broken at_time msg =>
          if Qle_bool deadline at_time then DeadlineExpired else IterationRaised msg
      | Silent => DeadlineExpired
      end
  | event :: rest =>
      if Qle_bool deadline (MessageEvent.at_time event) then DeadlineExpired
      else
        let sse_event :=
          SSEEvent.mk (Some (MessageEvent.type event)) (MessageEvent.data event)
            (Some (MessageEvent.last_event_id event)) None in
        if SSEEvent.is_endpoint sse_event then GotEndpoint sse_event rest
        else wait_for_endpoint deadline rest ending
  end.

Section Connect.

(** [json.loads], [None] where it raises [JSONDecodeError]. *)
Variable json_loads : string -> option json.

Definition parse_json (e : SSEEvent.t) : option json := json_loads (SSEEvent.data e).

(** The value handed to [message_endpoint=] and to [_extract_session_id]
    when the payload decoded to a truthy JSON value: [endpoint_data.get("uri")].
    Anything but a dict has no [get]; a uri that is neither a string nor
    [None] is refused by [_extract_session_id] or by the [ConnectionInfo]
    model. *)
Definition uri_of (endpoint_data : json) : exn + option string :=
  match endpoint_data with
  | JObj fields =>
      match assoc_last "uri" fields with
      | None | Some JNull => inr None
      | Some (JStr uri) => inr (Some uri)
      | Some _ => inl (ValidationError "message_endpoint: Input should be a valid string")
      end
  | _ => inl (TransportError "object has no attribute 'get'")
  end.

(** The body of [if sse_event.is_endpoint:]. *)
Definition connection_info_of (wall : Q) (e : SSEEvent.t) : exn + ConnectionInfo.t :=
  let raw := ConnectionInfo.mk wall (_extract_session_id (Some (SSEEvent.data e)))
               (Some (SSEEvent.data e)) JNull None in
  match parse_json e with
  | Some endpoint_data =>
      if truthy endpoint_data then
        match uri_of endpoint_data with
        | inr uri => inr (ConnectionInfo.mk wall (_extract_session_id uri) uri JNull None)
        | inl err => inl err
        end
      else inr raw
  | None => inr raw
  end.

(** [connect(timeout)]. [now] is [time.time()] once the stream is open and
    [wall] is [datetime.now()] at the endpoint event. *)
Definition connect (self : t) (timeout : option Q) (opening : open_result)
    (now wall : Q) : bool * t :=
  if _is_connected self then (true, self)
  else
    match opening with
    | OpenTimedOut | OpenFailed _ =>
        (false, close (mk (config self) true (Some {| items := []; ending := Silent |})
                          false (_connection_info self) (_last_event_time self)))
    | Opened s =>
        let deadline := float_or timeout 10 in
        let live (rest : list MessageEvent.t) (ci : option ConnectionInfo.t) :=
          mk (config self) true (Some {| items := rest; ending := ending s |})
             true ci (Some now) in
        match wait_for_endpoint deadline (items s) (ending s) with
        | GotEndpoint e rest =>
            match connection_info_of wall e with
            | inr ci => (true, live rest (Some ci))
            | inl _ => (false, close (live rest (_connection_info self)))
            end
        | StreamEnded =>                  (* the [return True] behind the loop *)
            (true, live [] (_connection_info self))
        | DeadlineExpired | IterationRaised _ =>
            (false, close (live [] (_connection_info self)))
        end
    end.

End Connect.

End SSEClient.

(* ------------------------------------------------------------------ *)
(** ** ReconnectingSSEClient *)

Module ReconnectingSSEClient.

Record t : Type := mk {
  base : SSEClient.t;
  max_retries : Z;
  backoff_base : Q;
  backoff_max : Q;
  backoff_multiplier : Q;
  _reconnect_count : Z
}.

Definition reconnect_count (self : t) : Z := _reconnect_count self.

(** What [connect_with_retry] does to the outside, in order. *)
Inductive action : Type :=
| Sleep (delay : Q)                   (* [await asyncio.sleep(delay)] *)
| Connect.                            (* [await self.connect()] *)

(** What the server and the clock do at the n-th call of [connect]. *)
Record attempt_env : Type := {
  opening : SSEClient.open_result;
  now : Q;
  wall : Q
}.

Section Retry.

Variable json_loads : string -> option json.
Variable server : nat -> attempt_env.

(** The [for attempt in range(self.max_retries + 1)] loop with [todo]
    iterations left; [trace] is what was done so far, latest last. *)
Fixpoint retry_loop (todo attempt : nat) (delay : Q) (self : t)
    (trace : list action) : bool * t * list action :=
  match todo with
  | O => (false, self, trace)
  | S todo' =>
      let retrying := (0 <? attempt)%nat in
      let count := if retrying then _reconnect_count self + 1 else _reconnect_count self in
      let trace1 := if retrying then (trace ++ [Sleep delay])%list else trace in
      let delay1 :=
        if retrying then Qminmax.Qmin (delay * backoff_multiplier self) (backoff_max self)
        else delay in
      let env := server attempt in
      let '(ok, sse) :=
        SSEClient.connect json_loads (base self) None (opening env) (now env) (wall env) in
      let self1 :=
        mk sse (max_retries self) (backoff_base self) (backoff_max self)
           (backoff_multiplier self) count in
      if ok then (true, self1, (trace1 ++ [Connect])%list)
      else retry_loop todo' (S attempt) delay1 self1 (trace1 ++ [Connect])%list
  end.

Definition connect_with_retry (self : t) : bool * t * list action :=
  retry_loop (Z.to_nat (max_retries self + 1)) 0 (backoff_base self) self [].

End Retry.

(** The delays slept, in order, and the number of [connect] calls. *)
Fixpoint sleeps (trace : list action) : list Q :=
  match trace with
  | [] => []
  | Sleep d :: rest => d :: sleeps rest
  | Connect :: rest => sleeps rest
  end.

Fixpoint attempts (trace : list action) : nat :=
  match trace with
  | [] => O
  | Sleep _ :: rest => attempts rest
  | Connect :: rest => S (attempts rest)
  end.

End ReconnectingSSEClient.

(* ------------------------------------------------------------------ *)
(** ** Requests, tool models and the library the client calls *)

Module MCPRequest.
Record t : Type := mk {
  jsonrpc : string;
  method : string;
  params : option json;
  id : option request_id
}.

Definition tool_call (tool_name : string) (arguments : json) (request_id : request_id) : t :=
  mk "2.0" "tools/call"
     (Some (JObj [("name", JStr tool_name); ("arguments", arguments)]))
     (Some request_id).

Definition list_tools (request_id : request_id) : t :=
  mk "2.0" "tools/list" None (Some request_id).

Definition initialize (request_id : request_id) : t :=
  mk "2.0" "initialize"
     (Some (JObj [("protocolVersion", JStr "2024-11-05");
                  ("capabilities", JObj []);
                  ("clientInfo", JObj [("name", JStr "mcp-test-suite");
                                       ("version", JStr "0.1.0")])]))
     (Some request_id).

Definition initialized_notification : t :=
  mk "2.0" "notifications/initialized" None None.
End MCPRequest.

Module ToolInfo.
Record t : Type := mk {
  name : string;
  description : option string;
  inputSchema : option json
}.
End ToolInfo.

Module MCPToolResult.
Record t : Type := mk { content : list json; isError : bool }.
End MCPToolResult.

Module ToolCallResult.
Record t : Type := mk {
  tool_name : string;
  success : bool;
  result : option MCPToolResult.t;
  error : option string;
  duration_ms : Q;
  response_size_bytes : Z
}.
End ToolCallResult.

(** The library code the client calls and this development does not look
    into: the JSON codec, the pydantic constructors of the three models built
    from decoded JSON, and two renderings. Each constructor either returns the
    model or raises. *)
Record library : Type := {
  json_loads : string -> option json;               (* [None]: JSONDecodeError *)
  json_error_text : string -> string;               (* [str] of that error *)
  json_dumps : json -> string;
  MCPResponse_of : json -> exn + MCPResponse.t;     (* the [MCPResponse] constructor *)
  ToolsListResult_of : json -> exn + list ToolInfo.t;
  MCPToolResult_of : json -> exn + MCPToolResult.t;
  http_error_text : Z -> string;                    (* text of httpx's HTTPStatusError *)
  str_float : Q -> string                           (* [str(x)] for a float *)
}.

(** [response.raise_for_status()] lets the 2xx codes through. *)
Definition is_success_status (status_code : Z) : bool :=
  (200 <=? status_code) && (status_code <=? 299).

(** The characters [str.strip()] removes, those with [c.isspace()]: below
    U+0100 the controls U+0009 to U+000D and U+001C to U+001F, the space,
    the next-line control U+0085 and the no-break space U+00A0. *)
Definition is_space (c : ascii) : bool :=
  let n := N_of_ascii c in
  (((9 <=? n) && (n <=? 13)) || ((28 <=? n) && (n <=? 32))
   || (n =? 133) || (n =? 160))%N.

Fixpoint all_space (s : string) : bool :=
  match s with
  | EmptyString => true
  | String c s' => is_space c && all_space s'
  end.

(** [not text or text.strip() == ""] *)
Definition blank (text : string) : bool := all_space text.

(** What one POST to the message endpoint comes to. *)
Inductive post_result : Type :=
| PostRaised (e : exn)
| Replied (status_code : Z) (text : string).

(** The network: the answer to a POST of a request to a URL. *)
Definition network : Type := string -> MCPRequest.t -> post_result.

(** [f"{request_id}"] *)
Definition str_opt_id (i : option request_id) : string :=
  match i with
  | None => "None"
  | Some (IdInt n) => str_int n
  | Some (IdStr s) => s
  end.

Inductive log_entry : Type :=
| LogDebug (msg : string)
| LogInfo (msg : string)
| LogWarning (msg : string)
| LogError (msg : string).

(** [s[:n]] *)
Fixpoint take (n : nat) (s : string) : string :=
  match n, s with
  | S n', String c s' => String c (take n' s')
  | _, _ => EmptyString
  end.

(* ------------------------------------------------------------------ *)
(** ** MCPClient *)

Module MCPClient.

(** An [asyncio.Task] that was created and not cancelled. *)
Inductive task : Type := Scheduled.

Record t : Type := mk {
  config : MCPServerConfig.t;
  timeout : Q;
  _sse_client : option SSEClient.t;
  _http_client : bool;                    (* an httpx client is open *)
  _request_id : Z;
  _tools_cache : option (list ToolInfo.t);
  _initialized : bool;
  _response_queue : list MCPResponse.t;
  _listener_task : option task
}.

(** [MCPClient(config, timeout)] *)
Definition init (c : MCPServerConfig.t) (timeout : Q) : t :=
  mk c timeout None false 0 None false [] None.

Definition set_sse_client (v : option SSEClient.t) (s : t) : t :=
  mk (config s) (timeout s) v (_http_client s) (_request_id s) (_tools_cache s)
     (_initialized s) (_response_queue s) (_listener_task s).
Definition set_http_client (v : bool) (s : t) : t :=
  mk (config s) (timeout s) (_sse_client s) v (_request_id s) (_tools_cache s)
     (_initialized s) (_response_queue s) (_listener_task s).
Definition set_request_id (v : Z) (s : t) : t :=
  mk (config s) (timeout s) (_sse_client s) (_http_client s) v (_tools_cache s)
     (_initialized s) (_response_queue s) (_listener_task s).
Definition set_tools_cache (v : option (list ToolInfo.t)) (s : t) : t :=
  mk (config s) (timeout s) (_sse_client s) (_http_client s) (_request_id s) v
     (_initialized s) (_response_queue s) (_listener_task s).
Definition set_initialized (v : bool) (s : t) : t :=
  mk (config s) (timeout s) (_sse_client s) (_http_client s) (_request_id s)
     (_tools_cache s) v (_response_queue s) (_listener_task s).
Definition set_response_queue (v : list MCPResponse.t) (s : t) : t :=
  mk (config s) (timeout s) (_sse_client s) (_http_client s) (_request_id s)
     (_tools_cache s) (_initialized s) v (_listener_task s).
Definition set_listener_task (v : option task) (s : t) : t :=
  mk (config s) (timeout s) (_sse_client s) (_http_client s) (_request_id s)
     (_tools_cache s) (_initialized s) (_response_queue s) v.

(** A method body: it reads and writes the client, and returns or raises.
    What was written before a raise stays written. *)
Definition M (A : Type) : Type := t -> (exn + A) * t.

Definition ret {A : Type} (a : A) : M A := fun s => (inr a, s).

Definition raise {A : Type} (e : exn) : M A := fun s => (inl e, s).

Definition bind {A B : Type} (c : M A) (k : A -> M B) : M B :=
  fun s =>
    match c s with
    | (inr a, s') => k a s'
    | (inl e, s') => (inl e, s')
    end.

(** [try: body except Exception as e: handler(e)] *)
Definition try_except {A : Type} (body : M A) (handler : exn -> M A) : M A :=
  fun s =>
    match body s with
    | (inr a, s') => (inr a, s')
    | (inl e, s') => handler e s'
    end.

Definition lift {A : Type} (r : exn + A) : M A := fun s => (r, s).

Notation "x <- c ;; k" := (bind c (fun x => k))
  (at level 61, c at next level, right associativity).

Definition _next_request_id : M Z :=
  fun s => let n := _request_id s + 1 in (inr n, set_request_id n s).

Definition _ensure_http_client : M unit :=
  fun s => (inr tt, set_http_client true s).

(** The URL [_send_request] and [_send_notification] post to. *)
Definition post_url (sse : SSEClient.t) (s : t) : string :=
  match SSEClient.message_endpoint sse with
  | Some endpoint =>
      if String.eqb endpoint "" then MCPServerConfig.message_url (config s) else endpoint
  | None => MCPServerConfig.message_url (config s)
  end.

(** The default of the [timeout] parameter of [_wait_for_sse_response]. *)
Definition sse_response_timeout : Q := 30.

(** [await self._wait_for_sse_response(request_id, timeout)] on the client's
    own queue. *)
Definition await_sse_response (request_id : option request_id) (timeout : Q)
    (script : list wait_turn) : M MCPResponse.t :=
  fun s =>
    match _wait_for_sse_response request_id timeout script (_response_queue s) [] with
    | (Returned response, queue) => (inr response, set_response_queue queue s)
    | (TimedOut, queue) =>
        (inl (TimeoutError ("Timeout waiting for response to request " ++ str_opt_id request_id)),
         set_response_queue queue s)
    end.

Section Methods.

Variable L : library.

(** [response.json()] then the [MCPResponse] constructor. *)
Definition decode_response (text : string) : exn + MCPResponse.t :=
  match json_loads L text with
  | None => inl (JSONDecodeError (json_error_text L text))
  | Some data => MCPResponse_of L data
  end.

Definition _send_request (net : network) (script : list wait_turn)
    (request : MCPRequest.t) : M MCPResponse.t :=
  fun s =>
    match _sse_client s with
    | None => raise (RuntimeError "Not connected") s
    | Some sse =>
        (_ <- _ensure_http_client ;;
         match net (post_url sse s) request with
         | PostRaised e => raise e
         | Replied status_code text =>
             if negb (is_success_status status_code)
             then raise (HTTPStatusError status_code (http_error_text L status_code))
             else if status_code =? 202
             then await_sse_response (MCPRequest.id request) sse_response_timeout script
             else if blank text
             then await_sse_response (MCPRequest.id request) sse_response_timeout script
             else lift (decode_response text)
         end) s
    end.

(** The POST and its status check stand in a [try] whose handler logs a
    warning: whatever the network answers, the method returns. *)
Definition _send_notification (net : network) (notification : MCPRequest.t) : M unit :=
  fun s =>
    match _sse_client s with
    | None => raise (RuntimeError "Not connected") s
    | Some sse =>
        (_ <- _ensure_http_client ;;
         match net (post_url sse s) notification with
         | PostRaised _ => ret tt
         | Replied _ _ => ret tt
         end) s
    end.

Definition _initialize (net : network) (script : list wait_turn) : M unit :=
  fun s =>
    match _sse_client s with
    | None => raise (RuntimeError "SSE client not connected") s
    | Some sse =>
        match SSEClient.message_endpoint sse with
        | None => raise (RuntimeError "SSE client not connected") s
        | Some endpoint =>
            if String.eqb endpoint "" then raise (RuntimeError "SSE client not connected") s
            else
              (n <- _next_request_id ;;
               response <- _send_request net script (MCPRequest.initialize (IdInt n)) ;;
               match MCPResponse.error response with
               | Some err => raise (RuntimeError ("Initialize failed: " ++ str_MCPError err))
               | None =>
                   _ <- _send_notification net MCPRequest.initialized_notification ;;
                   fun s' => (inr tt, set_initialized true s')
               end) s
        end
    end.

(** What the transport and the server do during one [connect]. *)
Record connect_env : Type := {
  opening : SSEClient.open_result;
  now : Q;
  wall : Q;
  net : network;
  script : list wait_turn
}.

Definition connect (env : connect_env) : M bool :=
  try_except
    (fun s =>
       let '(ok, sse) :=
         SSEClient.connect (json_loads L) (SSEClient.init (config s)) None
           (opening env) (now env) (wall env) in
       let s1 := set_sse_client (Some sse) s in
       if negb ok then (inr false, s1)
       else
         (_ <- _initialize (net env) (script env) ;; ret true)
           (set_listener_task (Some Scheduled) s1))
    (fun _ => ret false).

(** The body of the [async for] of [_listen_for_responses], over the events
    the stream still has; the log is in order of writing. *)
Fixpoint drain (events : list MessageEvent.t) (queue : list MCPResponse.t)
    (log : list log_entry) : list MCPResponse.t * list log_entry :=
  match events with
  | [] => (queue, log)
  | event :: rest =>
      if String.eqb (MessageEvent.type event) "endpoint" then drain rest queue log
      else if String.eqb (MessageEvent.data event) "" then drain rest queue log
      else
        match json_loads L (MessageEvent.data event) with
        | None =>
            drain rest queue
              (log ++ [LogDebug ("Non-JSON SSE event: "
                                   ++ take 100 (MessageEvent.data event))])%list
        | Some data =>
            match MCPResponse_of L data with
            | inr response =>
                drain rest (queue ++ [response])%list
                  (log ++ [LogDebug ("Queued response for request "
                                       ++ str_opt_id (MCPResponse.id response))])%list
            | inl e =>
                drain rest queue
                  (log ++ [LogWarning ("Failed to parse SSE event: " ++ str_exn e)])%list
            end
        end
  end.

(** The listener task run over everything its stream delivers. *)
Definition _listen_for_responses (s : t) : t * list log_entry :=
  match _sse_client s with
  | None => (s, [])
  | Some sse =>
      match SSEClient._event_source sse with
      | None => (s, [])
      | Some source =>
          let '(queue, log) := drain (items source) (_response_queue s) [] in
          let sse' :=
            SSEClient.mk (SSEClient.config sse) (SSEClient._session sse)
              (Some {| items := []; ending := ending source |})
              (SSEClient._is_connected sse) (SSEClient._connection_info sse)
              (SSEClient._last_event_time sse) in
          let s' := set_response_queue queue (set_sse_client (Some sse') s) in
          match ending source with
          | Broken _ msg => (s', (log ++ [LogError ("SSE listener error: " ++ msg)])%list)
          | _ => (s', log)
          end
      end
  end.

Definition list_tools (use_cache : bool) (net : network) (script : list wait_turn)
    : M (list ToolInfo.t) :=
  fun s =>
    match (if use_cache then _tools_cache s else None) with
    | Some tools => (inr tools, s)
    | None =>
        (n <- _next_request_id ;;
         response <- _send_request net script (MCPRequest.list_tools (IdInt n)) ;;
         match MCPResponse.error response with
         | Some err => raise (RuntimeError ("List tools failed: " ++ str_MCPError err))
         | None =>
             if truthy (MCPResponse.result response) then
               tools <- lift (ToolsListResult_of L (MCPResponse.result response)) ;;
               fun s' => (inr tools, set_tools_cache (Some tools) s')
             else ret []
         end) s
    end.

(** [MCPResponse.get_tool_result] *)
Definition get_tool_result (r : MCPResponse.t) : exn + option MCPToolResult.t :=
  match MCPResponse.result r with
  | JObj (_ :: _) =>
      match MCPToolResult_of L (MCPResponse.result r) with
      | inr tr => inr (Some tr)
      | inl e => inl e
      end
  | _ => inr None
  end.

(** What happens around one [call_tool]: the network, the wait script, the
    two clock readings, and whether the [asyncio.timeout] scope of the call
    runs out while the request is under way. *)
Record call_env : Type := {
  call_net : network;
  call_script : list wait_turn;
  start_time : Q;
  end_time : Q;
  scope_expires : bool
}.

(** [async with asyncio.timeout(timeout): body]: when the scope runs out the
    body is cancelled (here: while its POST is in flight) and the scope
    raises the timeout. *)
Definition with_timeout {A : Type} (expires : bool) (body : M A) : M A :=
  fun s =>
    if expires then
      match _sse_client s with
      | Some _ => (inl (TimeoutError ""), set_http_client true s)
      | None => body s
      end
    else body s.

Definition str_opt_float (x : option Q) : string :=
  match x with
  | Some t => str_float L t
  | None => "None"
  end.

Definition call_tool (tool_name : string) (arguments : option json)
    (timeout : option Q) (env : call_env) : M ToolCallResult.t :=
  let arguments :=
    match arguments with
    | Some a => if truthy a then a else JObj []
    | None => JObj []
    end in
  let duration_ms := ((end_time env - start_time env) * 1000)%Q in
  let scoped :=
    match timeout with
    | Some t => negb (Qeq_bool t 0)
    | None => false
    end in
  try_except
    (n <- _next_request_id ;;
     let request := MCPRequest.tool_call tool_name arguments (IdInt n) in
     response <-
       (if scoped
        then with_timeout (scope_expires env)
               (_send_request (call_net env) (call_script env) request)
        else _send_request (call_net env) (call_script env) request) ;;
     match MCPResponse.error response with
     | Some err =>
         ret (ToolCallResult.mk tool_name false None (Some (str_MCPError err)) duration_ms 0)
     | None =>
         tool_result <- lift (get_tool_result response) ;;
         let response_size :=
           if truthy (MCPResponse.result response)
           then Z.of_nat (String.length (json_dumps L (MCPResponse.result response)))
           else 0 in
         ret (ToolCallResult.mk tool_name true tool_result None duration_ms response_size)
     end)
    (fun e =>
       if is_timeout e
       then ret (ToolCallResult.mk tool_name false None
                   (Some ("Timeout after " ++ str_opt_float timeout ++ "s")) duration_ms 0)
       else ret (ToolCallResult.mk tool_name false None (Some (str_exn e)) duration_ms 0)).

End Methods.

Definition close (s : t) : t :=
  mk (config s) (timeout s) None false (_request_id s) None false [] None.

End MCPClient.

(* ------------------------------------------------------------------ *)
(** ** Vocabulary of the properties *)

(** The clock reading of a turn leaves time: [remaining_timeout > 0]. *)
Definition in_time (timeout : Q) (turn : wait_turn) : Prop :=
  Qle_bool (timeout - elapsed turn) 0 = false.

(** [sets_aside request_id timeout script queue taken rest later]: played
    against [queue], the first turns of the script, each in time, hand the
    loop the Responses of [taken], none of them the awaited one; [rest] is
    what the queue then holds and [later] the turns still to come. *)
Inductive sets_aside (request_id : option request_id) (timeout : Q) :
    list wait_turn -> list MCPResponse.t -> list MCPResponse.t ->
    list MCPResponse.t -> list wait_turn -> Prop :=
| sets_aside_none script queue :
    sets_aside request_id timeout script queue [] queue script
| sets_aside_one turn script queue x queue' taken rest later :
    in_time timeout turn ->
    (queue ++ arrivals turn)%list = x :: queue' ->
    matches request_id x = false ->
    sets_aside request_id timeout script queue' taken rest later ->
    sets_aside request_id timeout (turn :: script) queue (x :: taken) rest later.

(** [takes request_id timeout script queue taken r rest]: played against
    [queue], the script hands the loop the Responses of [taken], none of them
    the awaited one, then the awaited [r], every turn in time; [rest] is what
    the queue holds when [r] is taken. *)
Inductive takes (request_id : option request_id) (timeout : Q) :
    list wait_turn -> list MCPResponse.t -> list MCPResponse.t ->
    MCPResponse.t -> list MCPResponse.t -> Prop :=
| takes_match turn script queue r rest :
    in_time timeout turn ->
    (queue ++ arrivals turn)%list = r :: rest ->
    matches request_id r = true ->
    takes request_id timeout (turn :: script) queue [] r rest
| takes_skip turn script queue x queue' taken r rest :
    in_time timeout turn ->
    (queue ++ arrivals turn)%list = x :: queue' ->
    matches request_id x = false ->
    takes request_id timeout script queue' taken r rest ->
    takes request_id timeout (turn :: script) queue (x :: taken) r rest.

Definition response_7 : MCPResponse.t :=
  MCPResponse.mk "2.0" (JObj []) None (Some (IdInt 7)).

Definition response_1 : MCPResponse.t :=
  MCPResponse.mk "2.0" (JObj []) None (Some (IdInt 1)).

(** Text that [repr] leaves as it is: printable characters only, no
    backslash, and not both kinds of quote. *)
Definition unescaped (c : ascii) : bool :=
  negb (Ascii.eqb c backslash) && printable c.

Fixpoint all_unescaped (s : string) : bool :=
  match s with
  | EmptyString => true
  | String c s' => unescaped c && all_unescaped s'
  end.

Definition plain_text (s : string) : bool :=
  all_unescaped s && negb (has_char apostrophe s && has_char double_quote s).

(** What the listener makes of one event: the Response it deposits, if any. *)
Definition deposit (L : library) (event : MessageEvent.t) : option MCPResponse.t :=
  if String.eqb (MessageEvent.type event) "endpoint" then None
  else if String.eqb (MessageEvent.data event) "" then None
  else
    match json_loads L (MessageEvent.data event) with
    | None => None
    | Some data =>
        match MCPResponse_of L data with
        | inr response => Some response
        | inl _ => None
        end
    end.

Fixpoint deposits (L : library) (events : list MessageEvent.t) : list MCPResponse.t :=
  match events with
  | [] => []
  | event :: rest =>
      match deposit L event with
      | Some response => response :: deposits L rest
      | None => deposits L rest
      end
  end.

(** An event that carries data which is not JSON, or JSON that is not a
    Response. *)
Definition malformed (L : library) (event : MessageEvent.t) : Prop :=
  MessageEvent.type event <> "endpoint" /\
  MessageEvent.data event <> "" /\
  (json_loads L (MessageEvent.data event) = None \/
   exists data e, json_loads L (MessageEvent.data event) = Some data /\
                  MCPResponse_of L data = inl e).

Definition is_log_of_drop (entry : log_entry) : Prop :=
  match entry with
  | LogDebug _ | LogWarning _ => True
  | _ => False
  end.

(* ------------------------------------------------------------------ *)
(** ** Sample data

    A configuration, and a [library] that agrees with the Python one on the
    texts and values the examples below use. *)

Definition sample_config : MCPServerConfig.t :=
  MCPServerConfig.mk "http://localhost:8080" "/mcp/spring/sse" "/mcp/spring/messages"
    "smcp_key" "header".

(** [quoted s] is [s] between double quotes. *)
Definition quoted (s : string) : string :=
  String double_quote (s ++ String double_quote EmptyString).

(** [{"foo": 1}] *)
Definition text_no_uri : string := "{" ++ quoted "foo" ++ ": 1}".

(** [{"uri": "/mcp/message?sessionId=abc"}] *)
Definition text_uri : string :=
  "{" ++ quoted "uri" ++ ": " ++ quoted "/mcp/message?sessionId=abc" ++ "}".

(** [{"id":3,"error":{"code":-32601,"message":"not found"}}] *)
Definition text_error_3 : string :=
  "{" ++ quoted "id" ++ ":3," ++ quoted "error" ++ ":{" ++ quoted "code" ++ ":-32601,"
      ++ quoted "message" ++ ":" ++ quoted "not found" ++ "}}".

(** [{"id":1,"result":{}}] *)
Definition text_result_1 : string :=
  "{" ++ quoted "id" ++ ":1," ++ quoted "result" ++ ":{}}".

(** [[1]] : JSON, and no Response. *)
Definition text_array : string := "[1]".

Definition sample_loads (text : string) : option json :=
  if String.eqb text text_no_uri then Some (JObj [("foo", JInt 1)])
  else if String.eqb text text_uri
       then Some (JObj [("uri", JStr "/mcp/message?sessionId=abc")])
  else if String.eqb text text_error_3
       then Some (JObj [("id", JInt 3);
                        ("error", JObj [("code", JInt (-32601));
                                        ("message", JStr "not found")])])
  else if String.eqb text text_result_1
       then Some (JObj [("id", JInt 1); ("result", JObj [])])
  else if String.eqb text text_array then Some (JArr [JInt 1])
  else None.

Definition sample_error_of (v : json) : exn + option MCPError.t :=
  match v with
  | JNull => inr None
  | JObj fields =>
      match assoc_last "code" fields, assoc_last "message" fields with
      | Some (JInt code), Some (JStr message) =>
          inr (Some (MCPError.mk code message
                       (match assoc_last "data" fields with Some d => d | None => JNull end)))
      | _, _ => inl (ValidationError "error: invalid")
      end
  | _ => inl (ValidationError "error: Input should be a valid dictionary")
  end.

Definition sample_id_of (v : option json) : exn + option request_id :=
  match v with
  | None | Some JNull => inr None
  | Some (JInt n) => inr (Some (IdInt n))
  | Some (JStr s) => inr (Some (IdStr s))
  | Some _ => inl (ValidationError "id: invalid")
  end.

Definition sample_MCPResponse_of (data : json) : exn + MCPResponse.t :=
  match data with
  | JObj fields =>
      let jsonrpc :=
        match assoc_last "jsonrpc" fields with Some (JStr v) => v | _ => "2.0" end in
      let result := match assoc_last "result" fields with Some v => v | None => JNull end in
      match sample_error_of (match assoc_last "error" fields with Some v => v | None => JNull end),
            sample_id_of (assoc_last "id" fields) with
      | inr error, inr id => inr (MCPResponse.mk jsonrpc result error id)
      | inl e, _ => inl e
      | _, inl e => inl e
      end
  | _ => inl (ValidationError "argument after ** must be a mapping")
  end.

Definition sample_tool_of (v : json) : exn + ToolInfo.t :=
  match v with
  | JObj fields =>
      match assoc_last "name" fields with
      | Some (JStr name) =>
          match assoc_last "description" fields, assoc_last "inputSchema" fields with
          | (None | Some JNull), (None | Some JNull) => inr (ToolInfo.mk name None None)
          | Some (JStr d), (None | Some JNull) => inr (ToolInfo.mk name (Some d) None)
          | (None | Some JNull), Some (JObj schema) =>
              inr (ToolInfo.mk name None (Some (JObj schema)))
          | Some (JStr d), Some (JObj schema) =>
              inr (ToolInfo.mk name (Some d) (Some (JObj schema)))
          | _, _ => inl (ValidationError "tools: invalid")
          end
      | _ => inl (ValidationError "tools: name: Field required")
      end
  | _ => inl (ValidationError "tools: Input should be a valid dictionary")
  end.

Fixpoint sample_tools_of (items : list json) : exn + list ToolInfo.t :=
  match items with
  | [] => inr []
  | item :: rest =>
      match sample_tool_of item, sample_tools_of rest with
      | inr tool, inr tools => inr (tool :: tools)
      | inl e, _ => inl e
      | _, inl e => inl e
      end
  end.

Definition sample_ToolsListResult_of (data : json) : exn + list ToolInfo.t :=
  match data with
  | JObj fields =>
      match assoc_last "tools" fields with
      | None => inr []
      | Some (JArr items) => sample_tools_of items
      | Some _ => inl (ValidationError "tools: Input should be a valid list")
      end
  | _ => inl (ValidationError "argument after ** must be a mapping")
  end.

Definition is_dict (v : json) : bool :=
  match v with JObj _ => true | _ => false end.

Definition sample_MCPToolResult_of (data : json) : exn + MCPToolResult.t :=
  match data with
  | JObj fields =>
      match assoc_last "content" fields, assoc_last "isError" fields with
      | None, None => inr (MCPToolResult.mk [] false)
      | None, Some (JBool b) => inr (MCPToolResult.mk [] b)
      | Some (JArr items), None =>
          if forallb is_dict items then inr (MCPToolResult.mk items false)
          else inl (ValidationError "content: Input should be a valid dictionary")
      | Some (JArr items), Some (JBool b) =>
          if forallb is_dict items then inr (MCPToolResult.mk items b)
          else inl (ValidationError "content: Input should be a valid dictionary")
      | _, _ => inl (ValidationError "MCPToolResult: invalid")
      end
  | _ => inl (ValidationError "argument after ** must be a mapping")
  end.

(** [json.dumps] with its default separators, for ASCII text without control
    characters and for integers. *)
Fixpoint dumps_chars (s : string) : string :=
  match s with
  | EmptyString => EmptyString
  | String c s' =>
      (if Ascii.eqb c double_quote || Ascii.eqb c backslash
       then String backslash (String c EmptyString)
       else String c EmptyString) ++ dumps_chars s'
  end.

Fixpoint sample_dumps (v : json) : string :=
  match v with
  | JNull => "null"
  | JBool true => "true"
  | JBool false => "false"
  | JInt n => str_int n
  | JFloat text => text
  | JStr s => quoted (dumps_chars s)
  | JArr items => "[" ++ join ", " (map sample_dumps items) ++ "]"
  | JObj fields =>
      "{" ++ join ", "
               (map (fun kv => quoted (dumps_chars (fst kv)) ++ ": " ++ sample_dumps (snd kv))
                    fields) ++ "}"
  end.

Definition sample_library : library :=
  {| json_loads := sample_loads;
     json_error_text := fun _ => "Expecting value: line 1 column 1 (char 0)";
     json_dumps := sample_dumps;
     MCPResponse_of := sample_MCPResponse_of;
     ToolsListResult_of := sample_ToolsListResult_of;
     MCPToolResult_of := sample_MCPToolResult_of;
     http_error_text := fun status => "HTTP status " ++ str_int status;
     str_float := fun x => str_int (Qnum (Qred x)) ++ ".0" |}.

(** A client after a successful [connect], holding [queue]. *)
Definition sample_sse_client : SSEClient.t :=
  SSEClient.mk sample_config true (Some {| items := []; ending := Silent |}) true
    (Some (ConnectionInfo.mk 0 (Some "abc") (Some "/mcp/message?sessionId=abc") JNull None))
    (Some 0%Q).

Definition sample_client (queue : list MCPResponse.t) : MCPClient.t :=
  MCPClient.mk sample_config 30 (Some sample_sse_client) true 1 None true queue
    (Some MCPClient.Scheduled).

(** Networks that give every POST the same answer. *)
Definition always (answer : post_result) : network := fun _ _ => answer.

Definition newline : ascii := "010"%char.

(** The request/response exchange at the head of [call_tool]: the fresh id,
    the request, and [_send_request] under the optional timeout scope. *)
Definition exchange (L : library) (tool_name : string) (arguments : option json)
    (timeout : option Q) (env : MCPClient.call_env) : MCPClient.M MCPResponse.t :=
  MCPClient.bind MCPClient._next_request_id (fun n =>
    let request :=
      MCPRequest.tool_call tool_name
        (match arguments with
         | Some a => if truthy a then a else JObj []
         | None => JObj []
         end) (IdInt n) in
    if match timeout with Some t => negb (Qeq_bool t 0) | None => false end
    then MCPClient.with_timeout (MCPClient.scope_expires env)
           (MCPClient._send_request L (MCPClient.call_net env) (MCPClient.call_script env) request)
    else MCPClient._send_request L (MCPClient.call_net env) (MCPClient.call_script env) request).

(** The [error] text [call_tool] gives an exception. *)
Definition failure_text (L : library) (timeout : option Q) (e : exn) : string :=
  if is_timeout e then "Timeout after " ++ MCPClient.str_opt_float L timeout ++ "s"
  else str_exn e.

(** An error whose message has a line break in it. *)
Definition error_two_lines : MCPError.t :=
  MCPError.mk 1 ("a" ++ String newline "b") JNull.

Definition response_2_error : MCPResponse.t :=
  MCPResponse.mk "2.0" JNull (Some error_two_lines) (Some (IdInt 2)).

Definition response_2 : MCPResponse.t :=
  MCPResponse.mk "2.0" (JObj []) None (Some (IdInt 2)).

Definition call_env_202 (arrived : list MCPResponse.t) : MCPClient.call_env :=
  {| MCPClient.call_net := always (Replied 202 "");
     MCPClient.call_script := [ {| elapsed := 0; arrivals := arrived |} ];
     MCPClient.start_time := 0;
     MCPClient.end_time := 0;
     MCPClient.scope_expires := false |}.

Definition call_env_200 (body : string) : MCPClient.call_env :=
  {| MCPClient.call_net := always (Replied 200 body);
     MCPClient.call_script := [];
     MCPClient.start_time := 0;
     MCPClient.end_time := 0;
     MCPClient.scope_expires := false |}.

(** No event of the list is an endpoint event. *)
Definition no_endpoint (events : list MessageEvent.t) : Prop :=
  Forall (fun ev => String.eqb (MessageEvent.type ev) "endpoint" = false) events.

(** The client as [connect] leaves it after [close()]. *)
Definition closed_client (c : MCPServerConfig.t) (last_event_time : option Q) : SSEClient.t :=
  SSEClient.mk c false None false None last_event_time.

Definition heartbeat_at (t : Q) : MessageEvent.t :=
  MessageEvent.mk t "heartbeat" "" "".

Definition endpoint_event (payload : string) : SSEEvent.t :=
  SSEEvent.mk (Some "endpoint") payload (Some "") None.

(** The first [n] delays of the back-off: each the smaller of the one before
    times the multiplier, and the cap. *)
Fixpoint backoff (n : nat) (delay multiplier cap : Q) : list Q :=
  match n with
  | O => []
  | S n' => delay :: backoff n' (Qmin (delay * multiplier) cap) multiplier cap
  end.

(** A reconnecting client with base 1 s, multiplier 2, cap 10 s. *)
(** The order of a call that sleeps [delays]: a connection attempt at once,
    then each sleep followed by the next attempt. *)
Definition retries (delays : list Q) : list ReconnectingSSEClient.action :=
  flat_map (fun d => [ReconnectingSSEClient.Sleep d; ReconnectingSSEClient.Connect]) delays.

Definition interleaved (delays : list Q) : list ReconnectingSSEClient.action :=
  ReconnectingSSEClient.Connect :: retries delays.

Definition sample_reconnecting (max_retries : Z) : ReconnectingSSEClient.t :=
  ReconnectingSSEClient.mk (SSEClient.init sample_config) max_retries 1 10 2 0.

(** A server that refuses every connection. *)
Definition refusing : nat -> ReconnectingSSEClient.attempt_env :=
  fun _ =>
    {| ReconnectingSSEClient.opening := SSEClient.OpenFailed "Cannot connect to host";
       ReconnectingSSEClient.now := 0;
       ReconnectingSSEClient.wall := 0 |}.

(** What the listener writes to the log for one event. *)
Definition entries (L : library) (event : MessageEvent.t) : list log_entry :=
  if String.eqb (MessageEvent.type event) "endpoint" then []
  else if String.eqb (MessageEvent.data event) "" then []
  else
    match json_loads L (MessageEvent.data event) with
    | None => [LogDebug ("Non-JSON SSE event: " ++ take 100 (MessageEvent.data event))]
    | Some data =>
        match MCPResponse_of L data with
        | inr response =>
            [LogDebug ("Queued response for request " ++ str_opt_id (MCPResponse.id response))]
        | inl e => [LogWarning ("Failed to parse SSE event: " ++ str_exn e)]
        end
    end.

Definition message_event (payload : string) : MessageEvent.t :=
  MessageEvent.mk 0 "message" payload "".

(** A connected client whose stream still has [events] to deliver. *)
Definition listening_client (events : list MessageEvent.t) : MCPClient.t :=
  MCPClient.mk sample_config 30
    (Some (SSEClient.mk sample_config true (Some {| items := events; ending := Silent |})
             true None (Some 0%Q)))
    false 0 None false [] (Some MCPClient.Scheduled).

(** What [_initialize] and the requests leave alone: the transport, the
    listener task and the configuration. *)
Definition same_transport (s s' : MCPClient.t) : Prop :=
  MCPClient._sse_client s' = MCPClient._sse_client s /\
  MCPClient._listener_task s' = MCPClient._listener_task s /\
  MCPClient.config s' = MCPClient.config s.

(** The server sends the endpoint event and then stays silent; every POST is
    answered with status 500. *)
Definition env_initialize_refused : MCPClient.connect_env :=
  {| MCPClient.opening :=
       SSEClient.Opened {| items := [MessageEvent.mk 0 "endpoint" text_uri ""];
                           ending := Silent |};
     MCPClient.now := 0;
     MCPClient.wall := 0;
     MCPClient.net := always (Replied 500 "");
     MCPClient.script := [] |}.

(** The transport cannot be opened. *)
Definition env_transport_refused : MCPClient.connect_env :=
  {| MCPClient.opening := SSEClient.OpenFailed "Cannot connect to host";
     MCPClient.now := 0;
     MCPClient.wall := 0;
     MCPClient.net := always (Replied 500 "");
     MCPClient.script := [] |}.

(* ------------------------------------------------------------------ *)
(** ** MCPClient: the convenience methods *)

(** [call_tool_sync]: connect first when the client is not initialized. *)
Definition call_tool_sync (L : library) (tool_name : string) (arguments : option json)
    (cenv : MCPClient.connect_env) (env : MCPClient.call_env)
    : MCPClient.M ToolCallResult.t :=
  fun s =>
    if MCPClient._initialized s
    then MCPClient.call_tool L tool_name arguments None env s
    else
      MCPClient.bind (MCPClient.connect L cenv) (fun connected =>
        if connected
        then MCPClient.call_tool L tool_name arguments None env
        else MCPClient.ret
               (ToolCallResult.mk tool_name false None
                  (Some "Failed to connect to MCP server") 0 0)) s.

(** The dict [health_check] returns: one shape for each of its two [return]
    statements. *)
Inductive health : Type :=
| Healthy (tools_count : nat) (duration_ms : Q) (session_id : option string)
    (* status "healthy", connected True *)
| Unhealthy (error : string) (duration_ms : Q).
    (* status "unhealthy", connected False *)

(** What happens around one [health_check]. *)
Record health_env : Type := {
  health_connect : MCPClient.connect_env;
  health_net : network;
  health_script : list wait_turn;
  health_start : Q;
  health_end : Q
}.

Definition health_check (L : library) (env : health_env) : MCPClient.M health :=
  let duration_ms := ((health_end env - health_start env) * 1000)%Q in
  MCPClient.try_except
    (MCPClient.bind
       (fun s =>
          if MCPClient._initialized s then (inr tt, s)
          else MCPClient.bind (MCPClient.connect L (health_connect env))
                 (fun _ => MCPClient.ret tt) s)
       (fun _ =>
          MCPClient.bind
            (MCPClient.list_tools L false (health_net env) (health_script env))
            (fun tools s =>
               (inr (Healthy (List.length tools) duration_ms
                       (match MCPClient._sse_client s with
                        | Some sse => SSEClient.session_id sse
                        | None => None
                        end)), s))))
    (fun e => MCPClient.ret (Unhealthy (str_exn e) duration_ms)).

(** [MCPToolResult.get_text_content]: the texts of the items of type "text",
    one per line. An item without text counts as empty text; a text that is
    no string makes [join] raise. An item that is no dict does not pass the
    validation of the model; [item.get] would raise on it. *)
Definition item_text (item : json) : option (exn + string) :=
  match item with
  | JObj fields =>
      match assoc_last "type" fields with
      | Some (JStr kind) =>
          if String.eqb kind "text" then
            match assoc_last "text" fields with
            | None => Some (inr "")
            | Some (JStr text) => Some (inr text)
            | Some _ => Some (inl (ValidationError "sequence item: expected str instance"))
            end
          else None
      | _ => None
      end
  | _ => Some (inl (ValidationError "object has no attribute 'get'"))
  end.

Fixpoint texts (content : list json) : exn + list string :=
  match content with
  | [] => inr []
  | item :: rest =>
      match item_text item, texts rest with
      | None, r => r
      | Some (inl e), _ => inl e
      | Some (inr _), inl e => inl e
      | Some (inr text), inr more => inr (text :: more)
      end
  end.

Definition newline_str : string := String newline EmptyString.

Definition get_text_content (r : MCPToolResult.t) : exn + string :=
  match texts (MCPToolResult.content r) with
  | inr parts => inr (join newline_str parts)
  | inl e => inl e
  end.

(** [MCPToolResult.get_json_content]: the text decoded as JSON, [None] when
    there is no text or it does not decode. *)
Definition get_json_content (L : library) (r : MCPToolResult.t) : exn + option json :=
  match get_text_content r with
  | inr text => if String.eqb text "" then inr None else inr (json_loads L text)
  | inl e => inl e
  end.

(** The methods of the same names on [ToolCallResult]. *)
Definition result_text_content (r : ToolCallResult.t) : exn + string :=
  match ToolCallResult.result r with
  | Some tr => get_text_content tr
  | None => inr ""
  end.

Definition result_json_content (L : library) (r : ToolCallResult.t) : exn + option json :=
  match ToolCallResult.result r with
  | Some tr => get_json_content L tr
  | None => inr None
  end.

(** An item that [get_text_content] reads. *)
Definition is_text_item (item : json) : bool :=
  match item_text item with
  | Some _ => true
  | None => false
  end.

(** [{"id":2,"result":{"tools":[{"name":"searchSpringDocs"}]}}] *)
Definition text_tools_2 : string :=
  "{" ++ quoted "id" ++ ":2," ++ quoted "result" ++ ":{" ++ quoted "tools" ++ ":[{"
      ++ quoted "name" ++ ":" ++ quoted "searchSpringDocs" ++ "}]}}".

(** [{"id":2,"result":{"content":[{"type":"text","text":"ok"}]}}] *)
Definition text_content_2 : string :=
  "{" ++ quoted "id" ++ ":2," ++ quoted "result" ++ ":{" ++ quoted "content" ++ ":[{"
      ++ quoted "type" ++ ":" ++ quoted "text" ++ "," ++ quoted "text" ++ ":"
      ++ quoted "ok" ++ "}]}}".

(** The sample library, knowing two more texts. *)
Definition sample_loads_more (text : string) : option json :=
  if String.eqb text text_tools_2
  then Some (JObj [("id", JInt 2);
                   ("result", JObj [("tools", JArr [JObj [("name", JStr "searchSpringDocs")]])])])
  else if String.eqb text text_content_2
  then Some (JObj [("id", JInt 2);
                   ("result", JObj [("content",
                                     JArr [JObj [("type", JStr "text"); ("text", JStr "ok")]])])])
  else sample_loads text.

Definition sample_library_more : library :=
  {| json_loads := sample_loads_more;
     json_error_text := json_error_text sample_library;
     json_dumps := json_dumps sample_library;
     MCPResponse_of := MCPResponse_of sample_library;
     ToolsListResult_of := ToolsListResult_of sample_library;
     MCPToolResult_of := MCPToolResult_of sample_library;
     http_error_text := http_error_text sample_library;
     str_float := str_float sample_library |}.

(** The client [health_check] and [call_tool_sync] work on once they are
    past their optional [connect]. *)
Definition after_optional_connect (L : library) (cenv : MCPClient.connect_env)
    (s : MCPClient.t) : MCPClient.t :=
  if MCPClient._initialized s then s else snd (MCPClient.connect L cenv s).

Definition health_env_refused (body : string) : health_env :=
  {| health_connect := env_transport_refused;
     health_net := always (Replied 200 body);
     health_script := [];
     health_start := 0;
     health_end := 0 |}.

(* ------------------------------------------------------------------ *)
(** ** SSEClient: liveness, listening and heart beats

    The callbacks [on_message], [on_error] and [on_disconnect] are unset, as
    they are wherever the client code constructs an [SSEClient]. The queue
    [_message_queue] of the client is threaded beside it. A stream that
    opened at clock reading [opened_at] delivers an event [ev] at reading
    [opened_at + at_time ev]. *)

(** [time_since_last_event], at clock reading [clock]. *)
Definition time_since_last_event (self : SSEClient.t) (clock : Q) : option Q :=
  match SSEClient._last_event_time self with
  | None => None
  | Some t => Some (clock - t)%Q
  end.

(** [check_connection_health], at clock reading [clock]. *)
Definition check_connection_health (self : SSEClient.t) (clock : Q) : bool :=
  if negb (SSEClient._is_connected self) then false
  else
    match time_since_last_event self clock with
    | Some time_since => Qle_bool time_since 60    (* not [time_since > 60] *)
    | None => true
    end.

(** The event as the client hands it on. *)
Definition sse_event_of (ev : MessageEvent.t) : SSEEvent.t :=
  SSEEvent.mk (Some (MessageEvent.type ev)) (MessageEvent.data ev)
    (Some (MessageEvent.last_event_id ev)) None.

(** One turn of the [async for] of [listen], up to its [yield]: the event is
    taken off the stream, the time is noted and the event queued. *)
Definition listen_step (opened_at : Q) (ev : MessageEvent.t) (rest : list MessageEvent.t)
    (ending : stream_end) (self : SSEClient.t) (queue : list SSEEvent.t)
    : SSEClient.t * list SSEEvent.t :=
  (SSEClient.mk (SSEClient.config self) (SSEClient._session self)
     (Some {| items := rest; ending := ending |})
     (SSEClient._is_connected self) (SSEClient._connection_info self)
     (Some (opened_at + MessageEvent.at_time ev)%Q),
   (queue ++ [sse_event_of ev])%list).

(** How an iteration over [listen] can go on when the events are used up. *)
Inductive listen_end : Type :=
| ListenEnded                          (* the generator is exhausted: no
                                          stream makes it *)
| ListenRaised (e : exn)
| ListenWaits.                         (* nothing more arrives *)

(** What the stream's end does to a client that listens. *)
Definition listen_finish (ending : stream_end) (self : SSEClient.t)
    : listen_end * SSEClient.t :=
  match ending with
  | Closed _ => (ListenWaits, self)
  | Broken _ msg =>
      (ListenRaised (TransportError msg),
       SSEClient.mk (SSEClient.config self) (SSEClient._session self)
         (SSEClient._event_source self) false (SSEClient._connection_info self)
         (SSEClient._last_event_time self))
  | Silent => (ListenWaits, self)
  end.

Fixpoint listen_loop (opened_at : Q) (events : list MessageEvent.t) (ending : stream_end)
    (self : SSEClient.t) (queue : list SSEEvent.t) (yielded : list SSEEvent.t)
    : list SSEEvent.t * listen_end * SSEClient.t * list SSEEvent.t :=
  match events with
  | [] =>
      let '(how, self') := listen_finish ending self in
      (yielded, how, self', queue)
  | ev :: rest =>
      let '(self', queue') := listen_step opened_at ev rest ending self queue in
      listen_loop opened_at rest ending self' queue' (yielded ++ [sse_event_of ev])%list
  end.

(** [listen], iterated to its end: the events yielded, how the iteration
    ends, the client and its message queue afterwards. *)
Definition listen (self : SSEClient.t) (queue : list SSEEvent.t) (opened_at : Q)
    : list SSEEvent.t * listen_end * SSEClient.t * list SSEEvent.t :=
  if negb (SSEClient._is_connected self)
  then ([], ListenRaised (RuntimeError "Not connected. Call connect() first."), self, queue)
  else
    match SSEClient._event_source self with
    | None =>
        ([], ListenRaised (RuntimeError "Not connected. Call connect() first."), self, queue)
    | Some source => listen_loop opened_at (items source) (ending source) self queue []
    end.

(** [event.event in ("heartbeat", "ping", "keep-alive")] *)
Definition is_heartbeat (e : SSEEvent.t) : bool :=
  match SSEEvent.event e with
  | Some kind =>
      String.eqb kind "heartbeat" || String.eqb kind "ping" || String.eqb kind "keep-alive"
  | None => false
  end.

(** The loop of [wait_for_heartbeat] over [listen]; [None] when the call
    never returns. *)
Fixpoint heartbeat_loop (timeout started opened_at : Q) (events : list MessageEvent.t)
    (ending : stream_end) (self : SSEClient.t) (queue : list SSEEvent.t)
    : option bool * SSEClient.t * list SSEEvent.t :=
  match events with
  | [] =>
      match listen_finish ending self with
      | (ListenEnded, self') => (Some false, self', queue)
      | (ListenRaised _, self') => (Some false, self', queue)
      | (ListenWaits, self') => (None, self', queue)
      end
  | ev :: rest =>
      let '(self', queue') := listen_step opened_at ev rest ending self queue in
      let event := sse_event_of ev in
      if is_heartbeat event then (Some true, self', queue')
      else if negb (String.eqb (SSEEvent.data event) "") then (Some true, self', queue')
      else if negb (Qle_bool (opened_at + MessageEvent.at_time ev - started) timeout)
      then (Some false, self', queue')
      else heartbeat_loop timeout started opened_at rest ending self' queue'
  end.

(** [wait_for_heartbeat(timeout)], called at clock reading [started]. *)
Definition wait_for_heartbeat (self : SSEClient.t) (queue : list SSEEvent.t)
    (timeout : option Q) (started opened_at : Q)
    : option bool * SSEClient.t * list SSEEvent.t :=
  if negb (SSEClient._is_connected self) then (Some false, self, queue)
  else
    match SSEClient._event_source self with
    | None => (Some false, self, queue)
    | Some source =>
        heartbeat_loop (float_or timeout 35) started opened_at (items source)
          (ending source) self queue
    end.

(** An event that [wait_for_heartbeat] passes over: no heart beat, no data. *)
Definition quiet (ev : MessageEvent.t) : bool :=
  negb (is_heartbeat (sse_event_of ev)) && String.eqb (MessageEvent.data ev) "".

(** An event that ends [wait_for_heartbeat] with [True]. *)
Definition sign_of_life (ev : MessageEvent.t) : bool :=
  is_heartbeat (sse_event_of ev) || negb (String.eqb (MessageEvent.data ev) "").

(** Whether [connect] succeeds on a client that is not connected, given how
    the stream answers. *)
Definition opens (json_loads : string -> option json) (opening : SSEClient.open_result)
    : bool :=
  fst (SSEClient.connect json_loads (SSEClient.init sample_config) None opening 0 0).

(** [n] slashes. *)
Fixpoint slashes (n : nat) : string :=
  match n with
  | O => EmptyString
  | S n' => String slash (slashes n')
  end.

(** A server that refuses the first [k] connections and then sends the
    endpoint event. *)
Definition refusing_first (k : nat) : nat -> ReconnectingSSEClient.attempt_env :=
  fun attempt =>
    {| ReconnectingSSEClient.opening :=
         if (attempt <? k)%nat then SSEClient.OpenFailed "Cannot connect to host"
         else SSEClient.Opened {| items := [MessageEvent.mk 0 "endpoint" text_uri ""];
                                  ending := Silent |};
       ReconnectingSSEClient.now := 0;
       ReconnectingSSEClient.wall := 0 |}.

(* ------------------------------------------------------------------ *)
(** ** config.py: credentials, environment references, merging

    A [dict] is the list of its items in insertion order, with no key twice. *)

(** [MCPServerConfig.get_auth_headers] *)
Definition get_auth_headers (c : MCPServerConfig.t) : list (string * string) :=
  if String.eqb (MCPServerConfig.auth_method c) "header"
  then [("X-API-Key", MCPServerConfig.api_key c)]
  else if String.eqb (MCPServerConfig.auth_method c) "bearer"
  then [("Authorization", "Bearer " ++ MCPServerConfig.api_key c)]
  else [].

(** [MCPServerConfig.get_auth_params] *)
Definition get_auth_params (c : MCPServerConfig.t) : list (string * string) :=
  if String.eqb (MCPServerConfig.auth_method c) "query"
  then [("api_key", MCPServerConfig.api_key c)]
  else [].

(** [d.get(key)] and [d[key] = value] on such a list. *)
Fixpoint dict_get {A : Type} (key : string) (d : list (string * A)) : option A :=
  match d with
  | [] => None
  | (k, v) :: rest => if String.eqb k key then Some v else dict_get key rest
  end.

Fixpoint dict_set {A : Type} (key : string) (value : A) (d : list (string * A))
    : list (string * A) :=
  match d with
  | [] => [(key, value)]
  | (k, v) :: rest =>
      if String.eqb k key then (key, value) :: rest else (k, v) :: dict_set key value rest
  end.

(** What the GET that opens the stream carries: the headers [connect] builds,
    and the query parameters. *)
Definition sse_request_headers (c : MCPServerConfig.t) : list (string * string) :=
  dict_set "Cache-Control" "no-cache"
    (dict_set "Accept" "text/event-stream" (get_auth_headers c)).

Definition sse_request_params (c : MCPServerConfig.t) : list (string * string) :=
  get_auth_params c.

(** What a POST of the [MCPClient] carries: the headers of its HTTP client
    and the header of the call; it has no query parameters. *)
Definition post_request_headers (c : MCPServerConfig.t) : list (string * string) :=
  dict_set "Content-Type" "application/json" (get_auth_headers c).

(** [_deep_merge(base, override)], returning the [base] it leaves. The
    recursion is on the override, taken as the JSON object it is. *)
Fixpoint merge_into (override : json) (base : list (string * json)) {struct override}
    : list (string * json) :=
  match override with
  | JObj fields =>
      (fix items (fields : list (string * json)) (base : list (string * json))
         : list (string * json) :=
         match fields with
         | [] => base
         | (key, value) :: rest =>
             items rest
               (dict_set key
                  (match dict_get key base, value with
                   | Some (JObj b), JObj _ => JObj (merge_into value b)
                   | _, _ => value
                   end) base)
         end) fields base
  | _ => base
  end.

Definition _deep_merge (base override : list (string * json)) : list (string * json) :=
  merge_into (JObj override) base.

(** What [_deep_merge] stores under a key of [override]. *)
Definition merged_value (old : option json) (value : json) : json :=
  match old, value with
  | Some (JObj b), JObj o => JObj (_deep_merge b o)
  | _, _ => value
  end.

(** The two character classes of the pattern of [_resolve_env_vars]: all but
    closing brace and colon, and all but closing brace. *)
Definition name_char (c : ascii) : bool :=
  negb (Ascii.eqb c "}"%char || Ascii.eqb c ":"%char).

Definition default_char (c : ascii) : bool := negb (Ascii.eqb c "}"%char).

(** The longest prefix of characters that [keep], and what follows it. *)
Fixpoint span (keep : ascii -> bool) (s : string) : string * string :=
  match s with
  | EmptyString => (EmptyString, EmptyString)
  | String c s' =>
      if keep c then let '(taken, rest) := span keep s' in (String c taken, rest)
      else (EmptyString, s)
  end.

(** [env_pattern.match(value)]: the two groups of a match at the start of the
    text. The pattern is a dollar sign and an opening brace, a name of one or
    more characters other than closing brace and colon, optionally a colon, a
    dash and a default of characters other than closing brace, and a closing
    brace. It leaves no choice: the name is the longest run of name
    characters, then comes the brace, or colon and dash, the longest run of
    default characters, and the brace. *)
Definition env_pattern_match (value : string) : option (string * option string) :=
  match value with
  | String "$"%char (String "{"%char body) =>
      let '(name, rest) := span name_char body in
      if String.eqb name "" then None
      else
        match rest with
        | String "}"%char _ => Some (name, None)
        | String ":"%char (String "-"%char rest') =>
            let '(default, rest'') := span default_char rest' in
            match rest'' with
            | String "}"%char _ => Some (name, Some default)
            | _ => None
            end
        | _ => None
        end
  | _ => None
  end.

(** [resolve_value] inside [_resolve_env_vars]; [environ] is [os.environ]. *)
Fixpoint resolve_value (environ : string -> option string) (value : json) : json :=
  match value with
  | JStr s =>
      match env_pattern_match s with
      | Some (env_var, default) =>
          JStr (match environ env_var with
                | Some v => v
                | None => match default with Some d => d | None => "" end
                end)
      | None => value
      end
  | JObj fields =>
      JObj (map (fun kv => (fst kv, resolve_value environ (snd kv))) fields)
  | JArr items => JArr (map (resolve_value environ) items)
  | _ => value
  end.

Definition _resolve_env_vars (environ : string -> option string)
    (config : list (string * json)) : json :=
  resolve_value environ (JObj config).

(** No string of the value starts with a dollar sign and an opening brace. *)
Fixpoint no_reference (value : json) : bool :=
  match value with
  | JStr s => negb (startswith s "${")
  | JObj fields => forallb (fun kv => no_reference (snd kv)) fields
  | JArr items => forallb no_reference items
  | _ => true
  end.

Fixpoint all_chars (keep : ascii -> bool) (s : string) : bool :=
  match s with
  | EmptyString => true
  | String c s' => keep c && all_chars keep s'
  end.

(** Induction over JSON values, with the hypotheses for the members of an
    array and of an object. *)
Section JsonInduction.

Variable P : json -> Prop.
Hypothesis HNull : P JNull.
Hypothesis HBool : forall b, P (JBool b).
Hypothesis HInt : forall n, P (JInt n).
Hypothesis HFloat : forall text, P (JFloat text).
Hypothesis HStr : forall s, P (JStr s).
Hypothesis HArr : forall items, Forall P items -> P (JArr items).
Hypothesis HObj : forall fields, Forall (fun kv => P (snd kv)) fields -> P (JObj fields).

Fixpoint json_induction (v : json) : P v :=
  match v with
  | JNull => HNull
  | JBool b => HBool b
  | JInt n => HInt n
  | JFloat text => HFloat text
  | JStr s => HStr s
  | JArr items =>
      HArr items
        ((fix members (l : list json) : Forall P l :=
            match l with
            | [] => Forall_nil P
            | x :: xs => Forall_cons x (json_induction x) (members xs)
            end) items)
  | JObj fields =>
      HObj fields
        ((fix members (l : list (string * json)) : Forall (fun kv => P (snd kv)) l :=
            match l with
            | [] => Forall_nil _
            | (k, x) :: xs =>
                Forall_cons (P := fun kv => P (snd kv)) (k, x) (json_induction x) (members xs)
            end) fields)
  end.

End JsonInduction.

(* ------------------------------------------------------------------ *)
(** ** More sample data *)

Definition endpoint_message : MessageEvent.t := MessageEvent.mk 0 "endpoint" text_uri "".

(** A stream that brings a Response before its endpoint event and an error
    Response after it. *)
Definition stream_early_response : stream :=
  {| items := [message_event text_result_1; endpoint_message; message_event text_error_3];
     ending := Silent |}.

Definition env_early_response : MCPClient.connect_env :=
  {| MCPClient.opening := SSEClient.Opened stream_early_response;
     MCPClient.now := 0;
     MCPClient.wall := 0;
     MCPClient.net := always (Replied 200 text_result_1);
     MCPClient.script := [] |}.

(** An event without data that is no heart beat, one second after the stream
    opened, and a heart beat after a hundred. *)
Definition empty_message : MessageEvent.t := MessageEvent.mk 1 "message" "" "".

Definition late_heartbeat : MessageEvent.t := heartbeat_at 100.

Definition client_on (source : stream) : SSEClient.t :=
  SSEClient.mk sample_config true (Some source) true None (Some 0%Q).

Definition sample_environ (name : string) : option string :=
  if String.eqb name "MCP_API_KEY" then Some "smcp_1" else None.

Definition yaml_default : list (string * json) :=
  [("mcp_server", JObj [("base_url", JStr "http://localhost:8080");
                        ("auth_method", JStr "header")]);
   ("logging", JObj [("level", JStr "INFO")])].

Definition yaml_local : list (string * json) :=
  [("mcp_server", JObj [("api_key", JStr "smcp_1")]);
   ("logging", JStr "off")].

(** A server that answers [initialize] in the body of the POST and refuses
    every other POST, the notification among them. *)
Definition net_initialize_only : network :=
  fun _ request =>
    if String.eqb (MCPRequest.method request) "initialize"
    then Replied 200 text_result_1
    else Replied 500 "".

(** The client inside [connect], when the transport is up and the listener
    scheduled. *)
Definition connecting_client : MCPClient.t :=
  MCPClient.mk sample_config 30 (Some sample_sse_client) false 0 None false []
    (Some MCPClient.Scheduled).

(* ================================================================== *)
(** * Properties *)

(* ------------------------------------------------------------------ *)
(** ** The wait loop of the correlator *)

Section WaitLoop.

Variable request_id : option request_id.
Variable timeout : Q.

Local Abbreviation in_time := (in_time timeout).
Local Abbreviation takes := (takes request_id timeout).

Lemma wait_step_deadline (turn : wait_turn) script queue pending :
  Qle_bool (timeout - elapsed turn) 0 = true ->
  _wait_for_sse_response request_id timeout (turn :: script) queue pending
  = (TimedOut, queue).
Proof. intros H. simpl. now rewrite H. Qed.

Lemma wait_step_get_timeout (turn : wait_turn) script pending :
  in_time turn ->
  arrivals turn = [] ->
  _wait_for_sse_response request_id timeout (turn :: script) [] pending
  = (TimedOut, ([] ++ pending)%list).
Proof. unfold in_time. intros H Ha. simpl. now rewrite H, Ha. Qed.

Lemma wait_step_match (turn : wait_turn) script queue pending r rest :
  in_time turn ->
  (queue ++ arrivals turn)%list = r :: rest ->
  matches request_id r = true ->
  _wait_for_sse_response request_id timeout (turn :: script) queue pending
  = (Returned r, (rest ++ pending)%list).
Proof. unfold in_time. intros H Hq Hm. simpl. now rewrite H, Hq, Hm. Qed.

Lemma wait_step_skip (turn : wait_turn) script queue pending x rest :
  in_time turn ->
  (queue ++ arrivals turn)%list = x :: rest ->
  matches request_id x = false ->
  _wait_for_sse_response request_id timeout (turn :: script) queue pending
  = _wait_for_sse_response request_id timeout script rest (pending ++ [x])%list.
Proof. unfold in_time. intros H Hq Hm. simpl. now rewrite H, Hq, Hm. Qed.

(** A matching Response reached in time is returned, and what was set aside
    on the way goes back behind the queue in the order it was taken. *)
Lemma wait_returns_match script queue taken r rest :
  takes script queue taken r rest ->
  forall pending,
    _wait_for_sse_response request_id timeout script queue pending
    = (Returned r, (rest ++ pending ++ taken)%list).
Proof.
  induction 1 as [turn script queue r rest Ht Hq Hm
                 |turn script queue x queue' taken r rest Ht Hq Hm _ IH];
    intros pending.
  - rewrite (wait_step_match _ _ _ _ _ _ Ht Hq Hm). now rewrite app_nil_r.
  - rewrite (wait_step_skip _ _ _ _ _ _ Ht Hq Hm), IH.
    now rewrite <- app_assoc.
Qed.

(** The loop after it has set Responses aside: it goes on with them in
    [pending]. *)
Lemma wait_after_setting_aside script queue taken rest later :
  sets_aside request_id timeout script queue taken rest later ->
  forall pending,
    _wait_for_sse_response request_id timeout script queue pending
    = _wait_for_sse_response request_id timeout later rest (pending ++ taken)%list.
Proof.
  induction 1 as [script queue
                 |turn script queue x queue' taken rest later Ht Hq Hm _ IH];
    intros pending.
  - now rewrite app_nil_r.
  - rewrite (wait_step_skip _ _ _ _ _ _ Ht Hq Hm), IH.
    now rewrite <- app_assoc.
Qed.

(** The timeout that [wait_for] raises: the queue is empty and everything
    set aside is put back, in the order it was taken. *)
Lemma wait_get_timeout_requeues_all script queue taken turn later :
  sets_aside request_id timeout script queue taken [] (turn :: later) ->
  in_time turn ->
  arrivals turn = [] ->
  _wait_for_sse_response request_id timeout script queue [] = (TimedOut, taken).
Proof.
  intros Hs Ht Ha.
  rewrite (wait_after_setting_aside _ _ _ _ _ Hs).
  now rewrite (wait_step_get_timeout _ _ _ Ht Ha).
Qed.

(** The timeout that the check at the top of the loop raises: the queue is
    left as it stands, without what was set aside. *)
Lemma wait_deadline_check_forgets script queue taken rest turn later :
  sets_aside request_id timeout script queue taken rest (turn :: later) ->
  Qle_bool (timeout - elapsed turn) 0 = true ->
  _wait_for_sse_response request_id timeout script queue [] = (TimedOut, rest).
Proof.
  intros Hs Ht.
  rewrite (wait_after_setting_aside _ _ _ _ _ Hs).
  now rewrite (wait_step_deadline _ _ _ _ Ht).
Qed.

(** A Response already queued when the wait starts: with [taken] ahead of it
    in the queue and one turn in time for each Response to take, it is
    reached whatever arrives meanwhile. *)
Lemma preseeded_takes taken :
  forall script queue r rest,
    queue = (taken ++ r :: rest)%list ->
    Forall (fun x => matches request_id x = false) taken ->
    matches request_id r = true ->
    length script = S (length taken) ->
    Forall in_time script ->
    takes script queue taken r (rest ++ concat (map arrivals script))%list.
Proof.
  induction taken as [|x taken IH]; intros script queue r rest Hq Hno Hm Hlen Hin.
  - destruct script as [|turn [|? ?]]; try discriminate.
    inversion Hin; subst. simpl. rewrite app_nil_r.
    now apply takes_match.
  - destruct script as [|turn script]; try discriminate.
    inversion Hin; subst. inversion Hno; subst.
    apply takes_skip with (queue' := ((taken ++ r :: rest) ++ arrivals turn)%list);
      auto.
    replace (rest ++ concat (map arrivals (turn :: script)))%list
      with ((rest ++ arrivals turn) ++ concat (map arrivals script))%list
      by (simpl; now rewrite app_assoc).
    apply IH; auto.
    now rewrite <- app_assoc.
Qed.

End WaitLoop.

(** A Response queued before the waiter registers is returned, and the
    unrelated Response ahead of it is back in the queue afterwards. *)
Example wait_preseeded :
  _wait_for_sse_response (Some (IdInt 7)) 30
    [ {| elapsed := 0; arrivals := [] |}; {| elapsed := 0; arrivals := [] |} ]
    [response_1; response_7] []
  = (Returned response_7, [response_1]).
Proof. reflexivity. Qed.

(** The timeout raised by [wait_for] puts the set-aside Response back. *)
Example wait_get_timeout_requeues :
  _wait_for_sse_response (Some (IdInt 7)) 30
    [ {| elapsed := 0; arrivals := [response_1] |}; {| elapsed := 29; arrivals := [] |} ]
    [] []
  = (TimedOut, [response_1]).
Proof. reflexivity. Qed.

(** C1. The claim: on timeout every set-aside Response is back in the holding
    area. The loop has two ways to time out, and the check at the top of an
    iteration raises without the re-queue the other one performs. Here the
    Response with id 1 arrives while the caller waits for id 7 and is set
    aside; the next iteration starts with the 30 seconds used up; the call
    times out and the holding area is empty: the Response with id 1 is gone. *)
Theorem wait_deadline_check_drops_pending :
  _wait_for_sse_response (Some (IdInt 7)) 30
    [ {| elapsed := 0; arrivals := [response_1] |}; {| elapsed := 30; arrivals := [] |} ]
    [] []
  = (TimedOut, []).
Proof. reflexivity. Qed.

(* ------------------------------------------------------------------ *)
(** ** Text lemmas *)

Lemma startswith_app (needle rest : string) :
  startswith (needle ++ rest) needle = true.
Proof.
  induction needle as [|c needle IH]; simpl.
  - now destruct rest.
  - now rewrite Ascii.eqb_refl, IH.
Qed.

Lemma contains_here (needle rest : string) :
  contains needle (needle ++ rest) = true.
Proof.
  destruct needle as [|c needle].
  - destruct rest; reflexivity.
  - cbn [append contains]. fold (append needle rest).
    change (String c (needle ++ rest)) with (String c needle ++ rest).
    now rewrite startswith_app.
Qed.

Lemma contains_after (needle before hay : string) :
  contains needle hay = true -> contains needle (before ++ hay) = true.
Proof.
  intros H. induction before as [|c before IH]; simpl.
  - exact H.
  - rewrite IH. apply orb_true_r.
Qed.

Lemma contains_middle (needle before rest : string) :
  contains needle (before ++ needle ++ rest) = true.
Proof. apply contains_after, contains_here. Qed.

Lemma repr_char_unescaped (q c : ascii) :
  unescaped c = true -> Ascii.eqb q c = false ->
  repr_char q c = String c EmptyString.
Proof.
  unfold unescaped, repr_char. intros Hu Hq.
  apply andb_true_iff in Hu as [Hb Hp].
  apply negb_true_iff in Hb.
  rewrite Hb. rewrite Ascii.eqb_sym, Hq. rewrite Hp.
  assert (Hge : (32 <= N_of_ascii c)%N).
  { unfold printable in Hp. apply orb_true_iff in Hp as [H|H];
      apply andb_true_iff in H as [H _]; apply N.leb_le in H; lia. }
  replace (N_of_ascii c =? 9)%N with false by (symmetry; apply N.eqb_neq; lia).
  replace (N_of_ascii c =? 10)%N with false by (symmetry; apply N.eqb_neq; lia).
  replace (N_of_ascii c =? 13)%N with false by (symmetry; apply N.eqb_neq; lia).
  reflexivity.
Qed.

Lemma repr_chars_unescaped (q : ascii) (s : string) :
  all_unescaped s = true -> has_char q s = false -> repr_chars q s = s.
Proof.
  induction s as [|c s IH]; simpl; intros Hu Hq.
  - reflexivity.
  - apply andb_true_iff in Hu as [Hc Hs].
    apply orb_false_iff in Hq as [Hqc Hqs].
    now rewrite (repr_char_unescaped _ _ Hc Hqc), IH.
Qed.

(** [repr] of plain text is the text between two quotes. *)
Lemma repr_str_plain (s : string) :
  plain_text s = true ->
  exists q, repr_str s = String q (s ++ String q EmptyString).
Proof.
  unfold plain_text, repr_str. intros H.
  apply andb_true_iff in H as [Hu Hq]. apply negb_true_iff in Hq.
  destruct (has_char apostrophe s) eqn:Ha;
    destruct (has_char double_quote s) eqn:Hd; simpl in *; try discriminate.
  - exists double_quote. now rewrite repr_chars_unescaped.
  - exists apostrophe. now rewrite repr_chars_unescaped.
  - exists apostrophe. now rewrite repr_chars_unescaped.
Qed.

Lemma string_app_assoc (a b c : string) : (a ++ b) ++ c = a ++ b ++ c.
Proof. induction a as [|x a IH]; simpl; [reflexivity | now rewrite IH]. Qed.

(** What [repr] does to a no-break space, which is no printable character,
    and to an accented letter, which is one. *)
Example repr_no_break_space :
  repr_str (String "160"%char EmptyString) = "'\xa0'" /\
  repr_str (String "233"%char EmptyString)
  = String apostrophe (String "233"%char (String apostrophe EmptyString)) /\
  plain_text (String "160"%char EmptyString) = false.
Proof. repeat split. Qed.

(** The text of an error carries the server's message as [repr] writes it,
    which is the message itself when the message is plain text. *)
Lemma str_MCPError_contains_plain (e : MCPError.t) :
  plain_text (MCPError.message e) = true ->
  contains (MCPError.message e) (str_MCPError e) = true.
Proof.
  intros H. destruct (repr_str_plain _ H) as [q Hq].
  unfold str_MCPError. rewrite Hq.
  do 3 apply contains_after.
  change (String q (MCPError.message e ++ String q EmptyString))
    with (String q EmptyString ++ MCPError.message e ++ String q EmptyString).
  rewrite !string_app_assoc.
  apply contains_middle.
Qed.

(* ------------------------------------------------------------------ *)
(** ** call_tool *)

Section CallTool.

Variable L : library.

Lemma call_tool_unfold tool_name arguments timeout env s :
  MCPClient.call_tool L tool_name arguments timeout env s =
  let duration_ms := ((MCPClient.end_time env - MCPClient.start_time env) * 1000)%Q in
  match exchange L tool_name arguments timeout env s with
  | (inr response, s1) =>
      match MCPResponse.error response with
      | Some err =>
          (inr (ToolCallResult.mk tool_name false None (Some (str_MCPError err))
                  duration_ms 0), s1)
      | None =>
          match MCPClient.get_tool_result L response with
          | inr tool_result =>
              (inr (ToolCallResult.mk tool_name true tool_result None duration_ms
                      (if truthy (MCPResponse.result response)
                       then Z.of_nat (String.length
                                        (json_dumps L (MCPResponse.result response)))
                       else 0)), s1)
          | inl e =>
              (inr (ToolCallResult.mk tool_name false None
                      (Some (failure_text L timeout e)) duration_ms 0), s1)
          end
      end
  | (inl e, s1) =>
      (inr (ToolCallResult.mk tool_name false None
              (Some (failure_text L timeout e)) duration_ms 0), s1)
  end.
Proof.
  unfold MCPClient.call_tool, exchange, MCPClient.try_except, MCPClient.bind,
    MCPClient._next_request_id, failure_text, MCPClient.lift, MCPClient.ret.
  cbv zeta.
  match goal with
  | |- context [if ?b then MCPClient.with_timeout _ ?x else ?y] =>
      destruct ((if b then MCPClient.with_timeout (MCPClient.scope_expires env) x else y)
                  (MCPClient.set_request_id (MCPClient._request_id s + 1) s))
        as [[e|response] s1] eqn:Hsend
  end.
  - destruct (is_timeout e); reflexivity.
  - destruct (MCPResponse.error response) as [err|]; [reflexivity|].
    destruct (MCPClient.get_tool_result L response) as [e|tool_result];
      [destruct (is_timeout e)|]; reflexivity.
Qed.

(** [call_tool] never raises: whatever the network, the listener and the
    clock do, the caller gets a [ToolCallResult]. *)
Lemma call_tool_returns tool_name arguments timeout env s :
  exists r s', MCPClient.call_tool L tool_name arguments timeout env s = (inr r, s').
Proof.
  rewrite call_tool_unfold. cbv zeta.
  destruct (exchange L tool_name arguments timeout env s) as [[e|response] s1].
  - eauto.
  - destruct (MCPResponse.error response); [eauto|].
    destruct (MCPClient.get_tool_result L response); eauto.
Qed.

(** C2, as the code has it. Every call returns a [ToolCallResult] for the
    tool it was made for and raises nothing. When the exchange brings a
    JSON-RPC error, [success] is false and [error] is the text of the error
    object, code, message and data, the message written as [repr] writes it:
    it contains the server's message as sent when that is plain text, of
    printable characters only, without backslash and without both kinds of
    quote. When the exchange raises, a timeout or anything else, [success]
    is false and [error] is the text for that exception. *)
Theorem call_tool_structured_outcome tool_name arguments timeout env s :
  exists r s',
    MCPClient.call_tool L tool_name arguments timeout env s = (inr r, s') /\
    ToolCallResult.tool_name r = tool_name /\
    match fst (exchange L tool_name arguments timeout env s) with
    | inr response =>
        match MCPResponse.error response with
        | Some err =>
            ToolCallResult.success r = false /\
            ToolCallResult.error r = Some (str_MCPError err) /\
            (plain_text (MCPError.message err) = true ->
             contains (MCPError.message err) (str_MCPError err) = true)
        | None =>
            match MCPClient.get_tool_result L response with
            | inr tool_result =>
                ToolCallResult.success r = true /\
                ToolCallResult.result r = tool_result /\
                ToolCallResult.error r = None
            | inl e =>
                ToolCallResult.success r = false /\
                ToolCallResult.error r = Some (failure_text L timeout e)
            end
        end
    | inl e =>
        ToolCallResult.success r = false /\
        ToolCallResult.error r = Some (failure_text L timeout e)
    end.
Proof.
  rewrite call_tool_unfold. cbv zeta.
  destruct (exchange L tool_name arguments timeout env s) as [[e|response] s1]; simpl.
  - eexists _, _. split; [reflexivity|]. simpl. auto.
  - destruct (MCPResponse.error response) as [err|].
    + eexists _, _. split; [reflexivity|]. simpl.
      repeat split. apply str_MCPError_contains_plain.
    + destruct (MCPClient.get_tool_result L response) as [e|tool_result];
        eexists _, _; (split; [reflexivity|]); simpl; auto.
Qed.

End CallTool.

(** The error-shape law of the specification: the Response
    [{"id":3,"error":{"code":-32601,"message":"not found"}}] in the body of
    the POST. *)
Example call_tool_not_found :
  exists r s',
    MCPClient.call_tool sample_library "x" None None (call_env_200 text_error_3)
      (MCPClient.set_request_id 2 (sample_client [])) = (inr r, s') /\
    ToolCallResult.success r = false /\
    ToolCallResult.error r = Some "code=-32601 message='not found' data=None" /\
    contains "not found" "code=-32601 message='not found' data=None" = true.
Proof. eexists _, _. repeat split. Qed.

(** The same call, through the theorem. *)
Lemma call_tool_structured_outcome_witness :
  exists r s',
    MCPClient.call_tool sample_library "x" None None (call_env_200 text_error_3)
      (MCPClient.set_request_id 2 (sample_client [])) = (inr r, s') /\
    ToolCallResult.tool_name r = "x" /\
    ToolCallResult.success r = false /\
    ToolCallResult.error r = Some "code=-32601 message='not found' data=None" /\
    (plain_text "not found" = true ->
     contains "not found" "code=-32601 message='not found' data=None" = true).
Proof.
  exact (call_tool_structured_outcome sample_library "x" None None
           (call_env_200 text_error_3) (MCPClient.set_request_id 2 (sample_client []))).
Defined.

(** A transport failure and a local timeout, as [call_tool] reports them. *)
Example call_tool_http_500 :
  exists r s',
    MCPClient.call_tool sample_library "x" None None
      {| MCPClient.call_net := always (Replied 500 "");
         MCPClient.call_script := [];
         MCPClient.start_time := 0; MCPClient.end_time := 0;
         MCPClient.scope_expires := false |}
      (sample_client []) = (inr r, s') /\
    ToolCallResult.success r = false /\
    ToolCallResult.error r = Some "HTTP status 500".
Proof. eexists _, _. repeat split. Qed.

Example call_tool_scope_timeout :
  exists r s',
    MCPClient.call_tool sample_library "x" None (Some 5%Q)
      {| MCPClient.call_net := always (Replied 202 "");
         MCPClient.call_script := [];
         MCPClient.start_time := 0; MCPClient.end_time := 5;
         MCPClient.scope_expires := true |}
      (sample_client []) = (inr r, s') /\
    ToolCallResult.success r = false /\
    ToolCallResult.error r = Some "Timeout after 5.0s".
Proof. eexists _, _. repeat split. Qed.

(** C2, where the claim goes too far: the error text holds the message as
    [repr] writes it. A message of two lines is in the text with its line
    break escaped, so the text does not contain the message as sent. *)
Lemma call_tool_error_text_escapes_message :
  exists r s',
    MCPClient.call_tool sample_library "x" None None (call_env_202 [response_2_error])
      (sample_client []) = (inr r, s') /\
    ToolCallResult.success r = false /\
    ToolCallResult.error r = Some "code=1 message='a\nb' data=None" /\
    contains (MCPError.message error_two_lines) "code=1 message='a\nb' data=None" = false.
Proof. eexists _, _. repeat split. Qed.

(* ------------------------------------------------------------------ *)
(** ** _send_request *)

Section SendRequest.

Variable L : library.

(** C3, as the code has it. After a POST that a connected client gets
    answered: on 202 the Response is awaited on the holding area for at most
    30 seconds; on 200 with a body that is empty or all white space
    likewise; on 200 with any other body the body is decoded and the result
    of the decoding is the result of the call. *)
Theorem send_request_delivery_mode net script request s sse status_code text :
  MCPClient._sse_client s = Some sse ->
  net (MCPClient.post_url sse s) request = Replied status_code text ->
  (status_code = 202 ->
   MCPClient._send_request L net script request s
   = MCPClient.await_sse_response (MCPRequest.id request) 30 script
       (MCPClient.set_http_client true s)) /\
  (status_code = 200 -> blank text = true ->
   MCPClient._send_request L net script request s
   = MCPClient.await_sse_response (MCPRequest.id request) 30 script
       (MCPClient.set_http_client true s)) /\
  (status_code = 200 -> blank text = false ->
   MCPClient._send_request L net script request s
   = (MCPClient.decode_response L text, MCPClient.set_http_client true s)).
Proof.
  intros Hsse Hnet.
  unfold MCPClient._send_request, MCPClient.bind, MCPClient._ensure_http_client.
  rewrite Hsse.
  assert (Hurl : MCPClient.post_url sse (MCPClient.set_http_client true s)
                 = MCPClient.post_url sse s) by reflexivity.
  repeat split; intros; subst; try rewrite Hurl; rewrite Hnet; simpl.
  - reflexivity.
  - now rewrite H0.
  - now rewrite H0.
Qed.

End SendRequest.

(** A POST answered 200 with a Response in the body: the body is decoded. *)
Lemma send_request_delivery_mode_witness :
  MCPClient._send_request sample_library (always (Replied 200 text_result_1)) []
    (MCPRequest.list_tools (IdInt 1)) (sample_client [])
  = (inr (MCPResponse.mk "2.0" (JObj []) None (Some (IdInt 1))),
     MCPClient.set_http_client true (sample_client [])).
Proof.
  refine (proj2 (proj2 (send_request_delivery_mode sample_library
            (always (Replied 200 text_result_1)) [] (MCPRequest.list_tools (IdInt 1))
            (sample_client []) sample_sse_client 200 text_result_1 _ _)) _ _);
    reflexivity.
Defined.

(** C3, where the claim goes too far: a body of one space is not empty, and
    it is not decoded (decoding it would raise); the Response is awaited on
    the holding area, where here it already lies. *)
Lemma send_request_blank_body_waits :
  String.eqb " " "" = false /\
  MCPClient.decode_response sample_library " "
  = inl (JSONDecodeError "Expecting value: line 1 column 1 (char 0)") /\
  MCPClient._send_request sample_library (always (Replied 200 " "))
    [ {| elapsed := 0; arrivals := [] |} ]
    (MCPRequest.list_tools (IdInt 2)) (sample_client [response_2])
  = (inr response_2, MCPClient.set_http_client true (sample_client [])).
Proof. repeat split. Qed.

(** A body of one no-break space is white space to [strip] as well. *)
Example send_request_no_break_space_body_waits :
  blank (String "160"%char EmptyString) = true /\
  MCPClient._send_request sample_library
    (always (Replied 200 (String "160"%char EmptyString)))
    [ {| elapsed := 0; arrivals := [] |} ]
    (MCPRequest.list_tools (IdInt 2)) (sample_client [response_2])
  = (inr response_2, MCPClient.set_http_client true (sample_client [])).
Proof. repeat split. Qed.

(* ------------------------------------------------------------------ *)
(** ** SSEClient.connect *)

Section SSEConnect.

Variable json_loads : string -> option json.

(** The wait for the endpoint event never finds the iteration run out: it
    ends with the event, with the deadline or with an error. *)
Lemma wait_for_endpoint_not_ended deadline events ending :
  SSEClient.wait_for_endpoint deadline events ending <> SSEClient.StreamEnded.
Proof.
  induction events as [|ev events IH]; simpl.
  - destruct ending as [t|t msg|]; try discriminate.
    destruct (Qle_bool deadline t); discriminate.
  - destruct (Qle_bool deadline (MessageEvent.at_time ev)); [discriminate|].
    destruct (SSEEvent.is_endpoint _); [discriminate | exact IH].
Qed.

Lemma wait_for_endpoint_never deadline events ending :
  no_endpoint events ->
  SSEClient.wait_for_endpoint deadline events ending = SSEClient.DeadlineExpired \/
  exists msg,
    SSEClient.wait_for_endpoint deadline events ending = SSEClient.IterationRaised msg.
Proof.
  intros Hno.
  induction Hno as [|ev events Hev _ IH]; simpl.
  - destruct ending as [t|t msg|]; auto.
    destruct (Qle_bool deadline t); eauto.
  - destruct (Qle_bool deadline (MessageEvent.at_time ev)); [now left|].
    unfold SSEEvent.is_endpoint; simpl. now rewrite Hev.
Qed.

(** Without an endpoint event there is no connection: whatever else the
    stream brings and however it goes on, [connect] closes the client and
    returns [False]. The return of [True] that follows the loop in the code,
    for a connection without endpoint event, is never reached. *)
Lemma connect_without_endpoint_fails (self : SSEClient.t) timeout s now wall :
  SSEClient._is_connected self = false ->
  no_endpoint (items s) ->
  SSEClient.connect json_loads self timeout (SSEClient.Opened s) now wall
  = (false, closed_client (SSEClient.config self) (Some now)).
Proof.
  intros Hc Hno. unfold SSEClient.connect. rewrite Hc.
  destruct (wait_for_endpoint_never (float_or timeout 10) (items s) (ending s) Hno)
    as [-> | [msg ->]]; reflexivity.
Qed.

(** A [True] of [connect] on a client that was not connected comes with the
    connection info of an endpoint event. *)
Lemma connect_true_has_endpoint (self : SSEClient.t) timeout opening now wall self' :
  SSEClient._is_connected self = false ->
  SSEClient.connect json_loads self timeout opening now wall = (true, self') ->
  exists ci, SSEClient._connection_info self' = Some ci.
Proof.
  intros Hc. unfold SSEClient.connect. rewrite Hc.
  destruct opening as [s| |msg]; try discriminate.
  pose proof (wait_for_endpoint_not_ended (float_or timeout 10) (items s) (ending s))
    as Hne.
  destruct (SSEClient.wait_for_endpoint (float_or timeout 10) (items s) (ending s))
    as [e rest| | |msg]; try discriminate; try contradiction.
  destruct (SSEClient.connection_info_of json_loads wall e) as [err|ci];
    [discriminate|].
  intros H. injection H as <-. now exists ci.
Qed.

(** C10. [connect] on a client that is connected returns [True] at once:
    nothing is opened or awaited, and the client is left as it was. *)
Theorem connect_when_connected (self : SSEClient.t) timeout opening now wall :
  SSEClient._is_connected self = true ->
  SSEClient.connect json_loads self timeout opening now wall = (true, self).
Proof. intros H. unfold SSEClient.connect. now rewrite H. Qed.

End SSEConnect.

(** C4. The claim: a stream that opens and brings no endpoint event before
    the deadline counts as connected, with the configured message URL to fall
    back on. The code has the return for it, with the warning that says so,
    behind the loop over the events; but the loop stands in a timeout scope
    and the event source never ends an iteration, so the deadline raises
    first and the handler of the timeout closes the client. Here the stream
    opens, a heart beat arrives, no endpoint event does, and the ten seconds
    run out: [connect] returns [False] and leaves the client closed. *)
Theorem connect_deadline_without_endpoint_fails :
  SSEClient.connect sample_loads (SSEClient.init sample_config) None
    (SSEClient.Opened {| items := [heartbeat_at 1]; ending := Silent |}) 0 0
  = (false, SSEClient.mk sample_config false None false None (Some 0%Q)).
Proof. reflexivity. Qed.

(** The same when the server ends the response after two seconds: the event
    source connects again, the iteration goes on, and the deadline ends it. *)
Example connect_closed_without_endpoint_fails :
  SSEClient.connect sample_loads (SSEClient.init sample_config) None
    (SSEClient.Opened {| items := [heartbeat_at 1]; ending := Closed 2 |}) 0 0
  = (false, SSEClient.mk sample_config false None false None (Some 0%Q)).
Proof. reflexivity. Qed.

(** The closed client posts to the configured message URL, which is all
    that is left of the fallback. *)
Example closed_client_message_endpoint :
  SSEClient.message_endpoint (closed_client sample_config (Some 0%Q))
  = Some "http://localhost:8080/mcp/spring/messages".
Proof. reflexivity. Qed.

(** A connected client stays as it is, whatever the stream would do. *)
Lemma connect_when_connected_witness :
  SSEClient.connect sample_loads sample_sse_client None
    (SSEClient.Opened {| items := []; ending := Silent |}) 5 5
  = (true, sample_sse_client).
Proof.
  apply (connect_when_connected sample_loads sample_sse_client None
           (SSEClient.Opened {| items := []; ending := Silent |}) 5 5).
  reflexivity.
Defined.

(* ------------------------------------------------------------------ *)
(** ** The endpoint event: message endpoint and session id *)

Lemma search_sessionId_contains (s g : string) :
  search_sessionId s = Some g -> contains "sessionId=" s = true.
Proof.
  induction s as [|c s IH].
  - discriminate.
  - cbn [search_sessionId contains].
    destruct (startswith (String c s) "sessionId=") eqn:Hs.
    + reflexivity.
    + intros H. rewrite (IH H). apply orb_true_r.
Qed.

(** The session id of a non-empty endpoint: the value [sessionId=] has in it
    when it has one, else what follows the last slash once trailing slashes
    are cut, else nothing. *)
Lemma extract_session_id_cases (endpoint : string) :
  endpoint <> "" ->
  SSEClient._extract_session_id (Some endpoint)
  = match search_sessionId endpoint with
    | Some g => Some g
    | None =>
        if contains "/" endpoint
        then Some (last_segment (rstrip_slash endpoint))
        else None
    end.
Proof.
  intros Hne. unfold SSEClient._extract_session_id.
  destruct (String.eqb_spec endpoint ""); [contradiction|].
  destruct (search_sessionId endpoint) as [g|] eqn:Hs.
  - now rewrite (search_sessionId_contains _ _ Hs).
  - now destruct (contains "sessionId=" endpoint).
Qed.

Section EndpointEvent.

Variable json_loads : string -> option json.

(** C9, as the code has it. For the payload of an endpoint event:
    - a payload that is not JSON, or is JSON for an empty or zero value, is
      itself the message endpoint;
    - a payload that is a JSON object with a string [uri] has that uri as
      message endpoint;
    - a payload that is a non-empty JSON object without [uri] gives no
      message endpoint and no session id;
    and then
    - a stored endpoint that starts with a slash is read with the base URL in
      front, any other non-empty one as it is;
    - the session id of a non-empty endpoint is the value of [sessionId=]
      when it has one, else the final path segment when the endpoint has a
      slash, else nothing. *)
Theorem endpoint_event_decoding wall (e : SSEEvent.t) :
  ((json_loads (SSEEvent.data e) = None \/
    exists v, json_loads (SSEEvent.data e) = Some v /\ truthy v = false) ->
   SSEClient.connection_info_of json_loads wall e
   = inr (ConnectionInfo.mk wall (SSEClient._extract_session_id (Some (SSEEvent.data e)))
            (Some (SSEEvent.data e)) JNull None)) /\
  (forall fields uri,
     json_loads (SSEEvent.data e) = Some (JObj fields) ->
     assoc_last "uri" fields = Some (JStr uri) ->
     SSEClient.connection_info_of json_loads wall e
     = inr (ConnectionInfo.mk wall (SSEClient._extract_session_id (Some uri))
              (Some uri) JNull None)) /\
  (forall fields,
     json_loads (SSEEvent.data e) = Some (JObj fields) ->
     fields <> [] ->
     assoc_last "uri" fields = None ->
     SSEClient.connection_info_of json_loads wall e
     = inr (ConnectionInfo.mk wall None None JNull None)) /\
  (forall self ci endpoint,
     SSEClient._connection_info self = Some ci ->
     ConnectionInfo.message_endpoint ci = Some endpoint ->
     endpoint <> "" ->
     SSEClient.message_endpoint self
     = Some (if startswith endpoint "/"
             then MCPServerConfig.base_url (SSEClient.config self) ++ endpoint
             else endpoint)) /\
  (forall endpoint,
     endpoint <> "" ->
     SSEClient._extract_session_id (Some endpoint)
     = match search_sessionId endpoint with
       | Some g => Some g
       | None =>
           if contains "/" endpoint
           then Some (last_segment (rstrip_slash endpoint))
           else None
       end).
Proof.
  unfold SSEClient.connection_info_of, SSEClient.parse_json.
  repeat split.
  - intros [Hnone | [v [Hv Hfalse]]].
    + now rewrite Hnone.
    + now rewrite Hv, Hfalse.
  - intros fields uri Hl Hu. rewrite Hl.
    destruct fields as [|f fields]; [discriminate|].
    cbn [truthy]. unfold SSEClient.uri_of. now rewrite Hu.
  - intros fields Hl Hne Hu. rewrite Hl.
    destruct fields as [|f fields]; [contradiction|].
    cbn [truthy]. unfold SSEClient.uri_of. now rewrite Hu.
  - intros self ci endpoint Hci He Hne. unfold SSEClient.message_endpoint.
    rewrite Hci, He.
    destruct (String.eqb_spec endpoint ""); [contradiction|].
    now destruct (startswith endpoint "/").
  - apply extract_session_id_cases.
Qed.

End EndpointEvent.

(** A JSON payload with a uri, through the theorem. *)
Lemma endpoint_event_decoding_witness :
  SSEClient.connection_info_of sample_loads 0 (endpoint_event text_uri)
  = inr (ConnectionInfo.mk 0
           (SSEClient._extract_session_id (Some "/mcp/message?sessionId=abc"))
           (Some "/mcp/message?sessionId=abc") JNull None).
Proof.
  exact (proj1 (proj2 (endpoint_event_decoding sample_loads 0 (endpoint_event text_uri)))
           [("uri", JStr "/mcp/message?sessionId=abc")] "/mcp/message?sessionId=abc"
           eq_refl eq_refl).
Defined.

(** The endpoint event of the Spring server, decoded: a relative endpoint
    with the session id in its query. *)
Example endpoint_event_with_uri :
  exists self',
    SSEClient.connect sample_loads (SSEClient.init sample_config) None
      (SSEClient.Opened {| items := [MessageEvent.mk 0 "endpoint" text_uri ""];
                           ending := Silent |}) 0 0
    = (true, self') /\
    SSEClient.session_id self' = Some "abc" /\
    SSEClient.message_endpoint self'
    = Some "http://localhost:8080/mcp/message?sessionId=abc".
Proof. eexists. repeat split. Qed.

(** A bare endpoint string, and session ids by path segment. *)
Example endpoint_event_bare_string :
  SSEClient.connection_info_of sample_loads 0 (endpoint_event "/mcp/message/42/")
  = inr (ConnectionInfo.mk 0 (Some "42") (Some "/mcp/message/42/") JNull None).
Proof. reflexivity. Qed.

Example session_id_samples :
  SSEClient._extract_session_id (Some "/m?a=1&sessionId=s1&b=2") = Some "s1" /\
  SSEClient._extract_session_id (Some "/m/x?sessionId=") = Some "x?sessionId=" /\
  SSEClient._extract_session_id (Some "http://host/") = Some "host" /\
  SSEClient._extract_session_id (Some "endpoint") = None.
Proof. repeat split. Qed.

(** C9, where the claim goes too far: a payload that is a JSON object without
    a [uri] field. The claim makes the payload itself the message endpoint;
    the code stores no endpoint at all and posts to the configured URL. *)
Lemma endpoint_event_json_without_uri :
  exists self',
    sample_loads text_no_uri = Some (JObj [("foo", JInt 1)]) /\
    SSEClient.connect sample_loads (SSEClient.init sample_config) None
      (SSEClient.Opened {| items := [MessageEvent.mk 0 "endpoint" text_no_uri ""];
                           ending := Silent |}) 0 0
    = (true, self') /\
    SSEClient._connection_info self'
    = Some (ConnectionInfo.mk 0 None None JNull None) /\
    SSEClient.message_endpoint self'
    = Some "http://localhost:8080/mcp/spring/messages".
Proof. eexists. repeat split. Qed.

(* ------------------------------------------------------------------ *)
(** ** connect_with_retry *)

Import ReconnectingSSEClient.

Lemma attempts_app (a b : list action) :
  attempts (a ++ b) = (attempts a + attempts b)%nat.
Proof.
  induction a as [|[d|] a IH]; simpl; [reflexivity | exact IH | now rewrite IH].
Qed.

Lemma sleeps_app (a b : list action) :
  sleeps (a ++ b) = (sleeps a ++ sleeps b)%list.
Proof.
  induction a as [|[d|] a IH]; simpl; [reflexivity | now rewrite IH | exact IH].
Qed.

Lemma backoff_at_cap (n : nat) : backoff n 10 2 10 = repeat 10%Q n.
Proof. induction n as [|n IH]; simpl; [reflexivity | now rewrite <- IH]. Qed.

(** With base 1, multiplier 2 and cap 10 the delays are 1, 2, 4, 8, 10, 10, ... *)
Lemma backoff_1_2_10 (n : nat) :
  (backoff (4 + n) 1 2 10 = [1; 2; 4; 8] ++ repeat 10 n)%Q%list.
Proof.
  change (backoff (4 + n) 1 2 10) with (1 :: 2 :: 4 :: 8 :: backoff n 10 2 10)%Q.
  now rewrite backoff_at_cap.
Qed.

Section Retry.

Variable json_loads : string -> option json.
Variable server : nat -> attempt_env.

(** The loop from its second iteration on: [k] more attempts, each after a
    sleep, the sleeps following the back-off from the current delay. *)
Lemma retry_loop_retrying (todo : nat) :
  forall a delay self trace,
    exists k,
      (k <= todo)%nat /\
      let '(ok, self', trace') := retry_loop json_loads server todo (S a) delay self trace in
      attempts trace' = (attempts trace + k)%nat /\
      sleeps trace' = (sleeps trace
                       ++ backoff k delay (backoff_multiplier self) (backoff_max self))%list /\
      _reconnect_count self' = _reconnect_count self + Z.of_nat k /\
      (ok = false -> k = todo).
Proof.
  induction todo as [|todo IH]; intros a delay self trace.
  - exists O. simpl. rewrite app_nil_r, Z.add_0_r. auto with arith.
  - cbn [retry_loop]. cbn [Nat.ltb Nat.leb].
    destruct (SSEClient.connect json_loads (base self) None
                (opening (server (S a))) (now (server (S a))) (wall (server (S a))))
      as [ok sse] eqn:Hc.
    destruct ok.
    + exists 1%nat. split; [lia|].
      rewrite attempts_app, sleeps_app, attempts_app, sleeps_app. simpl.
      rewrite app_nil_r. repeat split; try lia; try discriminate.
    + match goal with
      | |- context [retry_loop _ _ todo (S (S a)) ?d ?s ?t] =>
          destruct (IH (S a) d s t) as [k [Hk H]];
          destruct (retry_loop json_loads server todo (S (S a)) d s t)
            as [[ok' self'] trace'] eqn:Hr
      end.
      exists (S k). split; [lia|].
      destruct H as [Ha [Hs [Hn Hf]]].
      rewrite !attempts_app in Ha. rewrite !sleeps_app in Hs.
      simpl in *. rewrite app_nil_r in Hs. rewrite <- app_assoc in Hs.
      repeat split; try lia; auto.
Qed.

Lemma attempts_retries (delays : list Q) : attempts (retries delays) = length delays.
Proof. induction delays as [|d delays IH]; simpl; [reflexivity | now rewrite IH]. Qed.

Lemma backoff_length (n : nat) : forall d m c, length (backoff n d m c) = n.
Proof. induction n as [|n IH]; intros d m c; simpl; [reflexivity | now rewrite IH]. Qed.

(** The order of the loop from its second iteration on: each retry is a
    sleep and then a connection attempt, nothing else and nothing between. *)
Lemma retry_loop_order (todo : nat) :
  forall a delay self trace,
    exists k,
      snd (retry_loop json_loads server todo (S a) delay self trace)
      = (trace ++ retries (backoff k delay (backoff_multiplier self) (backoff_max self)))%list.
Proof.
  induction todo as [|todo IH]; intros a delay self trace.
  - exists O. simpl. now rewrite app_nil_r.
  - cbn [retry_loop]. cbn [Nat.ltb Nat.leb].
    destruct (SSEClient.connect json_loads (base self) None
                (opening (server (S a))) (now (server (S a))) (wall (server (S a))))
      as [ok sse].
    destruct ok.
    + exists 1%nat. simpl. now rewrite <- app_assoc.
    + match goal with
      | |- context [retry_loop _ _ todo (S (S a)) ?d ?s ?t] =>
          destruct (IH (S a) d s t) as [k Hk]
      end.
      exists (S k). rewrite Hk. simpl. now rewrite <- !app_assoc.
Qed.

(** C7, as the code has it. A call makes at most [max_retries + 1]
    connection attempts, the first at once and each further one right after
    a sleep: what the call does is an attempt, then sleep and attempt in
    turn, and nothing else. The sleeps follow the back-off from the base
    delay, each the smaller of the one before times the multiplier and the
    cap; the retry counter goes up by one for each sleep; and a call that
    fails has used all [max_retries + 1] attempts. With base 1, multiplier 2
    and cap 10 the delays are 1, 2, 4, 8, 10, 10, and 10 ever after. *)
Theorem connect_with_retry_backoff (self : t) :
  let '(ok, self', trace) := connect_with_retry json_loads server self in
  (attempts trace <= Z.to_nat (max_retries self + 1))%nat /\
  trace = match attempts trace with
          | O => []
          | S k => interleaved (backoff k (backoff_base self) (backoff_multiplier self)
                                  (backoff_max self))
          end /\
  sleeps trace
  = backoff (attempts trace - 1) (backoff_base self) (backoff_multiplier self)
      (backoff_max self) /\
  _reconnect_count self' = _reconnect_count self + Z.of_nat (attempts trace - 1) /\
  length (sleeps trace) = (attempts trace - 1)%nat /\
  (ok = false -> attempts trace = Z.to_nat (max_retries self + 1)) /\
  (forall n, (backoff (4 + n) 1 2 10 = [1; 2; 4; 8] ++ repeat 10 n)%Q%list).
Proof.
  unfold connect_with_retry.
  destruct (Z.to_nat (max_retries self + 1)) as [|todo].
  - repeat split; try exact backoff_1_2_10; simpl; try lia.
  - cbn [retry_loop]. cbn [Nat.ltb Nat.leb].
    destruct (SSEClient.connect json_loads (base self) None
                (opening (server O)) (now (server O)) (wall (server O)))
      as [ok sse] eqn:Hc.
    destruct ok.
    + repeat split; try exact backoff_1_2_10; simpl; try lia; try discriminate.
    + match goal with
      | |- context [retry_loop _ _ todo 1 ?d ?s ?t] =>
          destruct (retry_loop_retrying todo O d s t) as [k [Hk H]];
          destruct (retry_loop_order todo O d s t) as [k' Hord];
          destruct (retry_loop json_loads server todo 1 d s t)
            as [[ok' self'] trace'] eqn:Hr
      end.
      destruct H as [Ha [Hs [Hn Hf]]]. simpl in Ha, Hs, Hn, Hord.
      assert (Hk' : k' = k).
      { rewrite Hord in Ha. simpl in Ha. rewrite attempts_retries, backoff_length in Ha.
        lia. }
      subst k'.
      rewrite Ha. replace (S k - 1)%nat with k by lia.
      repeat split; try exact backoff_1_2_10; try lia.
      * exact Hord.
      * exact Hs.
      * rewrite Hs. clear. generalize (backoff_base self).
        induction k as [|k IH]; intros d; simpl; [reflexivity | now rewrite IH].
      * intros Hok. now rewrite (Hf Hok).
Qed.

End Retry.

(** Eight attempts against a server that refuses them all. *)
Lemma connect_with_retry_backoff_witness :
  let '(ok, self', trace) :=
    connect_with_retry sample_loads refusing (sample_reconnecting 7) in
  (attempts trace <= Z.to_nat (7 + 1))%nat /\
  trace = match attempts trace with
          | O => []
          | S k => interleaved (backoff k 1 2 10)
          end /\
  sleeps trace = backoff (attempts trace - 1) 1 2 10 /\
  _reconnect_count self' = 0 + Z.of_nat (attempts trace - 1) /\
  length (sleeps trace) = (attempts trace - 1)%nat /\
  (ok = false -> attempts trace = Z.to_nat (7 + 1)) /\
  (forall n, (backoff (4 + n) 1 2 10 = [1; 2; 4; 8] ++ repeat 10 n)%Q%list).
Proof.
  exact (connect_with_retry_backoff sample_loads refusing (sample_reconnecting 7)).
Defined.

Example connect_with_retry_delays :
  sleeps (snd (connect_with_retry sample_loads refusing (sample_reconnecting 7)))
  = [1; 2; 4; 8; 10; 10; 10]%Q.
Proof. vm_compute. reflexivity. Qed.

(** A budget of two against a server that refuses: attempt, sleep, attempt,
    sleep, attempt. *)
Example connect_with_retry_order :
  snd (connect_with_retry sample_loads refusing (sample_reconnecting 2))
  = [Connect; Sleep 1; Connect; Sleep 2; Connect].
Proof. vm_compute. reflexivity. Qed.

(** C7, where the claim goes too far: with a budget of 5 and a server that
    refuses every connection, the call makes 6 connection attempts, not 5,
    sleeping 1, 2, 4, 8 and 10 seconds between them, and counts 5 retries. *)
Lemma connect_with_retry_six_attempts :
  let '(ok, self', trace) :=
    connect_with_retry sample_loads refusing (sample_reconnecting 5) in
  ok = false /\
  attempts trace = 6%nat /\
  sleeps trace = [1; 2; 4; 8; 10]%Q /\
  reconnect_count self' = 5.
Proof. vm_compute. repeat split. Qed.

(* ------------------------------------------------------------------ *)
(** ** The listener task *)

Section Listener.

Variable L : library.

(** The loop handles each event by itself: the queue grows by the Responses
    the events decode to, in order, the log by their entries. *)
Lemma drain_spec (events : list MessageEvent.t) :
  forall queue log,
    MCPClient.drain L events queue log
    = ((queue ++ deposits L events)%list,
       (log ++ flat_map (entries L) events)%list).
Proof.
  induction events as [|ev events IH]; intros queue log; simpl.
  - now rewrite !app_nil_r.
  - unfold deposit, entries.
    destruct (String.eqb (MessageEvent.type ev) "endpoint"); [apply IH|].
    destruct (String.eqb (MessageEvent.data ev) ""); [apply IH|].
    destruct (json_loads L (MessageEvent.data ev)) as [data|].
    + destruct (MCPResponse_of L data) as [e|response];
        rewrite IH; simpl; now rewrite <- !app_assoc.
    + rewrite IH. simpl. now rewrite <- !app_assoc.
Qed.

Lemma deposits_app (a b : list MessageEvent.t) :
  deposits L (a ++ b) = (deposits L a ++ deposits L b)%list.
Proof.
  induction a as [|ev a IH]; simpl; [reflexivity|].
  destruct (deposit L ev); simpl; now rewrite IH.
Qed.

Lemma deposits_in (events : list MessageEvent.t) ev response :
  In ev events -> deposit L ev = Some response -> In response (deposits L events).
Proof.
  induction events as [|x events IH]; simpl; [contradiction|].
  intros [->|Hin] Hd.
  - rewrite Hd. now left.
  - destruct (deposit L x); [right|]; auto.
Qed.

Lemma malformed_deposits_nothing ev :
  malformed L ev -> deposit L ev = None /\ exists entry, entries L ev = [entry] /\ is_log_of_drop entry.
Proof.
  intros [Ht [Hd Hbad]]. unfold deposit, entries.
  destruct (String.eqb_spec (MessageEvent.type ev) "endpoint"); [contradiction|].
  destruct (String.eqb_spec (MessageEvent.data ev) ""); [contradiction|].
  destruct Hbad as [Hnone | [data [e [Hsome Hinv]]]].
  - rewrite Hnone. split; [reflexivity|]. eexists. split; [reflexivity|exact I].
  - rewrite Hsome, Hinv. split; [reflexivity|]. eexists. split; [reflexivity|exact I].
Qed.

(** C8. The listener reads a stream in which one event is malformed: its data
    is not JSON, or is JSON that is no Response. The event leaves a log entry
    and nothing in the holding area, the loop goes on, and every event after
    it that decodes to a Response has that Response deposited: the holding
    area ends up with what it had, then the Responses of the events before
    the malformed one, then those of the events after it, in order. *)
Theorem listener_survives_malformed_event s sse source before bad after :
  MCPClient._sse_client s = Some sse ->
  SSEClient._event_source sse = Some source ->
  items source = (before ++ bad :: after)%list ->
  malformed L bad ->
  let '(s', log) := MCPClient._listen_for_responses L s in
  MCPClient._response_queue s'
  = (MCPClient._response_queue s ++ deposits L before ++ deposits L after)%list /\
  (exists entry, In entry log /\ is_log_of_drop entry) /\
  (forall ev response,
     In ev after -> deposit L ev = Some response ->
     In response (MCPClient._response_queue s')).
Proof.
  intros Hsse Hsrc Hitems Hbad.
  unfold MCPClient._listen_for_responses. rewrite Hsse, Hsrc, Hitems, drain_spec.
  destruct (malformed_deposits_nothing _ Hbad) as [Hnone [entry [Hentry Hdrop]]].
  assert (Hq : deposits L (before ++ bad :: after)
               = (deposits L before ++ deposits L after)%list).
  { rewrite deposits_app. simpl. now rewrite Hnone. }
  assert (Hlog : In entry (flat_map (entries L) (before ++ bad :: after))).
  { apply in_flat_map. exists bad. split.
    - apply in_or_app. right. now left.
    - rewrite Hentry. now left. }
  rewrite Hq.
  assert (Hafter : forall ev response,
             In ev after -> deposit L ev = Some response ->
             In response (MCPClient._response_queue s ++ deposits L before ++ deposits L after)).
  { intros ev response Hin Hd. apply in_or_app. right. apply in_or_app. right.
    eapply deposits_in; eauto. }
  destruct (ending source); simpl; repeat split; auto;
    exists entry; split; auto; apply in_or_app; auto.
Qed.

End Listener.

(** Text that is not JSON, then JSON that is no Response, then a Response:
    the Response is deposited, the two others are logged. *)
Lemma listener_survives_malformed_event_witness :
  let '(s', log) :=
    MCPClient._listen_for_responses sample_library
      (listening_client [message_event "ping"; message_event text_array;
                         message_event text_result_1]) in
  MCPClient._response_queue s'
  = ([] ++ deposits sample_library [message_event "ping"]
        ++ deposits sample_library [message_event text_result_1])%list /\
  (exists entry, In entry log /\ is_log_of_drop entry) /\
  (forall ev response,
     In ev [message_event text_result_1] -> deposit sample_library ev = Some response ->
     In response (MCPClient._response_queue s')).
Proof.
  refine (listener_survives_malformed_event sample_library
            (listening_client [message_event "ping"; message_event text_array;
                               message_event text_result_1])
            _ _ [message_event "ping"] (message_event text_array)
            [message_event text_result_1] eq_refl eq_refl eq_refl _).
  split; [discriminate|]. split; [discriminate|].
  right. exists (JArr [JInt 1]), (ValidationError "argument after ** must be a mapping").
  split; reflexivity.
Defined.

Example listener_sample_run :
  MCPClient._response_queue
    (fst (MCPClient._listen_for_responses sample_library
            (listening_client [message_event "ping"; message_event text_array;
                               message_event text_result_1])))
  = [MCPResponse.mk "2.0" (JObj []) None (Some (IdInt 1))] /\
  snd (MCPClient._listen_for_responses sample_library
         (listening_client [message_event "ping"; message_event text_array;
                            message_event text_result_1]))
  = [LogDebug "Non-JSON SSE event: ping";
     LogWarning "Failed to parse SSE event: argument after ** must be a mapping";
     LogDebug "Queued response for request 1"].
Proof. split; reflexivity. Qed.

(* ------------------------------------------------------------------ *)
(** ** list_tools *)

Section ListTools.

Variable L : library.

(** C6, as the code has it. [list_tools] answers from the cache when it may
    and the cache is filled. Otherwise it sends [tools/list] under a fresh id
    and converts nothing: an exception of the request, be it a transport
    error, an HTTP status or the timeout of the wait, reaches the caller as it
    is; a JSON-RPC error Response is raised as a [RuntimeError]; a result that
    the model refuses raises the error of the model; only a Response without
    error gives a list, which is cached when the result is not empty. *)
Theorem list_tools_outcome use_cache net script s :
  (forall tools,
     use_cache = true -> MCPClient._tools_cache s = Some tools ->
     MCPClient.list_tools L use_cache net script s = (inr tools, s)) /\
  (use_cache = false \/ MCPClient._tools_cache s = None ->
   match MCPClient._send_request L net script
           (MCPRequest.list_tools (IdInt (MCPClient._request_id s + 1)))
           (MCPClient.set_request_id (MCPClient._request_id s + 1) s) with
   | (inl e, s1) => MCPClient.list_tools L use_cache net script s = (inl e, s1)
   | (inr response, s1) =>
       match MCPResponse.error response with
       | Some err =>
           MCPClient.list_tools L use_cache net script s
           = (inl (RuntimeError ("List tools failed: " ++ str_MCPError err)), s1)
       | None =>
           if truthy (MCPResponse.result response) then
             match ToolsListResult_of L (MCPResponse.result response) with
             | inr tools =>
                 MCPClient.list_tools L use_cache net script s
                 = (inr tools, MCPClient.set_tools_cache (Some tools) s1)
             | inl e => MCPClient.list_tools L use_cache net script s = (inl e, s1)
             end
           else MCPClient.list_tools L use_cache net script s = (inr [], s1)
       end
   end).
Proof.
  split.
  - intros tools -> Hc. unfold MCPClient.list_tools. now rewrite Hc.
  - intros Hmiss.
    assert (Hsel : (if use_cache then MCPClient._tools_cache s else None) = None)
      by (destruct Hmiss as [-> | ->]; [reflexivity | now destruct use_cache]).
    unfold MCPClient.list_tools. rewrite Hsel.
    unfold MCPClient.bind at 1. unfold MCPClient._next_request_id.
    unfold MCPClient.bind.
    destruct (MCPClient._send_request L net script
                (MCPRequest.list_tools (IdInt (MCPClient._request_id s + 1)))
                (MCPClient.set_request_id (MCPClient._request_id s + 1) s))
      as [[e|response] s1]; [reflexivity|].
    destruct (MCPResponse.error response) as [err|]; [reflexivity|].
    destruct (truthy (MCPResponse.result response)); [|reflexivity].
    unfold MCPClient.lift.
    destruct (ToolsListResult_of L (MCPResponse.result response)); reflexivity.
Qed.

End ListTools.

(** A refused POST, through the theorem: the status error reaches the caller. *)
Lemma list_tools_outcome_witness :
  MCPClient.list_tools sample_library false (always (Replied 503 "")) []
    (sample_client [])
  = (inl (HTTPStatusError 503 "HTTP status 503"),
     MCPClient.set_http_client true (MCPClient.set_request_id 2 (sample_client []))).
Proof.
  exact (proj2 (list_tools_outcome sample_library false (always (Replied 503 "")) []
                  (sample_client [])) (or_introl eq_refl)).
Defined.

(** C6, where the claim goes too far: the server answers [tools/list] with
    a JSON-RPC error, and [list_tools] raises. *)
Lemma list_tools_raises_on_error_response :
  fst (MCPClient.list_tools sample_library true (always (Replied 200 text_error_3)) []
         (sample_client []))
  = inl (RuntimeError "List tools failed: code=-32601 message='not found' data=None").
Proof. reflexivity. Qed.

(** So does a wait that times out, and a refused POST. *)
Example list_tools_raises_on_timeout :
  fst (MCPClient.list_tools sample_library true (always (Replied 202 ""))
         [ {| elapsed := 0; arrivals := [] |} ] (sample_client []))
  = inl (TimeoutError "Timeout waiting for response to request 2").
Proof. reflexivity. Qed.

Example list_tools_raises_on_http_error :
  fst (MCPClient.list_tools sample_library true (always (Replied 503 "")) []
         (sample_client []))
  = inl (HTTPStatusError 503 "HTTP status 503").
Proof. reflexivity. Qed.

(* ------------------------------------------------------------------ *)
(** ** MCPClient.connect *)

Section ClientConnect.

Variable L : library.

Lemma await_frame request_id timeout script s :
  let s' := snd (MCPClient.await_sse_response request_id timeout script s) in
  same_transport s s' /\ MCPClient._initialized s' = MCPClient._initialized s.
Proof.
  unfold MCPClient.await_sse_response, same_transport.
  destruct (_wait_for_sse_response request_id timeout script
              (MCPClient._response_queue s) []) as [[r|] queue]; simpl; auto.
Qed.

Lemma send_request_frame net script request s :
  let s' := snd (MCPClient._send_request L net script request s) in
  same_transport s s' /\ MCPClient._initialized s' = MCPClient._initialized s.
Proof.
  unfold MCPClient._send_request, MCPClient.bind, MCPClient._ensure_http_client,
    MCPClient.raise, MCPClient.lift.
  destruct (MCPClient._sse_client s) as [sse|] eqn:Hsse;
    [|unfold same_transport; simpl; auto].
  destruct (net (MCPClient.post_url sse s) request)
    as [e|status_code text]; [unfold same_transport; simpl; auto|].
  destruct (negb (is_success_status status_code));
    [unfold same_transport; simpl; auto|].
  pose proof (await_frame (MCPRequest.id request) MCPClient.sse_response_timeout script
                (MCPClient.set_http_client true s)) as Hw.
  destruct (status_code =? 202); [exact Hw|].
  destruct (blank text); [exact Hw|].
  unfold same_transport; simpl; auto.
Qed.

(** [_initialize] leaves the transport and the listener task as they are,
    and sets [_initialized] exactly when it returns. *)
Lemma initialize_frame net script s :
  let '(r, s') := MCPClient._initialize L net script s in
  same_transport s s' /\
  match r with
  | inr _ => MCPClient._initialized s' = true
  | inl _ => MCPClient._initialized s' = MCPClient._initialized s
  end.
Proof.
  unfold MCPClient._initialize, MCPClient.raise.
  destruct (MCPClient._sse_client s) as [sse|] eqn:Hsse;
    [|unfold same_transport; auto].
  destruct (SSEClient.message_endpoint sse) as [endpoint|];
    [|unfold same_transport; auto].
  destruct (String.eqb endpoint ""); [unfold same_transport; auto|].
  unfold MCPClient.bind at 1. unfold MCPClient._next_request_id.
  set (s0 := MCPClient.set_request_id (MCPClient._request_id s + 1) s).
  unfold MCPClient.bind at 1.
  pose proof (send_request_frame net script
                (MCPRequest.initialize (IdInt (MCPClient._request_id s + 1))) s0) as Hf.
  destruct (MCPClient._send_request L net script
              (MCPRequest.initialize (IdInt (MCPClient._request_id s + 1))) s0)
    as [[e|response] s1]; simpl in Hf; destruct Hf as [[Ha [Hb Hc]] Hd].
  - unfold same_transport. simpl in *. auto.
  - destruct (MCPResponse.error response) as [err|].
    + unfold same_transport, MCPClient.raise. simpl in *. auto.
    + unfold MCPClient.bind, MCPClient._send_notification, MCPClient.raise,
        MCPClient._ensure_http_client.
      simpl in Ha. rewrite Ha, Hsse.
      destruct (net (MCPClient.post_url sse s1) MCPRequest.initialized_notification);
        unfold same_transport, MCPClient.ret; simpl in *; auto.
Qed.

(** The transport's own [connect] on a client that is not connected: it
    returns [True] with the client connected, or [False] with it closed. *)
Lemma sse_connect_result (self : SSEClient.t) timeout opening now wall :
  SSEClient._is_connected self = false ->
  let '(ok, self') := SSEClient.connect (json_loads L) self timeout opening now wall in
  if ok then SSEClient._is_connected self' = true
  else SSEClient._is_connected self' = false /\ SSEClient._event_source self' = None.
Proof.
  intros Hc. unfold SSEClient.connect. rewrite Hc.
  destruct opening as [s| |msg]; simpl; auto.
  destruct (SSEClient.wait_for_endpoint (float_or timeout 10) (items s) (ending s))
    as [e rest| | |msg]; simpl; auto.
  destruct (SSEClient.connection_info_of (json_loads L) wall e); simpl; auto.
Qed.

(** [_initialize] returns only after an [initialize] request that returned
    a Response without error. *)
Lemma initialize_needs_response net script s u s2 :
  MCPClient._initialize L net script s = (inr u, s2) ->
  exists response s1,
    MCPClient._send_request L net script
      (MCPRequest.initialize (IdInt (MCPClient._request_id s + 1)))
      (MCPClient.set_request_id (MCPClient._request_id s + 1) s) = (inr response, s1) /\
    MCPResponse.error response = None.
Proof.
  unfold MCPClient._initialize, MCPClient.raise.
  destruct (MCPClient._sse_client s) as [sse|]; [|discriminate].
  destruct (SSEClient.message_endpoint sse) as [endpoint|]; [|discriminate].
  destruct (String.eqb endpoint ""); [discriminate|].
  unfold MCPClient.bind at 1. unfold MCPClient._next_request_id. cbv zeta.
  unfold MCPClient.bind at 1.
  destruct (MCPClient._send_request L net script
              (MCPRequest.initialize (IdInt (MCPClient._request_id s + 1)))
              (MCPClient.set_request_id (MCPClient._request_id s + 1) s))
    as [[e|response] s1]; [discriminate|].
  destruct (MCPResponse.error response) as [err|] eqn:Herr; [discriminate|].
  intros _. now exists response, s1.
Qed.

(** C5, as the code has it. [connect] never raises: it returns [True] or
    [False], and a [False] leaves [_initialized] as it was. The client keeps
    the transport it made. If the transport failed to connect, [connect]
    returns [False]; the transport is closed, with no stream, and no
    listener task was started. If the transport connected, the listener task
    was started and the handshake run, and [connect] returns [True] exactly
    when the handshake returns: an [initialize] request that raises, or that
    returns a Response with an error, makes it return [False]. Either way
    the client is left as the handshake left it, the listener task started
    and the transport connected: nothing is undone before [close()] is
    called. *)
Theorem connect_reports_failure env s :
  exists b s',
    MCPClient.connect L env s = (inr b, s') /\
    (b = true -> MCPClient._initialized s' = true) /\
    (b = false -> MCPClient._initialized s' = MCPClient._initialized s) /\
    let '(ok, sse) :=
      SSEClient.connect (json_loads L) (SSEClient.init (MCPClient.config s)) None
        (MCPClient.opening env) (MCPClient.now env) (MCPClient.wall env) in
    MCPClient._sse_client s' = Some sse /\
    if ok then
      let started :=
        MCPClient.set_listener_task (Some MCPClient.Scheduled)
          (MCPClient.set_sse_client (Some sse) s) in
      let sent :=
        MCPClient._send_request L (MCPClient.net env) (MCPClient.script env)
          (MCPRequest.initialize (IdInt (MCPClient._request_id s + 1)))
          (MCPClient.set_request_id (MCPClient._request_id s + 1) started) in
      SSEClient._is_connected sse = true /\
      MCPClient._listener_task s' = Some MCPClient.Scheduled /\
      s' = snd (MCPClient._initialize L (MCPClient.net env) (MCPClient.script env)
                  started) /\
      (b = true <->
       exists s2,
         MCPClient._initialize L (MCPClient.net env) (MCPClient.script env) started
         = (inr tt, s2)) /\
      (forall e s1, sent = (inl e, s1) -> b = false) /\
      (forall response s1 err,
         sent = (inr response, s1) -> MCPResponse.error response = Some err ->
         b = false)
    else
      b = false /\
      SSEClient._is_connected sse = false /\
      SSEClient._event_source sse = None /\
      MCPClient._listener_task s' = MCPClient._listener_task s.
Proof.
  unfold MCPClient.connect, MCPClient.try_except.
  pose proof (sse_connect_result (SSEClient.init (MCPClient.config s)) None
                (MCPClient.opening env) (MCPClient.now env) (MCPClient.wall env)
                eq_refl) as Hsse.
  destruct (SSEClient.connect (json_loads L) (SSEClient.init (MCPClient.config s)) None
              (MCPClient.opening env) (MCPClient.now env) (MCPClient.wall env))
    as [ok sse].
  destruct ok; simpl.
  - unfold MCPClient.bind.
    set (s1 := MCPClient.set_listener_task (Some MCPClient.Scheduled)
                 (MCPClient.set_sse_client (Some sse) s)).
    pose proof (initialize_frame (MCPClient.net env) (MCPClient.script env) s1) as Hi.
    destruct (MCPClient._initialize L (MCPClient.net env) (MCPClient.script env) s1)
      as [[e|u] s2] eqn:Hinit; destruct Hi as [[Ha [Hb Hc]] Hd]; simpl in Ha, Hb, Hc, Hd.
    + exists false, s2. simpl.
      repeat split; auto; try discriminate.
      intros [s3 H3]. discriminate.
    + destruct (initialize_needs_response _ _ _ _ _ Hinit) as [response [s3 [Hsent Herr]]].
      change (MCPClient._request_id s1) with (MCPClient._request_id s) in Hsent.
      destruct u. exists true, s2. simpl.
      repeat split; auto; try discriminate.
      * now exists s2.
      * intros e s4 H4. rewrite Hsent in H4. discriminate.
      * intros response' s4 err H4 Herr'. rewrite Hsent in H4.
        injection H4 as <- _. congruence.
  - destruct Hsse as [Hc He].
    exists false, (MCPClient.set_sse_client (Some sse) s).
    repeat split; auto; discriminate.
Qed.

End ClientConnect.

(** A transport that cannot be opened, through the theorem. *)
Lemma connect_reports_failure_witness :
  exists b s',
    MCPClient.connect sample_library env_transport_refused
      (MCPClient.init sample_config 30) = (inr b, s') /\
    (b = true -> MCPClient._initialized s' = true) /\
    (b = false -> MCPClient._initialized s' = false) /\
    MCPClient._sse_client s' = Some (closed_client sample_config None) /\
    b = false /\
    SSEClient._is_connected (closed_client sample_config None) = false /\
    SSEClient._event_source (closed_client sample_config None) = None /\
    MCPClient._listener_task s' = None.
Proof.
  exact (connect_reports_failure sample_library env_transport_refused
           (MCPClient.init sample_config 30)).
Defined.

(** C5, where the claim goes too far: the transport connects, the listener
    task is started, and the server refuses the initialize request. [connect]
    returns [False], and the client it leaves behind still holds a connected
    transport with its stream open, the listener task, and an open HTTP
    client. *)
Lemma connect_failure_keeps_stream_and_listener :
  exists s' sse source,
    MCPClient.connect sample_library env_initialize_refused
      (MCPClient.init sample_config 30) = (inr false, s') /\
    MCPClient._sse_client s' = Some sse /\
    SSEClient._is_connected sse = true /\
    SSEClient._event_source sse = Some source /\
    MCPClient._listener_task s' = Some MCPClient.Scheduled /\
    MCPClient._http_client s' = true.
Proof. eexists _, _, _. repeat split. Qed.

(** A transport that cannot be opened leaves nothing behind. *)
Example connect_transport_refused :
  exists s' sse,
    MCPClient.connect sample_library env_transport_refused
      (MCPClient.init sample_config 30) = (inr false, s') /\
    MCPClient._sse_client s' = Some sse /\
    SSEClient._is_connected sse = false /\
    SSEClient._event_source sse = None /\
    MCPClient._listener_task s' = None.
Proof. eexists _, _. repeat split. Qed.

(* ================================================================== *)
(** * Further properties of the client code *)

(* ------------------------------------------------------------------ *)
(** ** Request ids, the cache and the closed client *)

Section ClientState.

Variable L : library.

Lemma await_keeps request_id timeout script s :
  let s' := snd (MCPClient.await_sse_response request_id timeout script s) in
  MCPClient._request_id s' = MCPClient._request_id s /\
  MCPClient._tools_cache s' = MCPClient._tools_cache s.
Proof.
  unfold MCPClient.await_sse_response.
  destruct (_wait_for_sse_response request_id timeout script
              (MCPClient._response_queue s) []) as [[r|] queue]; simpl; auto.
Qed.

Lemma send_request_keeps net script request s :
  let s' := snd (MCPClient._send_request L net script request s) in
  MCPClient._request_id s' = MCPClient._request_id s /\
  MCPClient._tools_cache s' = MCPClient._tools_cache s.
Proof.
  unfold MCPClient._send_request, MCPClient.bind, MCPClient._ensure_http_client,
    MCPClient.raise, MCPClient.lift.
  destruct (MCPClient._sse_client s) as [sse|]; [|simpl; auto].
  destruct (net (MCPClient.post_url sse s) request) as [e|status_code text];
    [simpl; auto|].
  destruct (negb (is_success_status status_code)); [simpl; auto|].
  pose proof (await_keeps (MCPRequest.id request) MCPClient.sse_response_timeout script
                (MCPClient.set_http_client true s)) as Hw.
  destruct (status_code =? 202); [exact Hw|].
  destruct (blank text); [exact Hw|].
  simpl; auto.
Qed.

Lemma with_timeout_send expires net script request s :
  let s' := snd (MCPClient.with_timeout expires
                   (MCPClient._send_request L net script request) s) in
  (MCPClient._request_id s' = MCPClient._request_id s /\
   MCPClient._tools_cache s' = MCPClient._tools_cache s) /\
  (same_transport s s' /\ MCPClient._initialized s' = MCPClient._initialized s).
Proof.
  unfold MCPClient.with_timeout.
  pose proof (send_request_keeps net script request s) as Hk.
  pose proof (send_request_frame L net script request s) as Hf.
  destruct expires; [|split; assumption].
  destruct (MCPClient._sse_client s) eqn:Hs; [|split; assumption].
  unfold same_transport. simpl. auto.
Qed.

Lemma exchange_state tool_name arguments timeout env s :
  let s' := snd (exchange L tool_name arguments timeout env s) in
  MCPClient._request_id s' = MCPClient._request_id s + 1 /\
  MCPClient._tools_cache s' = MCPClient._tools_cache s /\
  MCPClient._initialized s' = MCPClient._initialized s /\
  MCPClient._sse_client s' = MCPClient._sse_client s /\
  MCPClient._listener_task s' = MCPClient._listener_task s.
Proof.
  unfold exchange, MCPClient.bind, MCPClient._next_request_id. cbv zeta.
  set (s0 := MCPClient.set_request_id (MCPClient._request_id s + 1) s).
  set (request := MCPRequest.tool_call _ _ _).
  assert (Hgoal :
    forall r : (exn + MCPResponse.t) * MCPClient.t,
      (MCPClient._request_id (snd r) = MCPClient._request_id s0 /\
       MCPClient._tools_cache (snd r) = MCPClient._tools_cache s0) ->
      (same_transport s0 (snd r) /\
       MCPClient._initialized (snd r) = MCPClient._initialized s0) ->
      MCPClient._request_id (snd r) = MCPClient._request_id s + 1 /\
      MCPClient._tools_cache (snd r) = MCPClient._tools_cache s /\
      MCPClient._initialized (snd r) = MCPClient._initialized s /\
      MCPClient._sse_client (snd r) = MCPClient._sse_client s /\
      MCPClient._listener_task (snd r) = MCPClient._listener_task s).
  { intros r [H1 H2] [[H3 [H4 _]] H5]. simpl in *. repeat split; congruence. }
  destruct (match timeout with
            | Some t => negb (Qeq_bool t 0)
            | None => false
            end).
  - destruct (with_timeout_send (MCPClient.scope_expires env) (MCPClient.call_net env)
                (MCPClient.call_script env) request s0) as [Hk Hf].
    specialize (Hgoal _ Hk Hf).
    destruct (MCPClient.with_timeout _ _ s0) as [[e|r] s1]; exact Hgoal.
  - specialize (Hgoal _ (send_request_keeps (MCPClient.call_net env)
                           (MCPClient.call_script env) request s0)
                        (send_request_frame L (MCPClient.call_net env)
                           (MCPClient.call_script env) request s0)).
    destruct (MCPClient._send_request L _ _ request s0) as [[e|r] s1]; exact Hgoal.
Qed.

Lemma call_tool_state tool_name arguments timeout env s :
  snd (MCPClient.call_tool L tool_name arguments timeout env s)
  = snd (exchange L tool_name arguments timeout env s).
Proof.
  rewrite call_tool_unfold. cbv zeta.
  destruct (exchange L tool_name arguments timeout env s) as [[e|response] s1];
    [reflexivity|].
  destruct (MCPResponse.error response); [reflexivity|].
  destruct (MCPClient.get_tool_result L response); reflexivity.
Qed.

(** X1. Every [call_tool] takes exactly one fresh request id, whatever becomes of
    the call, and leaves the tool cache, the initialized flag, the transport
    and the listener task alone. *)
Theorem call_tool_takes_one_id tool_name arguments timeout env s :
  let s' := snd (MCPClient.call_tool L tool_name arguments timeout env s) in
  MCPClient._request_id s' = MCPClient._request_id s + 1 /\
  MCPClient._tools_cache s' = MCPClient._tools_cache s /\
  MCPClient._initialized s' = MCPClient._initialized s /\
  MCPClient._sse_client s' = MCPClient._sse_client s /\
  MCPClient._listener_task s' = MCPClient._listener_task s.
Proof. cbv zeta. rewrite call_tool_state. apply exchange_state. Qed.

(** X2. The cache law: a non-empty list that [list_tools] returns is returned by
    every later [list_tools(use_cache=True)], whatever the network would
    answer, and that call changes nothing. *)
Theorem list_tools_cached_afterwards use_cache net script s tools s' :
  MCPClient.list_tools L use_cache net script s = (inr tools, s') ->
  tools <> [] ->
  forall net2 script2,
    MCPClient.list_tools L true net2 script2 s' = (inr tools, s').
Proof.
  intros Hcall Hne net2 script2.
  assert (Hc : MCPClient._tools_cache s' = Some tools).
  { revert Hcall. unfold MCPClient.list_tools.
    destruct (if use_cache then MCPClient._tools_cache s else None) as [c|] eqn:Hsel.
    - intros H. injection H as <- <-. now destruct use_cache.
    - unfold MCPClient.bind at 1. unfold MCPClient._next_request_id.
      unfold MCPClient.bind.
      destruct (MCPClient._send_request L net script _ _) as [[e|response] s1];
        [discriminate|].
      destruct (MCPResponse.error response); [discriminate|].
      destruct (truthy (MCPResponse.result response)).
      + unfold MCPClient.lift.
        destruct (ToolsListResult_of L (MCPResponse.result response));
          [discriminate|].
        intros H. injection H as <- <-. reflexivity.
      + unfold MCPClient.ret. intros H. injection H as <- <-. contradiction. }
  unfold MCPClient.list_tools. now rewrite Hc.
Qed.

(** X3. A client without transport, never connected or closed: [call_tool]
    makes no POST and answers [success=False] with "Not connected". *)
Theorem call_tool_not_connected tool_name arguments timeout env s :
  MCPClient._sse_client s = None ->
  MCPClient.call_tool L tool_name arguments timeout env s
  = (inr (ToolCallResult.mk tool_name false None (Some "Not connected")
            ((MCPClient.end_time env - MCPClient.start_time env) * 1000)%Q 0),
     MCPClient.set_request_id (MCPClient._request_id s + 1) s).
Proof.
  intros Hs. rewrite call_tool_unfold. cbv zeta.
  assert (Hx : exchange L tool_name arguments timeout env s
               = (inl (RuntimeError "Not connected"),
                  MCPClient.set_request_id (MCPClient._request_id s + 1) s)).
  { unfold exchange, MCPClient.bind, MCPClient._next_request_id. cbv zeta.
    assert (Hs0 : MCPClient._sse_client
                    (MCPClient.set_request_id (MCPClient._request_id s + 1) s) = None)
      by exact Hs.
    destruct (match timeout with
              | Some t => negb (Qeq_bool t 0)
              | None => false
              end);
      unfold MCPClient.with_timeout, MCPClient._send_request;
      [destruct (MCPClient.scope_expires env)|]; rewrite !Hs0; reflexivity. }
  now rewrite Hx.
Qed.

End ClientState.

(** After [close()]: whatever the network would answer. *)
Lemma call_tool_not_connected_witness :
  MCPClient.call_tool sample_library "x" None None (call_env_200 text_result_1)
    (MCPClient.close (sample_client [response_1]))
  = (inr (ToolCallResult.mk "x" false None (Some "Not connected") ((0 - 0) * 1000)%Q 0),
     MCPClient.set_request_id 2 (MCPClient.close (sample_client [response_1]))).
Proof.
  apply (call_tool_not_connected sample_library "x" None None
           (call_env_200 text_result_1) (MCPClient.close (sample_client [response_1]))).
  reflexivity.
Defined.

(** A list of one tool, decoded from a direct reply and then cached: the
    second call gets it although the server now answers 500. *)
Lemma list_tools_cached_afterwards_witness :
  MCPClient.list_tools sample_library_more true (always (Replied 500 "")) []
    (MCPClient.set_tools_cache (Some [ToolInfo.mk "searchSpringDocs" None None])
       (MCPClient.set_http_client true (MCPClient.set_request_id 2 (sample_client []))))
  = (inr [ToolInfo.mk "searchSpringDocs" None None],
     MCPClient.set_tools_cache (Some [ToolInfo.mk "searchSpringDocs" None None])
       (MCPClient.set_http_client true (MCPClient.set_request_id 2 (sample_client [])))).
Proof.
  refine (list_tools_cached_afterwards sample_library_more
            false (always (Replied 200 text_tools_2)) [] (sample_client []) _ _ _ _
            (always (Replied 500 "")) []).
  - reflexivity.
  - discriminate.
Defined.

(* ------------------------------------------------------------------ *)
(** ** call_tool_sync, health_check and the content of a result *)

Section Convenience.

Variable L : library.

Lemma connect_returns env s :
  exists b, fst (MCPClient.connect L env s) = inr b.
Proof.
  unfold MCPClient.connect, MCPClient.try_except.
  destruct (SSEClient.connect (json_loads L) (SSEClient.init (MCPClient.config s)) None
              (MCPClient.opening env) (MCPClient.now env) (MCPClient.wall env))
    as [ok sse].
  destruct ok; simpl; [|eexists; reflexivity].
  unfold MCPClient.bind.
  destruct (MCPClient._initialize L (MCPClient.net env) (MCPClient.script env) _)
    as [[e|u] s2]; simpl; eexists; reflexivity.
Qed.

Lemma call_tool_names_tool tool_name arguments timeout env s :
  exists r,
    MCPClient.call_tool L tool_name arguments timeout env s
    = (inr r, snd (MCPClient.call_tool L tool_name arguments timeout env s)) /\
    ToolCallResult.tool_name r = tool_name /\
    (ToolCallResult.success r = false -> ToolCallResult.result r = None).
Proof.
  rewrite call_tool_unfold. cbv zeta.
  destruct (exchange L tool_name arguments timeout env s) as [[e|response] s1].
  - eexists. repeat split.
  - destruct (MCPResponse.error response); [eexists; repeat split|].
    destruct (MCPClient.get_tool_result L response);
      eexists; repeat split; simpl; discriminate.
Qed.

(** X4. [call_tool_sync] never raises. On a client that is not initialized and
    fails to connect it sends no tool call: the answer names the tool, with
    [success=False] and "Failed to connect to MCP server", and the client is
    as [connect] left it. On an initialized client it is [call_tool] without
    a timeout. *)
Theorem call_tool_sync_outcome tool_name arguments cenv env s :
  exists r s',
    call_tool_sync L tool_name arguments cenv env s = (inr r, s') /\
    ToolCallResult.tool_name r = tool_name /\
    (MCPClient._initialized s = false ->
     fst (MCPClient.connect L cenv s) = inr false ->
     r = ToolCallResult.mk tool_name false None
           (Some "Failed to connect to MCP server") 0 0 /\
     s' = snd (MCPClient.connect L cenv s)) /\
    (MCPClient._initialized s = true ->
     (inr r, s') = MCPClient.call_tool L tool_name arguments None env s).
Proof.
  unfold call_tool_sync.
  destruct (MCPClient._initialized s) eqn:Hi.
  - destruct (call_tool_names_tool tool_name arguments None env s) as [r [Hr [Hn _]]].
    exists r, (snd (MCPClient.call_tool L tool_name arguments None env s)).
    repeat split; auto; discriminate.
  - unfold MCPClient.bind.
    destruct (connect_returns cenv s) as [b Hb].
    destruct (MCPClient.connect L cenv s) as [c s1]. simpl in Hb. subst c.
    destruct b.
    + destruct (call_tool_names_tool tool_name arguments None env s1) as [r [Hr [Hn _]]].
      eexists r, _. split; [exact Hr|]. split; [exact Hn|].
      split; [|discriminate]. simpl. discriminate.
    + eexists _, _. split; [reflexivity|]. simpl. repeat split. discriminate.
Qed.

(** X5. [health_check] never raises and takes no account of what its [connect]
    returned: it reports healthy, with the number of tools, exactly when the
    [tools/list] request that follows returns, and unhealthy, with the text
    of the exception, when that request raises. *)
Theorem health_check_outcome env s :
  let duration_ms := ((health_end env - health_start env) * 1000)%Q in
  match MCPClient.list_tools L false (health_net env) (health_script env)
          (after_optional_connect L (health_connect env) s) with
  | (inr tools, s2) =>
      health_check L env s
      = (inr (Healthy (List.length tools) duration_ms
                (match MCPClient._sse_client s2 with
                 | Some sse => SSEClient.session_id sse
                 | None => None
                 end)), s2)
  | (inl e, s2) => health_check L env s = (inr (Unhealthy (str_exn e) duration_ms), s2)
  end.
Proof.
  cbv zeta. unfold health_check, after_optional_connect, MCPClient.try_except,
    MCPClient.bind, MCPClient.ret.
  destruct (MCPClient._initialized s).
  - destruct (MCPClient.list_tools L false (health_net env) (health_script env) s)
      as [[e|tools] s2]; reflexivity.
  - destruct (connect_returns (health_connect env) s) as [b Hb].
    destruct (MCPClient.connect L (health_connect env) s) as [c s1].
    simpl in Hb. subst c. cbn [snd].
    destruct (MCPClient.list_tools L false (health_net env) (health_script env) s1)
      as [[e|tools] s2]; reflexivity.
Qed.

(** X6. A call that failed has no content: its text is empty and it has no JSON. *)
Theorem failed_call_has_no_content tool_name arguments timeout env s r s' :
  MCPClient.call_tool L tool_name arguments timeout env s = (inr r, s') ->
  ToolCallResult.success r = false ->
  result_text_content r = inr "" /\ result_json_content L r = inr None.
Proof.
  intros Hcall Hfail.
  destruct (call_tool_names_tool tool_name arguments timeout env s) as [r0 [Hr [_ Hnone]]].
  rewrite Hr in Hcall. injection Hcall as -> _.
  unfold result_text_content, result_json_content.
  now rewrite (Hnone Hfail).
Qed.

End Convenience.

Lemma texts_ignore_other_items (content : list json) :
  texts (filter is_text_item content) = texts content.
Proof.
  induction content as [|item content IH]; simpl; [reflexivity|].
  assert (Hd : is_text_item item
               = match item_text item with Some _ => true | None => false end)
    by reflexivity.
  rewrite Hd.
  destruct (item_text item) as [[e|text]|] eqn:Hi; simpl; rewrite ?Hi, ?IH;
    reflexivity.
Qed.

(** X7. The text of a tool result depends only on its items of type "text":
    dropping all the others from the content changes neither the text nor
    the error. *)
Theorem text_content_ignores_other_items (content : list json) (isError : bool) :
  get_text_content (MCPToolResult.mk (filter is_text_item content) isError)
  = get_text_content (MCPToolResult.mk content isError).
Proof. unfold get_text_content. simpl. now rewrite texts_ignore_other_items. Qed.

(** The transport is refused and the POST of [tools/list] is answered all the
    same: the report says healthy. *)
Example health_check_without_transport :
  fst (health_check sample_library_more (health_env_refused text_tools_2)
         (MCPClient.init sample_config 30))
  = inr (Healthy 1 ((0 - 0) * 1000)%Q None).
Proof. reflexivity. Qed.

Example health_check_error_response :
  fst (health_check sample_library (health_env_refused text_error_3)
         (MCPClient.init sample_config 30))
  = inr (Unhealthy "List tools failed: code=-32601 message='not found' data=None"
           ((0 - 0) * 1000)%Q).
Proof. reflexivity. Qed.

(** The initialize-then-call sequence of a server that answers in the body
    of the POST. *)
Example call_tool_text_ok :
  exists r s',
    MCPClient.call_tool sample_library_more "x" None None (call_env_200 text_content_2)
      (sample_client []) = (inr r, s') /\
    ToolCallResult.success r = true /\
    result_text_content r = inr "ok".
Proof. eexists _, _. repeat split. Qed.

Lemma failed_call_has_no_content_witness :
  result_text_content
    (ToolCallResult.mk "x" false None (Some "HTTP status 500") ((0 - 0) * 1000)%Q 0)
  = inr "" /\
  result_json_content sample_library
    (ToolCallResult.mk "x" false None (Some "HTTP status 500") ((0 - 0) * 1000)%Q 0)
  = inr None.
Proof.
  refine (failed_call_has_no_content sample_library "x" None None
            {| MCPClient.call_net := always (Replied 500 "");
               MCPClient.call_script := [];
               MCPClient.start_time := 0; MCPClient.end_time := 0;
               MCPClient.scope_expires := false |}
            (sample_client []) _ _ _ _); reflexivity.
Defined.

Lemma call_tool_sync_outcome_witness :
  exists r s',
    call_tool_sync sample_library "x" None env_transport_refused
      (call_env_200 text_result_1) (MCPClient.init sample_config 30) = (inr r, s') /\
    ToolCallResult.tool_name r = "x" /\
    (false = false ->
     fst (MCPClient.connect sample_library env_transport_refused
            (MCPClient.init sample_config 30)) = inr false ->
     r = ToolCallResult.mk "x" false None (Some "Failed to connect to MCP server") 0 0 /\
     s' = snd (MCPClient.connect sample_library env_transport_refused
                 (MCPClient.init sample_config 30))) /\
    (false = true ->
     (inr r, s') = MCPClient.call_tool sample_library "x" None None
                     (call_env_200 text_result_1) (MCPClient.init sample_config 30)).
Proof.
  exact (call_tool_sync_outcome sample_library "x" None env_transport_refused
           (call_env_200 text_result_1) (MCPClient.init sample_config 30)).
Defined.

(* ------------------------------------------------------------------ *)
(** ** The transport: what connect leaves, liveness, listening *)

Section Transport.

Variable json_loads : string -> option json.

Lemma sse_connect_cases (self : SSEClient.t) timeout opening now wall :
  SSEClient._is_connected self = false ->
  let '(ok, self') := SSEClient.connect json_loads self timeout opening now wall in
  if ok then
    SSEClient._is_connected self' = true /\
    SSEClient._session self' = true /\
    SSEClient._last_event_time self' = Some now /\
    (exists rest, SSEClient._event_source self'
                  = Some {| items := rest;
                            ending := match opening with
                                      | SSEClient.Opened s => ending s
                                      | _ => Silent
                                      end |}) /\
    SSEClient.config self' = SSEClient.config self
  else
    self' = closed_client (SSEClient.config self) (SSEClient._last_event_time self) \/
    self' = closed_client (SSEClient.config self) (Some now).
Proof.
  intros Hc. unfold SSEClient.connect. rewrite Hc.
  destruct opening as [s| |msg]; simpl; auto.
  destruct (SSEClient.wait_for_endpoint (float_or timeout 10) (items s) (ending s))
    as [e rest| | |msg]; simpl; eauto 8.
  destruct (SSEClient.connection_info_of json_loads wall e); simpl; eauto 8.
Qed.

(** X8. [connect] on a client that is not connected ends in one of two states and
    no third: [True], with the client connected, its session and stream open
    and the time noted; or [False], with the client closed, nothing of the
    attempt left but, if the stream had opened, the time. *)
Theorem sse_connect_all_or_nothing (self : SSEClient.t) timeout opening now wall :
  SSEClient._is_connected self = false ->
  let '(ok, self') := SSEClient.connect json_loads self timeout opening now wall in
  if ok then
    SSEClient._is_connected self' = true /\
    SSEClient._session self' = true /\
    SSEClient._last_event_time self' = Some now /\
    (exists rest, SSEClient._event_source self'
                  = Some {| items := rest;
                            ending := match opening with
                                      | SSEClient.Opened s => ending s
                                      | _ => Silent
                                      end |}) /\
    SSEClient.config self' = SSEClient.config self
  else
    self' = closed_client (SSEClient.config self) (SSEClient._last_event_time self) \/
    self' = closed_client (SSEClient.config self) (Some now).
Proof.
  intros Hc. unfold SSEClient.connect. rewrite Hc.
  destruct opening as [s| |msg]; simpl; auto.
  destruct (SSEClient.wait_for_endpoint (float_or timeout 10) (items s) (ending s))
    as [e rest| | |msg]; simpl; eauto 8.
  destruct (SSEClient.connection_info_of json_loads wall e); simpl; eauto 8.
Qed.

Lemma wait_for_endpoint_split deadline pre ep post ending :
  no_endpoint pre ->
  MessageEvent.type ep = "endpoint" ->
  SSEClient.wait_for_endpoint deadline (pre ++ ep :: post) ending
  = SSEClient.DeadlineExpired \/
  SSEClient.wait_for_endpoint deadline (pre ++ ep :: post) ending
  = SSEClient.GotEndpoint (sse_event_of ep) post.
Proof.
  intros Hno Hep.
  assert (Heq : String.eqb (MessageEvent.type ep) "endpoint" = true)
    by (rewrite Hep; reflexivity).
  induction Hno as [|ev pre Hev _ IH]; simpl.
  - destruct (Qle_bool deadline (MessageEvent.at_time ep)); [now left|].
    unfold SSEEvent.is_endpoint. simpl. rewrite Heq. now right.
  - destruct (Qle_bool deadline (MessageEvent.at_time ev)); [now left|].
    unfold SSEEvent.is_endpoint. simpl. now rewrite Hev.
Qed.

Lemma sse_connect_rest (self : SSEClient.t) timeout s now wall pre ep post self' :
  SSEClient._is_connected self = false ->
  items s = (pre ++ ep :: post)%list ->
  no_endpoint pre ->
  MessageEvent.type ep = "endpoint" ->
  SSEClient.connect json_loads self timeout (SSEClient.Opened s) now wall = (true, self') ->
  SSEClient._event_source self' = Some {| items := post; ending := ending s |}.
Proof.
  intros Hc Hitems Hno Hep. unfold SSEClient.connect. rewrite Hc, Hitems.
  destruct (wait_for_endpoint_split (float_or timeout 10) pre ep post (ending s) Hno Hep)
    as [-> | ->].
  - discriminate.
  - destruct (SSEClient.connection_info_of json_loads wall (sse_event_of ep)).
    + discriminate.
    + intros H. injection H as <-. reflexivity.
Qed.

(** X9. A successful [connect] reads the stream up to its first endpoint event
    and no further: what came before is dropped, what comes after is left in
    the event source for whoever iterates it next. *)
Theorem sse_connect_leaves_rest (self : SSEClient.t) timeout s now wall pre ep post self' :
  SSEClient._is_connected self = false ->
  items s = (pre ++ ep :: post)%list ->
  no_endpoint pre ->
  MessageEvent.type ep = "endpoint" ->
  SSEClient.connect json_loads self timeout (SSEClient.Opened s) now wall = (true, self') ->
  SSEClient._event_source self' = Some {| items := post; ending := ending s |}.
Proof.
  intros Hc Hitems Hno Hep. unfold SSEClient.connect. rewrite Hc, Hitems.
  destruct (wait_for_endpoint_split (float_or timeout 10) pre ep post (ending s) Hno Hep)
    as [-> | ->].
  - discriminate.
  - destruct (SSEClient.connection_info_of json_loads wall (sse_event_of ep)).
    + discriminate.
    + intros H. injection H as <-. reflexivity.
Qed.

(** X10. After a successful [connect] at reading [now], and as long as nobody
    iterates [listen], the client is healthy up to 60 seconds later and not
    one moment longer. *)
Theorem health_after_connect (self : SSEClient.t) timeout opening now wall self' clock :
  SSEClient._is_connected self = false ->
  SSEClient.connect json_loads self timeout opening now wall = (true, self') ->
  check_connection_health self' clock = Qle_bool (clock - now) 60.
Proof.
  intros Hc Hconn.
  pose proof (sse_connect_cases self timeout opening now wall Hc) as H.
  rewrite Hconn in H. destruct H as [Hi [_ [Ht _]]].
  unfold check_connection_health, time_since_last_event. now rewrite Hi, Ht.
Qed.

End Transport.

Lemma listen_loop_spec opened_at events :
  forall ending self queue yielded,
    let '(out, how, self', queue') :=
      listen_loop opened_at events ending self queue yielded in
    out = (yielded ++ map sse_event_of events)%list /\
    queue' = (queue ++ map sse_event_of events)%list /\
    how = fst (listen_finish ending self) /\
    SSEClient._is_connected self'
    = SSEClient._is_connected (snd (listen_finish ending self)).
Proof.
  induction events as [|ev events IH]; intros ending self queue yielded.
  - simpl. destruct ending; simpl; rewrite !app_nil_r; auto.
  - cbn [listen_loop listen_step].
    match goal with
    | |- context [listen_loop opened_at events ending ?s ?q ?y] =>
        specialize (IH ending s q y);
        destruct (listen_loop opened_at events ending s q y) as [[[out how] self'] queue']
    end.
    destruct IH as [Ho [Hq [Hh Hc]]].
    simpl map. rewrite Ho, Hq, <- !app_assoc. simpl.
    repeat split; auto.
    + rewrite Hh. now destruct ending.
    + rewrite Hc. now destruct ending.
Qed.

(** X11. [listen] iterated over all the stream delivers: every event is
    yielded and every event is queued for [wait_for_message], both in the
    order of arrival. The iteration does not end by itself: when nothing
    more arrives, the stream silent or the response ended by the server, the
    reader is left waiting and the client stays connected; when the stream
    breaks, the error is raised again and the client is marked
    disconnected. *)
Theorem listen_yields_and_queues (self : SSEClient.t) queue opened_at source :
  SSEClient._is_connected self = true ->
  SSEClient._event_source self = Some source ->
  let '(out, how, self', queue') := listen self queue opened_at in
  out = map sse_event_of (items source) /\
  queue' = (queue ++ out)%list /\
  match ending source with
  | Broken _ msg =>
      how = ListenRaised (TransportError msg) /\ SSEClient._is_connected self' = false
  | Closed _ | Silent => how = ListenWaits /\ SSEClient._is_connected self' = true
  end.
Proof.
  intros Hc Hs. unfold listen. rewrite Hc, Hs. simpl.
  pose proof (listen_loop_spec opened_at (items source) (ending source) self queue [])
    as H.
  destruct (listen_loop opened_at (items source) (ending source) self queue [])
    as [[[out how] self'] queue'].
  destruct H as [Ho [Hq [Hh Hi]]]. simpl in Ho. subst out.
  split; [reflexivity|]. split; [exact Hq|].
  destruct (ending source); simpl in *; subst how; split; congruence.
Qed.

Section Heartbeat.

Variables (timeout started opened_at : Q).

Lemma heartbeat_loop_quiet quiet_events :
  forall rest ending self queue,
    Forall (fun ev => quiet ev = true /\
                      Qle_bool (opened_at + MessageEvent.at_time ev - started) timeout = true)
           quiet_events ->
    exists self',
      heartbeat_loop timeout started opened_at (quiet_events ++ rest) ending self queue
      = heartbeat_loop timeout started opened_at rest ending self'
          (queue ++ map sse_event_of quiet_events)%list /\
      SSEClient._is_connected self' = SSEClient._is_connected self.
Proof.
  induction quiet_events as [|ev evs IH]; intros rest ending self queue Hq.
  - exists self. simpl. now rewrite app_nil_r.
  - inversion Hq as [|? ? [Hquiet Htime] Hrest]; subst.
    apply andb_true_iff in Hquiet as [Hhb Hdata]. apply negb_true_iff in Hhb.
    cbn [app heartbeat_loop listen_step]. rewrite Hhb.
    change (SSEEvent.data (sse_event_of ev)) with (MessageEvent.data ev).
    rewrite Hdata, Htime. cbn [negb].
    match goal with
    | |- context [heartbeat_loop _ _ _ (evs ++ rest) ending ?s ?q] =>
        destruct (IH rest ending s q Hrest) as [self' [Heq Hc]]
    end.
    exists self'. rewrite Heq. simpl map. rewrite <- app_assoc. simpl. auto.
Qed.

(** X12. A heart beat, or any event with data, ends [wait_for_heartbeat] with
    [True] however late it arrives: the timeout is looked at only after an
    event that is neither. Every event read on the way is in the message
    queue. *)
Theorem heartbeat_found (self : SSEClient.t) queue opt_timeout source quiet_events ev rest :
  float_or opt_timeout 35 = timeout ->
  SSEClient._is_connected self = true ->
  SSEClient._event_source self = Some source ->
  items source = (quiet_events ++ ev :: rest)%list ->
  Forall (fun e => quiet e = true /\
                   Qle_bool (opened_at + MessageEvent.at_time e - started) timeout = true)
         quiet_events ->
  sign_of_life ev = true ->
  exists self',
    wait_for_heartbeat self queue opt_timeout started opened_at
    = (Some true, self', (queue ++ map sse_event_of (quiet_events ++ [ev]))%list) /\
    SSEClient._event_source self' = Some {| items := rest; ending := ending source |}.
Proof.
  intros Ht Hc Hs Hitems Hq Hsign.
  unfold wait_for_heartbeat. rewrite Hc, Hs, Ht, Hitems. simpl negb. cbv iota.
  destruct (heartbeat_loop_quiet quiet_events (ev :: rest) (ending source) self queue Hq)
    as [self1 [Heq _]].
  rewrite Heq. cbn [heartbeat_loop listen_step].
  rewrite map_app, app_assoc. simpl map.
  unfold sign_of_life in Hsign.
  change (SSEEvent.data (sse_event_of ev)) with (MessageEvent.data ev).
  destruct (is_heartbeat (sse_event_of ev)).
  - eexists. split; reflexivity.
  - simpl in Hsign. rewrite Hsign. eexists. split; reflexivity.
Qed.

(** X13. On a stream that stays open [wait_for_heartbeat] has no timeout of its
    own: if the only events are quiet ones within the time, and then nothing
    more arrives, the call never returns. *)
Theorem heartbeat_wait_has_no_deadline (self : SSEClient.t) queue opt_timeout source :
  float_or opt_timeout 35 = timeout ->
  SSEClient._is_connected self = true ->
  SSEClient._event_source self = Some source ->
  ending source = Silent ->
  Forall (fun e => quiet e = true /\
                   Qle_bool (opened_at + MessageEvent.at_time e - started) timeout = true)
         (items source) ->
  fst (fst (wait_for_heartbeat self queue opt_timeout started opened_at)) = None.
Proof.
  intros Ht Hc Hs Hend Hq.
  unfold wait_for_heartbeat. rewrite Hc, Hs, Ht, Hend. simpl negb. cbv iota.
  destruct (heartbeat_loop_quiet (items source) [] Silent self queue Hq)
    as [self1 [Heq _]].
  rewrite app_nil_r in Heq. rewrite Heq. reflexivity.
Qed.

End Heartbeat.

(* ------------------------------------------------------------------ *)
(** ** The client's listener and its transport *)

Section ListenerAndTransport.

Variable L : library.

(** X14. The listener of an [MCPClient] reads the event source itself, not through
    [listen]: however many events it handles, the time of the last event is
    not refreshed, and the health of the transport at any moment is what it
    would be had no event arrived. *)
Theorem listener_never_refreshes_liveness s sse :
  MCPClient._sse_client s = Some sse ->
  exists sse',
    MCPClient._sse_client (fst (MCPClient._listen_for_responses L s)) = Some sse' /\
    SSEClient._last_event_time sse' = SSEClient._last_event_time sse /\
    forall clock, check_connection_health sse' clock = check_connection_health sse clock.
Proof.
  intros Hs. unfold MCPClient._listen_for_responses. rewrite Hs.
  destruct (SSEClient._event_source sse) as [source|].
  - destruct (MCPClient.drain L (items source) (MCPClient._response_queue s) [])
      as [queue log].
    exists (SSEClient.mk (SSEClient.config sse) (SSEClient._session sse)
              (Some {| items := []; ending := ending source |})
              (SSEClient._is_connected sse) (SSEClient._connection_info sse)
              (SSEClient._last_event_time sse)).
    split; [destruct (ending source); reflexivity|].
    split; reflexivity.
  - exists sse. simpl. auto.
Qed.

(** X15. Responses that reach the stream before the endpoint event are lost:
    [connect] reads past them, and the listener it starts deposits only what
    the events after the endpoint event decode to. *)
Theorem listener_starts_after_endpoint env s src pre ep post b s' sse :
  MCPClient.opening env = SSEClient.Opened src ->
  items src = (pre ++ ep :: post)%list ->
  no_endpoint pre ->
  MessageEvent.type ep = "endpoint" ->
  MCPClient.connect L env s = (inr b, s') ->
  MCPClient._sse_client s' = Some sse ->
  SSEClient._is_connected sse = true ->
  MCPClient._response_queue (fst (MCPClient._listen_for_responses L s'))
  = (MCPClient._response_queue s' ++ deposits L post)%list.
Proof.
  intros Hopen Hitems Hno Hep Hconn Hsse Hlive.
  assert (Hsrc : SSEClient._event_source sse
                 = Some {| items := post; ending := ending src |}).
  { revert Hconn. unfold MCPClient.connect, MCPClient.try_except. rewrite Hopen.
    pose proof (sse_connect_result L (SSEClient.init (MCPClient.config s)) None
                  (SSEClient.Opened src) (MCPClient.now env) (MCPClient.wall env)
                  eq_refl) as Hres.
    destruct (SSEClient.connect (json_loads L) (SSEClient.init (MCPClient.config s)) None
                (SSEClient.Opened src) (MCPClient.now env) (MCPClient.wall env))
      as [ok sse0] eqn:Hc.
    destruct ok; simpl.
    - unfold MCPClient.bind.
      set (s1 := MCPClient.set_listener_task (Some MCPClient.Scheduled)
                   (MCPClient.set_sse_client (Some sse0) s)).
      pose proof (initialize_frame L (MCPClient.net env) (MCPClient.script env) s1) as Hi.
      destruct (MCPClient._initialize L (MCPClient.net env) (MCPClient.script env) s1)
        as [[e|u] s2]; destruct Hi as [[Ha _] _]; simpl in Ha;
        intros H; injection H as _ <-; rewrite Ha in Hsse; injection Hsse as <-;
        exact (sse_connect_rest (json_loads L) (SSEClient.init (MCPClient.config s))
                 None src (MCPClient.now env) (MCPClient.wall env) pre ep post sse0
                 eq_refl Hitems Hno Hep Hc).
    - intros H. injection H as _ <-. simpl in Hsse. injection Hsse as <-.
      destruct Hres as [Hfalse _]. congruence. }
  unfold MCPClient._listen_for_responses. rewrite Hsse, Hsrc. simpl items.
  rewrite drain_spec. now destruct (ending src).
Qed.

End ListenerAndTransport.

(* ------------------------------------------------------------------ *)
(** ** connect_with_retry: where it stops *)

Section RetryStops.

Variable json_loads : string -> option json.

Lemma connection_info_of_wall wall wall' e :
  match SSEClient.connection_info_of json_loads wall e,
        SSEClient.connection_info_of json_loads wall' e with
  | inr _, inr _ | inl _, inl _ => True
  | _, _ => False
  end.
Proof.
  unfold SSEClient.connection_info_of.
  destruct (SSEClient.parse_json json_loads e) as [v|]; [|exact I].
  destruct (truthy v); [|exact I].
  destruct (SSEClient.uri_of v); exact I.
Qed.

(** Whether [connect] succeeds depends on the stream alone. *)
Lemma connect_ok_opens (self : SSEClient.t) opening now wall :
  SSEClient._is_connected self = false ->
  fst (SSEClient.connect json_loads self None opening now wall) = opens json_loads opening.
Proof.
  intros Hc. unfold opens, SSEClient.connect. rewrite Hc. simpl.
  destruct opening as [s| |msg]; try reflexivity.
  change (float_or None 10) with 10%Q.
  destruct (SSEClient.wait_for_endpoint 10 (items s) (ending s))
    as [e rest| | |msg]; try reflexivity.
  pose proof (connection_info_of_wall wall 0 e) as H.
  destruct (SSEClient.connection_info_of json_loads wall e),
           (SSEClient.connection_info_of json_loads 0 e);
    simpl in *; try contradiction; reflexivity.
Qed.

Lemma connect_failed_not_connected (self : SSEClient.t) opening now wall :
  SSEClient._is_connected self = false ->
  fst (SSEClient.connect json_loads self None opening now wall) = false ->
  SSEClient._is_connected (snd (SSEClient.connect json_loads self None opening now wall))
  = false.
Proof.
  intros Hc Hf.
  pose proof (sse_connect_cases json_loads self None opening now wall Hc) as H.
  destruct (SSEClient.connect json_loads self None opening now wall) as [ok self'].
  simpl in *. subst ok. destruct H as [-> | ->]; reflexivity.
Qed.

Variable server : nat -> attempt_env.

Lemma retry_loop_succeeds (k : nat) :
  forall todo a delay self trace,
    SSEClient._is_connected (base self) = false ->
    (k < todo)%nat ->
    (forall i, (i < k)%nat -> opens json_loads (opening (server (S a + i))) = false) ->
    opens json_loads (opening (server (S a + k))) = true ->
    let '(ok, self', trace') := retry_loop json_loads server todo (S a) delay self trace in
    ok = true /\
    attempts trace' = (attempts trace + S k)%nat /\
    sleeps trace' = (sleeps trace
                     ++ backoff (S k) delay (backoff_multiplier self) (backoff_max self))%list /\
    _reconnect_count self' = _reconnect_count self + Z.of_nat (S k) /\
    SSEClient._is_connected (base self') = true.
Proof.
  induction k as [|k IH]; intros todo a delay self trace Hc Hk Hfail Hok;
    (destruct todo as [|todo]; [lia|]);
    cbn [retry_loop]; cbn [Nat.ltb Nat.leb];
    pose proof (connect_ok_opens (base self) (opening (server (S a)))
                  (now (server (S a))) (wall (server (S a))) Hc) as Hopen;
    pose proof (sse_connect_cases json_loads (base self) None (opening (server (S a)))
                  (now (server (S a))) (wall (server (S a))) Hc) as Hcases;
    destruct (SSEClient.connect json_loads (base self) None (opening (server (S a)))
                (now (server (S a))) (wall (server (S a)))) as [ok sse] eqn:Hconn;
    simpl in Hopen.
  - replace (S a + 0)%nat with (S a) in Hok by lia.
    rewrite Hok in Hopen. subst ok. destruct Hcases as [Hi _].
    rewrite !attempts_app, !sleeps_app. simpl. rewrite app_nil_r.
    repeat split; auto; lia.
  - specialize (Hfail O ltac:(lia)) as Hfirst.
    replace (S a + 0)%nat with (S a) in Hfirst by lia.
    rewrite Hfirst in Hopen. subst ok.
    match goal with
    | |- context [retry_loop _ _ todo (S (S a)) ?d ?s ?t] =>
        specialize (IH todo (S a) d s t)
    end.
    simpl in IH.
    assert (Hnc : SSEClient._is_connected sse = false)
      by (destruct Hcases as [-> | ->]; reflexivity).
    specialize (IH Hnc ltac:(lia)).
    assert (Hfail' : forall i, (i < k)%nat ->
                       opens json_loads (opening (server (S (S (a + i))))) = false).
    { intros i Hi. specialize (Hfail (S i) ltac:(lia)).
      now replace (S a + S i)%nat with (S (S (a + i))) in Hfail by lia. }
    assert (Hok' : opens json_loads (opening (server (S (S (a + k))))) = true)
      by (now replace (S a + S k)%nat with (S (S (a + k))) in Hok by lia).
    specialize (IH Hfail' Hok').
    destruct (retry_loop json_loads server todo (S (S a)) _ _ _) as [[ok' self'] trace'].
    destruct IH as [H1 [H2 [H3 [H4 H5]]]].
    rewrite !attempts_app in H2. rewrite !sleeps_app in H3. simpl in H2, H3.
    rewrite app_nil_r, <- app_assoc in H3.
    repeat split; auto; lia.
Qed.

(** X16. [connect_with_retry] stops at the first attempt that connects: when the
    first [k] attempts fail and the next one succeeds, within the budget, it
    returns [True] after exactly [k + 1] attempts and the [k] first delays of
    the back-off, with [k] retries counted and the client connected. *)
Theorem connect_with_retry_stops_at_success (self : t) (k : nat) :
  SSEClient._is_connected (base self) = false ->
  Z.of_nat k <= max_retries self ->
  (forall i, (i < k)%nat -> opens json_loads (opening (server i)) = false) ->
  opens json_loads (opening (server k)) = true ->
  let '(ok, self', trace) := connect_with_retry json_loads server self in
  ok = true /\
  attempts trace = S k /\
  sleeps trace = backoff k (backoff_base self) (backoff_multiplier self) (backoff_max self) /\
  _reconnect_count self' = _reconnect_count self + Z.of_nat k /\
  SSEClient._is_connected (base self') = true.
Proof.
  intros Hc Hbudget Hfail Hok. unfold connect_with_retry.
  replace (Z.to_nat (max_retries self + 1)) with (S (Z.to_nat (max_retries self)))
    by lia.
  cbn [retry_loop]. cbn [Nat.ltb Nat.leb].
  pose proof (connect_ok_opens (base self) (opening (server O)) (now (server O))
                (wall (server O)) Hc) as Hopen.
  pose proof (sse_connect_cases json_loads (base self) None (opening (server O))
                (now (server O)) (wall (server O)) Hc) as Hcases.
  destruct (SSEClient.connect json_loads (base self) None (opening (server O))
              (now (server O)) (wall (server O))) as [ok sse] eqn:Hconn.
  simpl in Hopen. destruct k as [|k].
  - rewrite Hok in Hopen. subst ok. destruct Hcases as [Hi _].
    simpl. rewrite Z.add_0_r. auto.
  - rewrite (Hfail O ltac:(lia)) in Hopen. subst ok.
    assert (Hnc : SSEClient._is_connected sse = false)
      by (destruct Hcases as [-> | ->]; reflexivity).
    match goal with
    | |- context [retry_loop _ _ ?todo 1 ?d ?s ?t] =>
        pose proof (retry_loop_succeeds k todo O d s t Hnc ltac:(lia)) as H
    end.
    simpl in H.
    specialize (H (fun i Hi => Hfail (S i) ltac:(lia)) Hok).
    destruct (retry_loop json_loads server _ 1 _ _ _) as [[ok' self'] trace'].
    destruct H as [H1 [H2 [H3 [H4 H5]]]]. simpl in H2, H3.
    repeat split; auto; lia.
Qed.

(** A budget below zero buys no attempt at all: [connect_with_retry] returns
    [False] without calling [connect] or sleeping, also on a client that is
    connected. *)
Lemma connect_with_retry_negative_budget (self : t) :
  max_retries self < 0 ->
  connect_with_retry json_loads server self = (false, self, []).
Proof.
  intros H. unfold connect_with_retry.
  now replace (Z.to_nat (max_retries self + 1)) with O by lia.
Qed.

End RetryStops.

(* ------------------------------------------------------------------ *)
(** ** The wait loop: what it returns *)

(** X17. A Response that [_wait_for_sse_response] returns matches the awaited
    id and was taken from the queue or arrived during the wait; and nothing
    is lost on the way: the Responses handed to the loop before it, one for
    each turn played, none of them awaited, were set aside and are put back
    behind what the queue still holds, in the order they were taken. *)
Theorem wait_returns_only_awaited request_id timeout script :
  forall queue pending r queue',
    _wait_for_sse_response request_id timeout script queue pending = (Returned r, queue') ->
    matches request_id r = true /\
    In r (queue ++ concat (map arrivals script))%list /\
    exists played later taken rest,
      script = (played ++ later)%list /\
      length played = S (length taken) /\
      (queue ++ concat (map arrivals played))%list = (taken ++ r :: rest)%list /\
      Forall (fun x => matches request_id x = false) taken /\
      queue' = (rest ++ pending ++ taken)%list.
Proof.
  induction script as [|turn script IH]; intros queue pending r queue'; simpl.
  - discriminate.
  - destruct (Qle_bool (timeout - elapsed turn) 0); [discriminate|].
    destruct (queue ++ arrivals turn)%list as [|x rest] eqn:Hq; [discriminate|].
    destruct (matches request_id x) eqn:Hm.
    + intros H. injection H as <- <-. split; [exact Hm|]. split.
      * rewrite app_assoc, Hq. now left.
      * exists [turn], script, [], rest. simpl.
        rewrite !app_nil_r, Hq. repeat split; auto.
    + intros H. apply IH in H as [H1 [H2 [played [later [taken [rest' H3]]]]]].
      destruct H3 as [Hs [Hl [Ha [Hf Hq']]]].
      split; [exact H1|]. split.
      * rewrite app_assoc, Hq. right. exact H2.
      * exists (turn :: played), later, (x :: taken), rest'. simpl.
        rewrite Hs, Hl. repeat split; auto.
        -- rewrite app_assoc, Hq. simpl. now rewrite Ha.
        -- rewrite Hq'. rewrite <- !app_assoc. reflexivity.
Qed.

(* ------------------------------------------------------------------ *)
(** ** Session ids: what is put into an endpoint comes out *)

Lemma startswith_across (needle : string) :
  forall p sep tail,
    has_char sep needle = false ->
    startswith (p ++ String sep tail) needle = true ->
    startswith p needle = true.
Proof.
  induction needle as [|c needle IH]; intros p sep tail Hsep Hs.
  - now destruct p.
  - cbn [has_char] in Hsep. apply orb_false_iff in Hsep as [Hc Hrest].
    destruct p as [|d p]; cbn [append startswith] in Hs |- *.
    + apply andb_true_iff in Hs as [Hs _].
      rewrite Ascii.eqb_sym in Hs. congruence.
    + apply andb_true_iff in Hs as [Hd Hs]. rewrite Hd. simpl. eauto.
Qed.

Lemma search_sessionId_step (c : ascii) (s : string) :
  startswith (String c s) "sessionId=" = false ->
  search_sessionId (String c s) = search_sessionId s.
Proof. intros H. cbn [search_sessionId]. now rewrite H. Qed.

Lemma search_sessionId_skips (p : string) :
  forall sep tail,
    has_char sep "sessionId=" = false ->
    contains "sessionId=" p = false ->
    search_sessionId (p ++ String sep tail) = search_sessionId tail.
Proof.
  induction p as [|c p IH]; intros sep tail Hsep Hno.
  - simpl append. apply search_sessionId_step.
    destruct (startswith (String sep tail) "sessionId=") eqn:Hs; [|reflexivity].
    cbn [startswith] in Hs. apply andb_true_iff in Hs as [Hs _].
    cbn [has_char] in Hsep. apply orb_false_iff in Hsep as [Hc _].
    rewrite Ascii.eqb_sym in Hs. congruence.
  - cbn [contains] in Hno. apply orb_false_iff in Hno as [Hhere Hrest].
    simpl append. rewrite search_sessionId_step.
    + now apply IH.
    + destruct (startswith (String c (p ++ String sep tail)) "sessionId=") eqn:Hs;
        [|reflexivity].
      change (String c (p ++ String sep tail)) with (String c p ++ String sep tail) in Hs.
      apply startswith_across in Hs; [congruence | exact Hsep].
Qed.

Lemma span_not_amp_value (v rest : string) :
  has_char ampersand v = false ->
  rest = "" \/ startswith rest "&" = true ->
  span_not_amp (v ++ rest) = v.
Proof.
  intros Hv Hrest. induction v as [|c v IH]; cbn [append span_not_amp has_char] in *.
  - destruct Hrest as [-> | Hr]; [reflexivity|].
    destruct rest as [|d rest]; [reflexivity|].
    cbn [startswith] in Hr. apply andb_true_iff in Hr as [Hr _].
    cbn [span_not_amp]. rewrite Ascii.eqb_sym. unfold ampersand. now rewrite Hr.
  - apply orb_false_iff in Hv as [Hc Hv].
    rewrite Ascii.eqb_sym, Hc. now rewrite IH.
Qed.

Lemma search_sessionId_here (s g : string) :
  startswith s "sessionId=" = true ->
  span_not_amp (drop 10 s) = g ->
  g <> "" ->
  search_sessionId s = Some g.
Proof.
  intros Hs Hg Hne. destruct s as [|c s]; [discriminate|].
  cbn [search_sessionId]. rewrite Hs, Hg.
  destruct g; [contradiction | reflexivity].
Qed.

(** X18. The session id put into the query of an endpoint is the one extracted:
    for an endpoint that consists of a part without [sessionId=], a
    separator such as [?] or [&], [sessionId=] and a non-empty value without
    ampersand, followed by nothing or by further parameters. *)
Theorem session_id_from_query (p : string) (sep : ascii) (v rest : string) :
  contains "sessionId=" p = false ->
  has_char sep "sessionId=" = false ->
  v <> "" ->
  has_char ampersand v = false ->
  rest = "" \/ startswith rest "&" = true ->
  SSEClient._extract_session_id (Some (p ++ String sep ("sessionId=" ++ v ++ rest)))
  = Some v.
Proof.
  intros Hp Hsep Hv Hamp Hrest.
  rewrite extract_session_id_cases by (destruct p; discriminate).
  rewrite (search_sessionId_skips p sep _ Hsep Hp).
  rewrite (search_sessionId_here ("sessionId=" ++ v ++ rest) v); auto.
  - apply startswith_app.
  - change (drop 10 ("sessionId=" ++ v ++ rest)) with (v ++ rest).
    now apply span_not_amp_value.
Qed.

Lemma contains_slash (s : string) : contains "/" s = has_char slash s.
Proof.
  induction s as [|c s IH]; [reflexivity|].
  cbn [contains has_char]. rewrite IH. f_equal.
  cbn [startswith]. replace (startswith s "") with true by (now destruct s).
  apply andb_true_r.
Qed.

Lemma last_segment_no_slash (s : string) :
  has_char slash s = false -> last_segment s = s.
Proof.
  destruct s as [|c s]; [reflexivity|]. cbn [has_char]. intros H.
  apply orb_false_iff in H as [Hc Hs].
  cbn [last_segment]. rewrite contains_slash, Hs.
  rewrite Ascii.eqb_sym. unfold slash in Hc |- *. now rewrite Hc.
Qed.

Lemma has_char_app (c : ascii) (a b : string) :
  has_char c (a ++ b) = has_char c a || has_char c b.
Proof.
  induction a as [|d a IH]; simpl; [reflexivity|]. now rewrite IH, orb_assoc.
Qed.

Lemma last_segment_after_slash (p seg : string) :
  has_char slash seg = false ->
  last_segment (p ++ String slash seg) = seg.
Proof.
  intros Hseg. induction p as [|c p IH].
  - simpl append. cbn [last_segment]. rewrite contains_slash, Hseg.
    now rewrite Ascii.eqb_refl.
  - simpl append. cbn [last_segment].
    rewrite contains_slash, has_char_app. cbn [has_char].
    rewrite Ascii.eqb_refl. cbn [orb]. rewrite orb_true_r. exact IH.
Qed.

Lemma rstrip_slashes (n : nat) : rstrip_slash (slashes n) = "".
Proof.
  induction n as [|n IH]; [reflexivity|].
  cbn [slashes rstrip_slash]. rewrite IH. reflexivity.
Qed.

Lemma rstrip_keeps (a b : string) :
  rstrip_slash b <> "" -> rstrip_slash (a ++ b) = a ++ rstrip_slash b.
Proof.
  intros Hb. induction a as [|c a IH]; [reflexivity|].
  cbn [append rstrip_slash]. rewrite IH.
  destruct (a ++ rstrip_slash b) eqn:Hab; [|reflexivity].
  destruct a; cbn [append] in Hab; [contradiction | discriminate].
Qed.

Lemma rstrip_segment (seg : string) (n : nat) :
  seg <> "" -> has_char slash seg = false ->
  rstrip_slash (seg ++ slashes n) = seg.
Proof.
  intros Hne Hno. induction seg as [|c seg IH]; [contradiction|].
  cbn [has_char] in Hno. apply orb_false_iff in Hno as [Hc Hseg].
  cbn [append rstrip_slash]. destruct seg as [|d seg].
  - cbn [append]. rewrite rstrip_slashes. rewrite Ascii.eqb_sym, Hc. reflexivity.
  - rewrite IH by (try discriminate; exact Hseg). reflexivity.
Qed.

(** X19. Without [sessionId=], the session id is the final path segment: of an
    endpoint that ends in a slash-free, non-empty segment and any number of
    trailing slashes, that segment. *)
Theorem session_id_from_path (p seg : string) (n : nat) :
  contains "sessionId=" (p ++ String slash (seg ++ slashes n)) = false ->
  seg <> "" ->
  has_char slash seg = false ->
  SSEClient._extract_session_id (Some (p ++ String slash (seg ++ slashes n)))
  = Some seg.
Proof.
  intros Hno Hne Hseg.
  unfold SSEClient._extract_session_id.
  destruct (String.eqb_spec (p ++ String slash (seg ++ slashes n)) "") as [He|_];
    [destruct p; discriminate|].
  rewrite Hno, contains_slash, has_char_app. cbn [has_char].
  rewrite Ascii.eqb_refl. cbn [orb]. rewrite orb_true_r.
  assert (Hr : rstrip_slash (String slash (seg ++ slashes n)) = String slash seg).
  { cbn [rstrip_slash]. rewrite rstrip_segment by assumption.
    destruct seg; [contradiction | reflexivity]. }
  rewrite rstrip_keeps by (rewrite Hr; discriminate).
  rewrite Hr. now rewrite last_segment_after_slash.
Qed.

(* ------------------------------------------------------------------ *)
(** ** The configuration: credentials, environment references, merging *)

(** X20. Where the API key travels. It is never both in the headers and in the
    query parameters. With the method "header" or "bearer" the stream GET and
    the POSTs of the client both carry it in a header. With "query" the
    stream GET carries it as a parameter and the POSTs, which have no
    parameters, carry no credential. With any other method nothing carries
    it. *)
Theorem credentials_in_one_place (c : MCPServerConfig.t) :
  (get_auth_headers c = [] \/ get_auth_params c = []) /\
  (MCPServerConfig.auth_method c = "header" ->
   dict_get "X-API-Key" (sse_request_headers c) = Some (MCPServerConfig.api_key c) /\
   dict_get "X-API-Key" (post_request_headers c) = Some (MCPServerConfig.api_key c) /\
   sse_request_params c = []) /\
  (MCPServerConfig.auth_method c = "bearer" ->
   dict_get "Authorization" (sse_request_headers c)
   = Some ("Bearer " ++ MCPServerConfig.api_key c) /\
   dict_get "Authorization" (post_request_headers c)
   = Some ("Bearer " ++ MCPServerConfig.api_key c) /\
   sse_request_params c = []) /\
  (MCPServerConfig.auth_method c = "query" ->
   sse_request_params c = [("api_key", MCPServerConfig.api_key c)] /\
   post_request_headers c = [("Content-Type", "application/json")]) /\
  (MCPServerConfig.auth_method c <> "header" ->
   MCPServerConfig.auth_method c <> "bearer" ->
   MCPServerConfig.auth_method c <> "query" ->
   get_auth_headers c = [] /\ get_auth_params c = []).
Proof.
  unfold sse_request_headers, post_request_headers, sse_request_params,
    get_auth_headers, get_auth_params.
  split.
  { destruct (String.eqb_spec (MCPServerConfig.auth_method c) "query") as [->|]; auto. }
  split. { intros ->. repeat split. }
  split. { intros ->. repeat split. }
  split. { intros ->. repeat split. }
  intros Hh Hb Hq. split.
  - destruct (String.eqb_spec (MCPServerConfig.auth_method c) "header");
      [contradiction|].
    now destruct (String.eqb_spec (MCPServerConfig.auth_method c) "bearer").
  - now destruct (String.eqb_spec (MCPServerConfig.auth_method c) "query").
Qed.

Lemma span_all (keep : ascii -> bool) (s rest : string) :
  all_chars keep s = true ->
  (rest = "" \/ exists c rest', rest = String c rest' /\ keep c = false) ->
  span keep (s ++ rest) = (s, rest).
Proof.
  intros Hs Hrest. induction s as [|c s IH]; cbn [append span all_chars] in *.
  - destruct Hrest as [-> | [c [rest' [-> Hc]]]]; [reflexivity|].
    cbn [span]. now rewrite Hc.
  - apply andb_true_iff in Hs as [Hc Hs]. rewrite Hc, (IH Hs). reflexivity.
Qed.

(** X21. A reference to the environment is replaced by the value of the variable,
    by the default when the variable is unset, and by the empty string when
    there is no default either; and whatever the text has after the closing
    brace is dropped with the reference. The name is a non-empty run of
    characters other than closing brace and colon, the default a run of
    characters other than closing brace. *)
Theorem resolve_reference (environ : string -> option string) (name default tail : string) :
  name <> "" ->
  all_chars name_char name = true ->
  all_chars default_char default = true ->
  resolve_value environ (JStr ("${" ++ name ++ ":-" ++ default ++ "}" ++ tail))
  = JStr (match environ name with Some v => v | None => default end) /\
  resolve_value environ (JStr ("${" ++ name ++ "}" ++ tail))
  = JStr (match environ name with Some v => v | None => "" end).
Proof.
  intros Hne Hname Hdefault.
  assert (Hn : String.eqb name "" = false) by (now apply String.eqb_neq).
  split; cbn [resolve_value]; unfold env_pattern_match;
    change ("${" ++ ?x) with (String "$"%char (String "{"%char x)); cbv iota beta.
  - rewrite (span_all name_char name (":-" ++ default ++ "}" ++ tail) Hname)
      by (right; eexists _, _; split; reflexivity).
    rewrite Hn.
    change (":-" ++ ?x) with (String ":"%char (String "-"%char x)). cbv iota beta.
    rewrite (span_all default_char default ("}" ++ tail) Hdefault)
      by (right; eexists _, _; split; reflexivity).
    reflexivity.
  - rewrite (span_all name_char name ("}" ++ tail) Hname)
      by (right; eexists _, _; split; reflexivity).
    rewrite Hn. reflexivity.
Qed.

Lemma env_pattern_needs_prefix (s : string) :
  startswith s "${" = false -> env_pattern_match s = None.
Proof.
  intros H. destruct s as [|c [|d s]].
  - reflexivity.
  - destruct c as [[] [] [] [] [] [] [] []]; reflexivity.
  - destruct c as [[] [] [] [] [] [] [] []]; try reflexivity.
    destruct d as [[] [] [] [] [] [] [] []]; try reflexivity.
    destruct s; discriminate H.
Qed.

(** X22. A configuration without references is left as it is: when no string in
    it, at whatever depth, starts with a dollar sign and an opening brace,
    resolving changes nothing. *)
Theorem resolve_without_references (environ : string -> option string) (value : json) :
  no_reference value = true -> resolve_value environ value = value.
Proof.
  induction value using json_induction; cbn [no_reference resolve_value]; intros Hv;
    try reflexivity.
  - apply negb_true_iff in Hv. now rewrite env_pattern_needs_prefix.
  - f_equal. induction H as [|x items Hx _ IH]; [reflexivity|].
    cbn [forallb] in Hv. apply andb_true_iff in Hv as [Hx' Hrest].
    cbn [map]. now rewrite (Hx Hx'), (IH Hrest).
  - f_equal. induction H as [|[k x] fields Hx _ IH]; [reflexivity|].
    cbn [forallb] in Hv. apply andb_true_iff in Hv as [Hx' Hrest].
    cbn [map fst snd] in *. now rewrite (Hx Hx'), (IH Hrest).
Qed.

Lemma dict_get_set_same {A : Type} (key : string) (value : A) (d : list (string * A)) :
  dict_get key (dict_set key value d) = Some value.
Proof.
  induction d as [|[k v] d IH]; cbn [dict_set dict_get].
  - now rewrite String.eqb_refl.
  - destruct (String.eqb k key) eqn:Hk; cbn [dict_get].
    + now rewrite String.eqb_refl.
    + now rewrite Hk.
Qed.

Lemma dict_get_set_other {A : Type} (key other : string) (value : A)
    (d : list (string * A)) :
  other <> key ->
  dict_get other (dict_set key value d) = dict_get other d.
Proof.
  intros Hne. apply String.eqb_neq in Hne.
  induction d as [|[k v] d IH]; cbn [dict_set dict_get].
  - rewrite String.eqb_sym. now rewrite Hne.
  - destruct (String.eqb_spec k key) as [->|Hk]; cbn [dict_get].
    + now rewrite String.eqb_sym, Hne.
    + now rewrite IH.
Qed.

Lemma deep_merge_cons base key value rest :
  _deep_merge base ((key, value) :: rest)
  = _deep_merge (dict_set key (merged_value (dict_get key base) value) base) rest.
Proof.
  unfold _deep_merge, merged_value. cbn [merge_into].
  destruct (dict_get key base) as [[| | | | | |b]|]; try reflexivity.
  now destruct value.
Qed.

Lemma dict_get_absent {A : Type} (key : string) (d : list (string * A)) :
  ~ In key (map fst d) -> dict_get key d = None.
Proof.
  induction d as [|[k v] d IH]; cbn [map fst In dict_get]; intros H; [reflexivity|].
  destruct (String.eqb_spec k key) as [->|]; [tauto|]. apply IH. tauto.
Qed.

(** X23. What a lookup finds after [_deep_merge]: under a key of the override,
    the override's value, merged into the old value when both are dicts;
    under any other key, what the base had. Nothing of the base is
    deleted. *)
Theorem deep_merge_lookup (override : list (string * json)) :
  forall base key,
    NoDup (map fst override) ->
    dict_get key (_deep_merge base override)
    = match dict_get key override with
      | Some value => Some (merged_value (dict_get key base) value)
      | None => dict_get key base
      end.
Proof.
  induction override as [|[k v] override IH]; intros base key Hnd.
  - reflexivity.
  - rewrite deep_merge_cons. cbn [map fst] in Hnd. inversion Hnd as [|? ? Hk Hrest]; subst.
    rewrite (IH _ key Hrest). cbn [dict_get].
    destruct (String.eqb_spec k key) as [->|Hne].
    + rewrite (dict_get_absent key override Hk). apply dict_get_set_same.
    + rewrite (dict_get_set_other k key) by congruence. reflexivity.
Qed.

(* ------------------------------------------------------------------ *)
(** ** The handshake *)

Section Handshake.

Variable L : library.

(** X24. The handshake depends on the answer to [initialize] alone: when that
    request returns a Response without error, [_initialize] returns and the
    client is initialized, whatever becomes of the notification that follows,
    be it refused with an HTTP error or lost in the network. *)
Theorem initialize_ignores_notification net script s sse endpoint response s1 :
  MCPClient._sse_client s = Some sse ->
  SSEClient.message_endpoint sse = Some endpoint ->
  endpoint <> "" ->
  MCPClient._send_request L net script
    (MCPRequest.initialize (IdInt (MCPClient._request_id s + 1)))
    (MCPClient.set_request_id (MCPClient._request_id s + 1) s) = (inr response, s1) ->
  MCPResponse.error response = None ->
  MCPClient._initialize L net script s
  = (inr tt, MCPClient.set_initialized true (MCPClient.set_http_client true s1)).
Proof.
  intros Hsse Hep Hne Hsend Herr.
  apply String.eqb_neq in Hne.
  pose proof (send_request_frame L net script
                (MCPRequest.initialize (IdInt (MCPClient._request_id s + 1)))
                (MCPClient.set_request_id (MCPClient._request_id s + 1) s)) as Hf.
  rewrite Hsend in Hf. destruct Hf as [[Ht _] _]. simpl in Ht.
  unfold MCPClient._initialize. rewrite Hsse, Hep, Hne.
  unfold MCPClient.bind at 1. unfold MCPClient._next_request_id. cbv zeta.
  unfold MCPClient.bind at 1. rewrite Hsend, Herr.
  unfold MCPClient.bind at 1. unfold MCPClient._send_notification.
  rewrite Ht, Hsse.
  unfold MCPClient.bind, MCPClient._ensure_http_client, MCPClient.ret.
  destruct (net _ MCPRequest.initialized_notification); reflexivity.
Qed.

End Handshake.

(* ------------------------------------------------------------------ *)
(** ** The further properties at work *)

Lemma sse_connect_all_or_nothing_witness :
  let '(ok, self') :=
    SSEClient.connect sample_loads (SSEClient.init sample_config) None
      (SSEClient.Opened stream_early_response) 7 7 in
  if ok then
    SSEClient._is_connected self' = true /\
    SSEClient._session self' = true /\
    SSEClient._last_event_time self' = Some 7%Q /\
    (exists rest, SSEClient._event_source self'
                  = Some {| items := rest; ending := ending stream_early_response |}) /\
    SSEClient.config self' = SSEClient.config (SSEClient.init sample_config)
  else
    self' = closed_client (SSEClient.config (SSEClient.init sample_config))
              (SSEClient._last_event_time (SSEClient.init sample_config)) \/
    self' = closed_client (SSEClient.config (SSEClient.init sample_config)) (Some 7%Q).
Proof.
  exact (sse_connect_all_or_nothing sample_loads (SSEClient.init sample_config) None
           (SSEClient.Opened stream_early_response) 7 7 eq_refl).
Defined.

Lemma sse_connect_leaves_rest_witness :
  SSEClient._event_source
    (snd (SSEClient.connect sample_loads (SSEClient.init sample_config) None
            (SSEClient.Opened stream_early_response) 0 0))
  = Some {| items := [message_event text_error_3]; ending := Silent |}.
Proof.
  refine (sse_connect_leaves_rest sample_loads (SSEClient.init sample_config) None
            stream_early_response 0 0 [message_event text_result_1] endpoint_message
            [message_event text_error_3] _ eq_refl eq_refl _ eq_refl eq_refl).
  repeat constructor.
Defined.

Lemma health_after_connect_witness :
  check_connection_health
    (snd (SSEClient.connect sample_loads (SSEClient.init sample_config) None
            (SSEClient.Opened stream_early_response) 100 100)) 161
  = Qle_bool (161 - 100) 60.
Proof.
  exact (health_after_connect sample_loads (SSEClient.init sample_config) None
           (SSEClient.Opened stream_early_response) 100 100 _ 161 eq_refl eq_refl).
Defined.

Lemma listen_yields_and_queues_witness :
  let '(out, how, self', queue') :=
    listen (client_on {| items := [heartbeat_at 1; message_event "ping"];
                         ending := Closed 2 |}) [] 0 in
  out = map sse_event_of [heartbeat_at 1; message_event "ping"] /\
  queue' = ([] ++ out)%list /\
  how = ListenWaits /\
  SSEClient._is_connected self' = true.
Proof.
  exact (listen_yields_and_queues
           (client_on {| items := [heartbeat_at 1; message_event "ping"];
                         ending := Closed 2 |}) [] 0 _
           eq_refl eq_refl).
Defined.

(** The same events on a stream that breaks: the error comes out of the
    iteration and the client is marked disconnected. *)
Example listen_on_broken_stream :
  let '(out, how, self', queue') :=
    listen (client_on {| items := [heartbeat_at 1; message_event "ping"];
                         ending := Broken 2 "Connection reset" |}) [] 0 in
  out = map sse_event_of [heartbeat_at 1; message_event "ping"] /\
  queue' = out /\
  how = ListenRaised (TransportError "Connection reset") /\
  SSEClient._is_connected self' = false.
Proof. repeat split. Qed.

Lemma heartbeat_found_witness :
  exists self',
    wait_for_heartbeat
      (client_on {| items := [empty_message; late_heartbeat; message_event "ping"];
                    ending := Silent |}) [] None 0 0
    = (Some true, self',
       ([] ++ map sse_event_of ([empty_message] ++ [late_heartbeat]))%list) /\
    SSEClient._event_source self'
    = Some {| items := [message_event "ping"]; ending := Silent |}.
Proof.
  refine (heartbeat_found 35 0 0
            (client_on {| items := [empty_message; late_heartbeat; message_event "ping"];
                          ending := Silent |}) [] None _
            [empty_message] late_heartbeat [message_event "ping"]
            eq_refl eq_refl eq_refl eq_refl _ eq_refl).
  repeat constructor.
Defined.

Lemma heartbeat_wait_has_no_deadline_witness :
  fst (fst (wait_for_heartbeat
              (client_on {| items := [empty_message]; ending := Silent |})
              [] (Some 5%Q) 0 0))
  = None.
Proof.
  refine (heartbeat_wait_has_no_deadline 5 0 0
            (client_on {| items := [empty_message]; ending := Silent |}) [] (Some 5%Q) _
            eq_refl eq_refl eq_refl eq_refl _).
  repeat constructor.
Defined.

Lemma listener_never_refreshes_liveness_witness :
  exists sse',
    MCPClient._sse_client
      (fst (MCPClient._listen_for_responses sample_library
              (listening_client [message_event text_result_1]))) = Some sse' /\
    SSEClient._last_event_time sse' = Some 0%Q /\
    forall clock,
      check_connection_health sse' clock
      = check_connection_health
          (SSEClient.mk sample_config true
             (Some {| items := [message_event text_result_1]; ending := Silent |})
             true None (Some 0%Q)) clock.
Proof.
  exact (listener_never_refreshes_liveness sample_library
           (listening_client [message_event text_result_1]) _ eq_refl).
Defined.

Lemma listener_starts_after_endpoint_witness :
  MCPClient._response_queue
    (fst (MCPClient._listen_for_responses sample_library
            (snd (MCPClient.connect sample_library env_early_response
                    (MCPClient.init sample_config 30)))))
  = (MCPClient._response_queue
       (snd (MCPClient.connect sample_library env_early_response
               (MCPClient.init sample_config 30)))
     ++ deposits sample_library [message_event text_error_3])%list.
Proof.
  refine (listener_starts_after_endpoint sample_library env_early_response
            (MCPClient.init sample_config 30) stream_early_response
            [message_event text_result_1] endpoint_message [message_event text_error_3]
            true _ _ eq_refl eq_refl _ eq_refl eq_refl eq_refl eq_refl).
  repeat constructor.
Defined.

Lemma connect_with_retry_stops_at_success_witness :
  let '(ok, self', trace) :=
    connect_with_retry sample_loads (refusing_first 2) (sample_reconnecting 5) in
  ok = true /\
  attempts trace = 3%nat /\
  sleeps trace = backoff 2 1 2 10 /\
  _reconnect_count self' = 0 + Z.of_nat 2 /\
  SSEClient._is_connected (base self') = true.
Proof.
  refine (connect_with_retry_stops_at_success sample_loads (refusing_first 2)
            (sample_reconnecting 5) 2 eq_refl _ _ eq_refl).
  - simpl. lia.
  - intros [|[|i]] Hi; [reflexivity | reflexivity | lia].
Defined.

Lemma connect_with_retry_negative_budget_witness :
  connect_with_retry sample_loads (refusing_first 0) (sample_reconnecting (-1))
  = (false, sample_reconnecting (-1), []).
Proof.
  apply (connect_with_retry_negative_budget sample_loads (refusing_first 0)
           (sample_reconnecting (-1))).
  reflexivity.
Defined.

(** The caller waits for id 7: the Response with id 1 arrives first and is
    set aside, the awaited one arrives in the second turn, and the first is
    back in the queue when the call returns. *)
Lemma wait_returns_only_awaited_witness :
  matches (Some (IdInt 7)) response_7 = true /\
  In response_7
    ([] ++ concat (map arrivals [ {| elapsed := 0; arrivals := [response_1] |};
                                  {| elapsed := 1; arrivals := [response_7] |};
                                  {| elapsed := 2; arrivals := [] |} ]))%list /\
  exists played later taken rest,
    [ {| elapsed := 0; arrivals := [response_1] |};
      {| elapsed := 1; arrivals := [response_7] |};
      {| elapsed := 2; arrivals := [] |} ] = (played ++ later)%list /\
    length played = S (length taken) /\
    ([] ++ concat (map arrivals played))%list = (taken ++ response_7 :: rest)%list /\
    Forall (fun x => matches (Some (IdInt 7)) x = false) taken /\
    [response_1] = (rest ++ [] ++ taken)%list.
Proof.
  exact (wait_returns_only_awaited (Some (IdInt 7)) 30
           [ {| elapsed := 0; arrivals := [response_1] |};
             {| elapsed := 1; arrivals := [response_7] |};
             {| elapsed := 2; arrivals := [] |} ]
           [] [] response_7 [response_1] eq_refl).
Defined.

Example wait_sets_aside_and_requeues :
  _wait_for_sse_response (Some (IdInt 7)) 30
    [ {| elapsed := 0; arrivals := [response_1] |};
      {| elapsed := 1; arrivals := [response_7] |};
      {| elapsed := 2; arrivals := [] |} ] [] []
  = (Returned response_7, [response_1]).
Proof. reflexivity. Qed.

Lemma session_id_from_query_witness :
  SSEClient._extract_session_id
    (Some ("/mcp/message" ++ String "?"%char ("sessionId=" ++ "abc-1" ++ "&x=1")))
  = Some "abc-1".
Proof.
  refine (session_id_from_query "/mcp/message" "?"%char "abc-1" "&x=1"
            eq_refl eq_refl _ eq_refl (or_intror eq_refl)).
  discriminate.
Defined.

Lemma session_id_from_path_witness :
  SSEClient._extract_session_id
    (Some ("/mcp/message" ++ String slash ("42" ++ slashes 2)))
  = Some "42".
Proof.
  refine (session_id_from_path "/mcp/message" "42" 2 eq_refl _ eq_refl).
  discriminate.
Defined.

Lemma resolve_reference_witness :
  resolve_value sample_environ
    (JStr ("${" ++ "MCP_BASE_URL" ++ ":-" ++ "http://localhost:8080" ++ "}" ++ "/x"))
  = JStr (match sample_environ "MCP_BASE_URL" with
          | Some v => v
          | None => "http://localhost:8080"
          end) /\
  resolve_value sample_environ (JStr ("${" ++ "MCP_BASE_URL" ++ "}" ++ "/x"))
  = JStr (match sample_environ "MCP_BASE_URL" with Some v => v | None => "" end).
Proof.
  refine (resolve_reference sample_environ "MCP_BASE_URL" "http://localhost:8080" "/x"
            _ eq_refl eq_refl).
  discriminate.
Defined.

Lemma resolve_without_references_witness :
  resolve_value sample_environ (JObj yaml_default) = JObj yaml_default.
Proof.
  exact (resolve_without_references sample_environ (JObj yaml_default) eq_refl).
Defined.

Lemma deep_merge_lookup_witness :
  dict_get "mcp_server" (_deep_merge yaml_default yaml_local)
  = match dict_get "mcp_server" yaml_local with
    | Some value => Some (merged_value (dict_get "mcp_server" yaml_default) value)
    | None => dict_get "mcp_server" yaml_default
    end.
Proof.
  refine (deep_merge_lookup yaml_local yaml_default "mcp_server" _).
  repeat constructor; simpl; intuition discriminate.
Defined.

(** The two files merged, and a reference resolved. *)
Example deep_merge_sample :
  _deep_merge yaml_default yaml_local
  = [("mcp_server", JObj [("base_url", JStr "http://localhost:8080");
                          ("auth_method", JStr "header");
                          ("api_key", JStr "smcp_1")]);
     ("logging", JStr "off")].
Proof. reflexivity. Qed.

Example resolve_sample :
  resolve_value sample_environ
    (JObj [("api_key", JStr "${MCP_API_KEY}"); ("url", JStr "${MCP_BASE_URL:-http://h}/sse");
           ("odd", JStr "${A:B}"); ("n", JInt 3)])
  = JObj [("api_key", JStr "smcp_1"); ("url", JStr "http://h");
          ("odd", JStr "${A:B}"); ("n", JInt 3)].
Proof. reflexivity. Qed.

Lemma initialize_ignores_notification_witness :
  MCPClient._initialize sample_library net_initialize_only [] connecting_client
  = (inr tt,
     MCPClient.set_initialized true
       (MCPClient.set_http_client true
          (MCPClient.set_http_client true (MCPClient.set_request_id 1 connecting_client)))).
Proof.
  refine (initialize_ignores_notification sample_library net_initialize_only []
            connecting_client sample_sse_client _ _ _ eq_refl eq_refl _ eq_refl eq_refl).
  discriminate.
Defined.

(** [connect] over that server: the notification is refused and the client
    is connected and initialized all the same. *)
Example connect_despite_refused_notification :
  let '(r, s') :=
    MCPClient.connect sample_library
      {| MCPClient.opening := SSEClient.Opened stream_early_response;
         MCPClient.now := 0; MCPClient.wall := 0;
         MCPClient.net := net_initialize_only; MCPClient.script := [] |}
      (MCPClient.init sample_config 30) in
  r = inr true /\ MCPClient._initialized s' = true.
Proof. split; reflexivity. Qed.
